(** * streamlit_lms_app.py : the data layer, the access checks and the scoring rule

    A shallow embedding of the single-file Streamlit LMS prototype.  The
    script talks to an SQLite file through [conn.execute] / [conn.commit],
    keeps the logged-in user and the current class / test in
    [st.session_state], and reports through [st.error], [st.warning] and
    [st.success].  Each block of the script that reacts to a button is
    embedded as one computation in a small state-and-exception monad over a
    [world] that holds the connection, the session, the rendered messages and
    the two sources of outside values ([uuid.uuid4] and [datetime.now]).

    Conventions.
    - A Python [str] is represented by the bytes of its UTF-8 encoding (a
      Rocq [string]); [s.encode("utf-8")] is then the byte list itself and
      [==] on [str] is equality of the byte strings.
    - A nullable TEXT column is an [option string].
    - [hashlib.sha256] is the FIPS 180-4 function, written out below.
    - A Python [float] and a REAL column are binary64 numbers, Rocq's
      primitive [float]; an [int] that enters a division is below [2 ^ 53]
      (it counts questions) and is converted exactly. *)

From Stdlib Require Import List String Ascii Bool Arith NArith ZArith Lia.
From Stdlib Require Import Permutation Sorted Floats Uint63.
Import ListNotations.

Set Implicit Arguments.
Open Scope string_scope.
Open Scope list_scope.
Open Scope nat_scope.

(* ================================================================== *)
(** * Python values used by the script *)

Module Py.

(** Truthiness of a [str]: the empty string is falsy. *)
Definition truthy (s : string) : bool :=
  match s with EmptyString => false | String _ _ => true end.

(** Truthiness of a nullable TEXT value: [None] and [''] are falsy. *)
Definition truthy_opt (o : option string) : bool :=
  match o with None => false | Some s => truthy s end.

(** The white space removed by [str.strip()], on the UTF-8 bytes: the
    ASCII controls 9-13 and 28-31, the space, and the encodings of U+0085,
    U+00A0, U+1680, U+2000-U+200A, U+2028, U+2029, U+202F, U+205F and
    U+3000.  [space_prefix s] is the number of bytes of the white-space
    character [s] starts with, 0 when it starts with none. *)
Definition space_prefix (s : string) : nat :=
  match map nat_of_ascii (list_ascii_of_string (substring 0 3 s)) with
  | 194 :: b :: _ => if (b =? 133) || (b =? 160) then 2 else 0
  | 225 :: 154 :: 128 :: _ => 3
  | 226 :: 128 :: b :: _ =>
      if ((128 <=? b) && (b <=? 138)) || (b =? 168) || (b =? 169) || (b =? 175)
      then 3 else 0
  | 226 :: 129 :: 159 :: _ => 3
  | 227 :: 128 :: 128 :: _ => 3
  | n :: _ => if ((9 <=? n) && (n <=? 13)) || ((28 <=? n) && (n <=? 32)) then 1 else 0
  | [] => 0
  end.

Fixpoint drop (n : nat) (s : string) : string :=
  match n, s with
  | S k, String _ r => drop k r
  | _, _ => s
  end.

(** Leading white space removed; [fuel] bounds the number of characters. *)
Fixpoint lstrip_fuel (fuel : nat) (s : string) : string :=
  match fuel with
  | O => s
  | S f =>
      match space_prefix s with
      | O => s
      | k => lstrip_fuel f (drop k s)
      end
  end.

Definition lstrip (s : string) : string := lstrip_fuel (String.length s) s.

(** [s.strip()] is truthy exactly when [s] has a character that is not
    white space; the script only ever tests [x.strip()] for truth, and a
    string whose leading white space is removed is empty exactly when the
    fully stripped one is. *)
Definition strip_truthy (s : string) : bool := truthy (lstrip s).

(** [a == b] on [str]. *)
Definition str_eq (a b : string) : bool := String.eqb a b.

(** [a == b] where [a] is a nullable column and [b] a [str]. *)
Definition opt_eq_str (a : option string) (b : string) : bool :=
  match a with None => false | Some s => String.eqb s b end.

End Py.

(* ================================================================== *)
(** * hashlib.sha256 (FIPS 180-4) *)

Module Sha256.
Local Open Scope N_scope.

Definition mask32 : N := 2 ^ 32.
Definition add32 (x y : N) : N := (x + y) mod mask32.
Definition rotr (n x : N) : N :=
  N.lor (N.shiftr x n) ((N.shiftl x (32 - n)) mod mask32).
Definition not32 (x : N) : N := N.lxor x (mask32 - 1).

Definition Ch (x y z : N) : N := N.lxor (N.land x y) (N.land (not32 x) z).
Definition Maj (x y z : N) : N :=
  N.lxor (N.lxor (N.land x y) (N.land x z)) (N.land y z).
Definition bsig0 (x : N) : N := N.lxor (N.lxor (rotr 2 x) (rotr 13 x)) (rotr 22 x).
Definition bsig1 (x : N) : N := N.lxor (N.lxor (rotr 6 x) (rotr 11 x)) (rotr 25 x).
Definition ssig0 (x : N) : N := N.lxor (N.lxor (rotr 7 x) (rotr 18 x)) (N.shiftr x 3).
Definition ssig1 (x : N) : N := N.lxor (N.lxor (rotr 17 x) (rotr 19 x)) (N.shiftr x 10).

(** The constants are defined by the standard from the first primes: the
    initial hash value from the fractional parts of their square roots and
    the round constants from those of their cube roots. *)
Definition is_prime (n : nat) : bool :=
  forallb (fun d => negb (Nat.eqb (Nat.modulo n d) 0)) (seq 2 (n - 2)).

Definition primes64 : list N :=
  Eval vm_compute in map N.of_nat (firstn 64 (filter is_prime (seq 2 320))).

(** Largest [r] below [2 ^ bits] with [r ^ 3 <= x], found bit by bit. *)
Fixpoint icbrt_from (bits : nat) (x r : N) : N :=
  match bits with
  | O => r
  | S b =>
      let c := r + 2 ^ (N.of_nat b) in
      icbrt_from b x (if c * c * c <=? x then c else r)
  end.

Definition frac_sqrt32 (p : N) : N := N.sqrt (p * 2 ^ 64) mod mask32.
Definition frac_cbrt32 (p : N) : N := icbrt_from 44 (p * 2 ^ 96) 0 mod mask32.

Definition H0 : list N := Eval vm_compute in map frac_sqrt32 (firstn 8 primes64).
Definition K : list N := Eval vm_compute in map frac_cbrt32 primes64.

(** Padding: a 1 bit, zeros up to 56 mod 64 bytes, the bit length on 8 bytes. *)
Fixpoint be_bytes (n : nat) (x : N) : list N :=
  match n with
  | O => []
  | S k => (N.shiftr x (8 * N.of_nat k)) mod 256 :: be_bytes k x
  end.

Definition pad (msg : list N) : list N :=
  let len := List.length msg in
  let zeros := ((64 - ((len + 9) mod 64)) mod 64)%nat in
  msg ++ 128 :: repeat 0 zeros ++ be_bytes 8 (8 * N.of_nat len).

Definition word_of_bytes (b3 b2 b1 b0 : N) : N :=
  N.lor (N.lor (N.shiftl b3 24) (N.shiftl b2 16)) (N.lor (N.shiftl b1 8) b0).

Fixpoint words (fuel : nat) (bs : list N) : list N :=
  match fuel, bs with
  | S f, b3 :: b2 :: b1 :: b0 :: r => word_of_bytes b3 b2 b1 b0 :: words f r
  | _, _ => []
  end.

(** The message schedule: [w] holds the words computed so far, newest first. *)
Fixpoint schedule (n : nat) (w : list N) : list N :=
  match n with
  | O => w
  | S k =>
      let nw := add32 (add32 (ssig1 (nth 1 w 0)) (nth 6 w 0))
                      (add32 (ssig0 (nth 14 w 0)) (nth 15 w 0)) in
      schedule k (nw :: w)
  end.

Definition state : Type := (N * N * N * N * N * N * N * N)%type.

Definition round (s : state) (kw : N * N) : state :=
  let '(a, b, c, d, e, f, g, h) := s in
  let '(k, w) := kw in
  let t1 := add32 (add32 (add32 h (bsig1 e)) (add32 (Ch e f g) k)) w in
  let t2 := add32 (bsig0 a) (Maj a b c) in
  (add32 t1 t2, a, b, c, add32 d t1, e, f, g).

Definition add_state (s t : state) : state :=
  let '(a, b, c, d, e, f, g, h) := s in
  let '(a', b', c', d', e', f', g', h') := t in
  (add32 a a', add32 b b', add32 c c', add32 d d',
   add32 e e', add32 f f', add32 g g', add32 h h').

Definition compress (s : state) (block : list N) : state :=
  let w := rev (schedule 48 (rev block)) in
  add_state s (fold_left round (combine K w) s).

Fixpoint blocks (fuel : nat) (ws : list N) (s : state) : state :=
  match fuel with
  | O => s
  | S f =>
      match ws with
      | [] => s
      | _ => blocks f (skipn 16 ws) (compress s (firstn 16 ws))
      end
  end.

Definition init : state :=
  match H0 with
  | [a; b; c; d; e; f; g; h] => (a, b, c, d, e, f, g, h)
  | _ => (0, 0, 0, 0, 0, 0, 0, 0)
  end.

(** The eight words of the digest. *)
Definition digest_words (msg : list N) : state :=
  let p := pad msg in
  let ws := words (List.length p) p in
  blocks (List.length ws) ws init.

Definition hex_digit (n : N) : ascii :=
  let d := n mod 16 in
  if d <? 10 then ascii_of_N (48 + d) else ascii_of_N (87 + d).

Fixpoint hex_of (digits : nat) (x : N) : string :=
  match digits with
  | O => EmptyString
  | S k => String (hex_digit (N.shiftr x (4 * N.of_nat k))) (hex_of k x)
  end.

Definition hex_of_state (s : state) : string :=
  let '(a, b, c, d, e, f, g, h) := s in
  (hex_of 8 a ++ hex_of 8 b ++ hex_of 8 c ++ hex_of 8 d ++
   hex_of 8 e ++ hex_of 8 f ++ hex_of 8 g ++ hex_of 8 h)%string.

Definition bytes_of_string (s : string) : list N :=
  map N_of_ascii (list_ascii_of_string s).

(** [hashlib.sha256(b).hexdigest()] on the bytes of [s]. *)
Definition hexdigest (s : string) : string :=
  hex_of_state (digest_words (bytes_of_string s)).

End Sha256.

(* ================================================================== *)
(** * The schema created by [init_db] (lines 43-148)

    One record per table, one field per column.  The handlers embedded
    below read and write eight of the ten tables; [attendance] and [posts]
    are touched only by the Absen and Forum tabs. *)

Record user_row := mk_user {
  user_id : string;            (* id TEXT PRIMARY KEY *)
  username : string;           (* username TEXT UNIQUE *)
  display_name : string;
  role : string;
  password_hash : string }.

Record class_row := mk_class {
  class_id : string;           (* id TEXT PRIMARY KEY *)
  class_name : string;
  class_access_code : string }.

Record material_row := mk_material {
  material_id : string;        (* id TEXT PRIMARY KEY *)
  material_class_id : string;
  material_title : string;
  material_access_code : option string;
  file_path : option string;
  external_url : option string;
  material_type : string;
  uploaded_by : string;
  uploaded_at : string }.

Record notification_row := mk_notification {
  notification_id : string;    (* id TEXT PRIMARY KEY *)
  notification_class_id : string;
  message : string;
  created_at : string }.

Record test_row := mk_test {
  test_id : string;            (* id TEXT PRIMARY KEY *)
  test_class_id : string;
  title : string;
  is_pretest : Z;
  test_created_by : string;
  test_created_at : string }.

Record question_row := mk_question {
  question_id : string;        (* id TEXT PRIMARY KEY *)
  question_test_id : string;
  text : string;
  option_a : string;
  option_b : string;
  option_c : string;
  option_d : string;
  option_e : string;
  correct_option : string }.

Record attempt_row := mk_attempt {
  attempt_id : string;         (* id TEXT PRIMARY KEY *)
  attempt_test_id : string;
  attempt_user_id : string;
  submitted_at : string;
  score : float }.             (* score REAL *)

Record answer_row := mk_answer {
  answer_id : string;          (* id TEXT PRIMARY KEY *)
  answer_attempt_id : string;
  answer_question_id : string;
  chosen_option : string }.

Record database := mk_db {
  users : list user_row;
  classes : list class_row;
  materials : list material_row;
  notifications : list notification_row;
  tests : list test_row;
  questions : list question_row;
  attempts : list attempt_row;
  answers : list answer_row }.

Definition empty_db : database := mk_db [] [] [] [] [] [] [] [].

(** ** SQL statements of the script *)

Module Sql.

(** A value occurs in a column (the check behind PRIMARY KEY and UNIQUE). *)
Definition taken {R : Type} (col : R -> string) (rows : list R) (v : string) : bool :=
  existsb (fun r => String.eqb (col r) v) rows.

(** [SELECT * FROM t WHERE col = ?], all rows in table order. *)
Definition select_where {R : Type} (col : R -> string) (v : string) (rows : list R) : list R :=
  filter (fun r => String.eqb (col r) v) rows.

(** [.fetchone()] of a result. *)
Definition fetchone {R : Type} (rows : list R) : option R := hd_error rows.

(** [ORDER BY col DESC] with the BINARY collation (bytes compared in
    order, a proper prefix first): insertion into a descending list.  SQL
    leaves the order of rows with equal keys open; here they stay in table
    order. *)
Fixpoint insert_desc {R : Type} (col : R -> string) (r : R) (sorted : list R) : list R :=
  match sorted with
  | [] => [r]
  | x :: rest =>
      if String.ltb (col r) (col x) then x :: insert_desc col r rest
      else r :: sorted
  end.

Definition order_by_desc {R : Type} (col : R -> string) (rows : list R) : list R :=
  fold_right (insert_desc col) [] rows.

(** [LIMIT n]. *)
Definition limit {R : Type} (n : nat) (rows : list R) : list R := firstn n rows.

(** INSERT statements; [None] is [sqlite3.IntegrityError]. *)
Definition insert_user (r : user_row) (db : database) : option database :=
  if taken user_id (users db) (user_id r) || taken username (users db) (username r)
  then None
  else Some (mk_db (users db ++ [r]) (classes db) (materials db) (notifications db)
                   (tests db) (questions db) (attempts db) (answers db)).

Definition insert_class (r : class_row) (db : database) : option database :=
  if taken class_id (classes db) (class_id r) then None
  else Some (mk_db (users db) (classes db ++ [r]) (materials db) (notifications db)
                   (tests db) (questions db) (attempts db) (answers db)).

Definition insert_notification (r : notification_row) (db : database) : option database :=
  if taken notification_id (notifications db) (notification_id r) then None
  else Some (mk_db (users db) (classes db) (materials db) (notifications db ++ [r])
                   (tests db) (questions db) (attempts db) (answers db)).

Definition insert_test (r : test_row) (db : database) : option database :=
  if taken test_id (tests db) (test_id r) then None
  else Some (mk_db (users db) (classes db) (materials db) (notifications db)
                   (tests db ++ [r]) (questions db) (attempts db) (answers db)).

Definition insert_question (r : question_row) (db : database) : option database :=
  if taken question_id (questions db) (question_id r) then None
  else Some (mk_db (users db) (classes db) (materials db) (notifications db)
                   (tests db) (questions db ++ [r]) (attempts db) (answers db)).

Definition insert_attempt (r : attempt_row) (db : database) : option database :=
  if taken attempt_id (attempts db) (attempt_id r) then None
  else Some (mk_db (users db) (classes db) (materials db) (notifications db)
                   (tests db) (questions db) (attempts db ++ [r]) (answers db)).

Definition insert_answer (r : answer_row) (db : database) : option database :=
  if taken answer_id (answers db) (answer_id r) then None
  else Some (mk_db (users db) (classes db) (materials db) (notifications db)
                   (tests db) (questions db) (attempts db) (answers db ++ [r])).

End Sql.

(** [hash_password] (lines 151-152). *)
Definition hash_password (pw : string) : string := Sha256.hexdigest pw.

(* ================================================================== *)
(** * The world a run of the script acts on *)

(** Exceptions that can leave a block.  [st.experimental_rerun()] stops the
    run by raising, like the others. *)
Inductive exn : Type :=
| IntegrityError       (* sqlite3.IntegrityError: PRIMARY KEY or UNIQUE violated *)
| ZeroDivisionError
| TypeError            (* subscripting [None] *)
| RerunException.

(** What a run renders. *)
Inductive ui_event : Type :=
| St_info (s : string)
| St_success (s : string)
| St_warning (s : string)
| St_error (s : string)
| St_write (s : string)
| St_markdown (s : string)
| St_embed (src : string)              (* inline pdf, video or iframe *)
| St_success_score (score_val : float).    (* st.success(f"Tersubmit. Nilai: {score_val:.1f}") *)

(** [st.session_state]; an absent key is [None]. *)
Record session_state := mk_session {
  user : option user_row;
  current_class : option class_row;
  current_test : option test_row }.

Record world := mk_world {
  disk : database;                  (* lms.db as committed *)
  conn : database;                  (* what the open connection sees *)
  session : session_state;
  ui : list ui_event;               (* rendered so far, oldest first *)
  widgets : string -> option string;(* value of a widget, by key or label *)
  pressed : option string;          (* the button clicked for this run *)
  uuid_src : nat -> string;         (* successive uuid.uuid4().hex *)
  uuid_pos : nat;
  clock_src : nat -> string;        (* successive datetime.now().isoformat() *)
  clock_pos : nat }.

Definition set_disk (d : database) (w : world) : world :=
  mk_world d (conn w) (session w) (ui w) (widgets w) (pressed w)
           (uuid_src w) (uuid_pos w) (clock_src w) (clock_pos w).
Definition set_conn (c : database) (w : world) : world :=
  mk_world (disk w) c (session w) (ui w) (widgets w) (pressed w)
           (uuid_src w) (uuid_pos w) (clock_src w) (clock_pos w).
Definition set_session (s : session_state) (w : world) : world :=
  mk_world (disk w) (conn w) s (ui w) (widgets w) (pressed w)
           (uuid_src w) (uuid_pos w) (clock_src w) (clock_pos w).
Definition set_ui (u : list ui_event) (w : world) : world :=
  mk_world (disk w) (conn w) (session w) u (widgets w) (pressed w)
           (uuid_src w) (uuid_pos w) (clock_src w) (clock_pos w).
Definition set_uuid_pos (n : nat) (w : world) : world :=
  mk_world (disk w) (conn w) (session w) (ui w) (widgets w) (pressed w)
           (uuid_src w) n (clock_src w) (clock_pos w).
Definition set_clock_pos (n : nat) (w : world) : world :=
  mk_world (disk w) (conn w) (session w) (ui w) (widgets w) (pressed w)
           (uuid_src w) (uuid_pos w) (clock_src w) n.
Definition set_inputs (wd : string -> option string) (p : option string) (w : world) : world :=
  mk_world (disk w) (conn w) (session w) (ui w) wd p
           (uuid_src w) (uuid_pos w) (clock_src w) (clock_pos w).

(** ** The monad of a block: state passing with exceptions *)

Inductive outcome (A : Type) : Type :=
| Ret (a : A) (w : world)
| Raise (e : exn) (w : world).
Arguments Ret {A} a w.
Arguments Raise {A} e w.

Definition M (A : Type) : Type := world -> outcome A.

Definition ret {A : Type} (a : A) : M A := fun w => Ret a w.
Definition bind {A B : Type} (m : M A) (k : A -> M B) : M B :=
  fun w => match m w with
           | Ret a w' => k a w'
           | Raise e w' => Raise e w'
           end.
Definition raise {A : Type} (e : exn) : M A := fun w => Raise e w.

Notation "x <- m ;; k" := (bind m (fun x => k))
  (at level 61, m at next level, right associativity).
Notation "m ;;; k" := (bind m (fun _ => k))
  (at level 61, right associativity).

(** [try: m  except sqlite3.IntegrityError: h]. *)
Definition try_except_integrity (m h : M unit) : M unit :=
  fun w => match m w with
           | Raise IntegrityError w' => h w'
           | r => r
           end.

(** [for x in l: body x]. *)
Fixpoint for_each {A : Type} (l : list A) (body : A -> M unit) : M unit :=
  match l with
  | [] => ret tt
  | x :: r => body x ;;; for_each r body
  end.

(** A loop that updates one local variable. *)
Fixpoint for_fold {A S : Type} (l : list A) (body : S -> A -> M S) (s : S) : M S :=
  match l with
  | [] => ret s
  | x :: r => s' <- body s x ;; for_fold r body s'
  end.

(** ** Primitive actions *)

Definition execute (stmt : database -> option database) : M unit :=
  fun w => match stmt (conn w) with
           | Some db => Ret tt (set_conn db w)
           | None => Raise IntegrityError w
           end.
Definition commit : M unit := fun w => Ret tt (set_disk (conn w) w).
Definition query {A : Type} (q : database -> A) : M A := fun w => Ret (q (conn w)) w.

Definition uuid4_hex : M string :=
  fun w => Ret (uuid_src w (uuid_pos w)) (set_uuid_pos (S (uuid_pos w)) w).
Definition now_isoformat : M string :=
  fun w => Ret (clock_src w (clock_pos w)) (set_clock_pos (S (clock_pos w)) w).

Definition emit (e : ui_event) : M unit := fun w => Ret tt (set_ui (ui w ++ [e]) w).

Definition get_session : M session_state := fun w => Ret (session w) w.
Definition put_session (s : session_state) : M unit := fun w => Ret tt (set_session s w).

(** [st.session_state.user[...]]: subscripting [None] raises. *)
Definition session_user : M user_row :=
  s <- get_session ;;
  match user s with
  | Some u => ret u
  | None => raise TypeError
  end.

Definition experimental_rerun {A : Type} : M A := raise RerunException.

(** Widgets.  A button is identified by its key, or by its label when it has
    no key.  A text input that was never filled returns [''], a radio or a
    select box that was never touched returns its first option. *)
Definition button_value (w : world) (k : string) : bool :=
  match pressed w with
  | Some p => String.eqb p k
  | None => false
  end.
Definition text_value (w : world) (k : string) : string :=
  match widgets w k with Some v => v | None => "" end.
Definition choice_value (w : world) (options : list string) (k : string) : string :=
  match widgets w k with Some v => v | None => hd "" options end.
Definition checkbox_value (w : world) (k : string) : bool :=
  match widgets w k with Some v => Py.truthy v | None => false end.

Definition st_button (k : string) : M bool := fun w => Ret (button_value w k) w.
Definition st_text_input (k : string) : M string := fun w => Ret (text_value w k) w.
Definition st_choice (options : list string) (k : string) : M string :=
  fun w => Ret (choice_value w options k) w.
Definition st_checkbox (k : string) : M bool := fun w => Ret (checkbox_value w k) w.

Definition raised {A : Type} (r : outcome A) : option exn :=
  match r with Ret _ _ => None | Raise e _ => Some e end.
Definition world_of {A : Type} (r : outcome A) : world :=
  match r with Ret _ w => w | Raise _ w => w end.

(** One run of the script around a page: [get_conn] opens the file as
    committed, the page renders from scratch, and whatever the page left
    uncommitted is lost when the connection goes away. *)
Definition run_script (page : M unit) (w : world) : option exn * world :=
  let r := page (set_ui [] (set_conn (disk w) w)) in
  (raised r, set_conn (disk (world_of r)) (world_of r)).

(** ** Python helpers of the scoring block *)

(** [d[k] = v] on a dict, which keeps insertion order. *)
Fixpoint dict_set (d : list (string * string)) (k v : string) : list (string * string) :=
  match d with
  | [] => [(k, v)]
  | (k', v') :: r =>
      if String.eqb k' k then (k', v) :: r else (k', v') :: dict_set r k v
  end.

(** [(score / n) * 100] in binary64, as Python evaluates it for two ints
    below [2 ^ 53]: the quotient of the two numbers rounded to the nearest
    float, then its product with 100 rounded again. *)
Definition score_val_f64 (score n : Z) : float :=
  PrimFloat.mul (PrimFloat.div (PrimFloat.of_uint63 (Uint63.of_Z score))
                               (PrimFloat.of_uint63 (Uint63.of_Z n)))
                (PrimFloat.of_uint63 100%uint63).

(** Line 336, [score_val = (score / len(qs)) * 100]: the division of two
    ints raises when the divisor is 0. *)
Definition score_val_of (score n : Z) : M float :=
  if Z.eqb n 0 then raise ZeroDivisionError
  else ret (score_val_f64 score n).

(* ================================================================== *)
(** * The blocks of the script *)

(** ** Menu "Daftar / Login" (lines 405-437) *)

(** Column "Daftar" (lines 409-425). *)
Definition daftar_block : M unit :=
  username <- st_text_input "reg_user" ;;
  display <- st_text_input "reg_display" ;;
  role <- st_choice ["student"; "teacher"] "reg_role" ;;
  pw <- st_text_input "reg_pw" ;;
  clicked <- st_button "Daftar" ;;
  if clicked then
    if negb (Py.truthy username) || negb (Py.truthy pw) then
      emit (St_error "Username dan password diperlukan")
    else
      uid <- uuid4_hex ;;
      try_except_integrity
        (execute (Sql.insert_user (mk_user uid username display role (hash_password pw))) ;;;
         commit ;;;
         emit (St_success "Akun dibuat. Silakan login di kolom sebelah."))
        (emit (St_error "Username sudah dipakai"))
  else ret tt.

(** Column "Login" (lines 427-437). *)
Definition login_block : M unit :=
  usern <- st_text_input "login_user" ;;
  pww <- st_text_input "login_pw" ;;
  clicked <- st_button "Login" ;;
  if clicked then
    row <- query (fun db => Sql.fetchone (Sql.select_where username usern (users db))) ;;
    match row with
    | Some r =>
        if Py.str_eq (password_hash r) (hash_password pww) then
          s <- get_session ;;
          put_session (mk_session (Some r) (current_class s) (current_test s)) ;;;
          emit (St_success "Login berhasil") ;;;
          experimental_rerun
        else emit (St_error "Login gagal")
    | None => emit (St_error "Login gagal")
    end
  else ret tt.

Definition akun_page : M unit := daftar_block ;;; login_block.

(** ** Menu "Buat Kelas (Guru)" (lines 440-451) *)

Definition is_teacher (s : session_state) : bool :=
  match user s with
  | Some u => Py.str_eq (role u) "teacher"
  | None => false
  end.

Definition buat_kelas_page : M unit :=
  s <- get_session ;;
  if negb (is_teacher s) then
    emit (St_warning "Hanya guru yang dapat membuat kelas. Silakan login sebagai guru.")
  else
    cname <- st_text_input "Nama Kelas" ;;
    acode <- st_text_input "Kode Akses Kelas (contoh: KLS2025) — simpan dan bagikan ke siswa" ;;
    clicked <- st_button "Buat Kelas" ;;
    if clicked && Py.strip_truthy cname && Py.strip_truthy acode then
      cid <- uuid4_hex ;;
      execute (Sql.insert_class (mk_class cid cname acode)) ;;;
      commit ;;;
      emit (St_success "Kelas dibuat. Bagikan kode akses ke siswa.")
    else ret tt.

(** ** Menu "Home" *)

(** "Masuk Kelas" (lines 193-206): one button per class; the code typed for
    the clicked class is compared with the stored one. *)
Definition masuk_kelas_item (cl : class_row) : M unit :=
  clicked <- st_button ("enter_" ++ class_id cl) ;;
  if clicked then
    code <- st_text_input ("code_input_" ++ class_id cl) ;;
    if Py.truthy code then
      if Py.str_eq code (class_access_code cl) then
        s <- get_session ;;
        put_session (mk_session (user s) (Some cl) (current_test s)) ;;;
        experimental_rerun
      else emit (St_error "Kode akses salah.")
    else ret tt
  else ret tt.

Definition masuk_kelas_block : M unit :=
  cls <- query classes ;;
  for_each cls masuk_kelas_item.

(** Tab "Materi", the listing (lines 215-240). *)

(** Lines 221-225: [false] is the [continue] that skips the content. *)
Definition material_gate (m : material_row) : M bool :=
  if Py.truthy_opt (material_access_code m) then
    code <- st_text_input ("matcode_" ++ material_id m) ;;
    if negb (Py.opt_eq_str (material_access_code m) code) then
      emit (St_warning "Masukkan kode materi untuk melihat konten") ;;;
      ret false
    else ret true
  else ret true.

(** Lines 227-239: what is shown inline, by type. *)
Definition show_material (m : material_row) : M unit :=
  let ty := material_type m in
  let src (o : option string) := match o with Some s => s | None => "" end in
  if (Py.str_eq ty "pdf" || Py.str_eq ty "flipbook") && Py.truthy_opt (file_path m) then
    emit (St_embed (src (file_path m)))
  else if Py.str_eq ty "liveworksheets" && Py.truthy_opt (external_url m) then
    emit (St_embed (src (external_url m)))
  else if Py.str_eq ty "video" then
    if Py.truthy_opt (file_path m) then emit (St_embed (src (file_path m)))
    else if Py.truthy_opt (external_url m) then emit (St_embed (src (external_url m)))
    else ret tt
  else if Py.str_eq ty "iframe" && Py.truthy_opt (external_url m) then
    emit (St_embed (src (external_url m)))
  else ret tt.

Definition materi_item (m : material_row) : M unit :=
  emit (St_markdown ("**" ++ material_title m ++ "** (tipe: " ++ material_type m ++ ")")) ;;;
  granted <- material_gate m ;;
  if granted then show_material m ;;; emit (St_markdown "---") else ret tt.

Definition materi_list (cl : class_row) : M unit :=
  mats <- query (fun db => Sql.select_where material_class_id (class_id cl) (materials db)) ;;
  for_each mats materi_item.

(** Tab "Pre/Post Test" (lines 297-368). *)

(** Lines 299-303. *)
Definition mulai_item (t : test_row) : M unit :=
  emit (St_markdown ("**" ++ title t ++ "** — " ++
                     (if Z.eqb (is_pretest t) 0 then "Postest" else "Pretest"))) ;;;
  clicked <- st_button ("start_" ++ test_id t) ;;
  if clicked then
    s <- get_session ;;
    put_session (mk_session (user s) (current_class s) (Some t)) ;;;
    experimental_rerun
  else ret tt.

(** Lines 304-313. *)
Definition buat_test_form (cl : class_row) : M unit :=
  emit (St_write "-- Buat Test Baru --") ;;;
  ttl <- st_text_input "Judul Test" ;;
  is_pre <- st_checkbox "Pretest? (Kosong = Postest)" ;;
  clicked <- st_button "Buat Test" ;;
  if clicked && Py.strip_truthy ttl then
    tid <- uuid4_hex ;;
    u <- session_user ;;
    now <- now_isoformat ;;
    execute (Sql.insert_test (mk_test tid (class_id cl) ttl (if is_pre then 1 else 0)%Z
                                      (user_id u) now)) ;;;
    commit ;;;
    experimental_rerun
  else ret tt.

(** Lines 324-328: the answers are collected from one radio per question. *)
Definition collect_answer (answers : list (string * string)) (q : question_row)
  : M (list (string * string)) :=
  emit (St_write (text q)) ;;;
  opt <- st_choice ["A"; "B"; "C"; "D"; "E"] ("q_" ++ question_id q) ;;
  ret (dict_set answers (question_id q) opt).

(** Lines 332-335: one step of the counting loop. *)
Definition count_answer (score : Z) (a : string * string) : M Z :=
  let '(qid, chosen) := a in
  qrow <- query (fun db => Sql.fetchone (Sql.select_where question_id qid (questions db))) ;;
  match qrow with
  | Some q => ret (if Py.str_eq (correct_option q) chosen then (score + 1)%Z else score)
  | None => raise TypeError
  end.

(** Lines 339-342. *)
Definition insert_chosen (attempt : string) (a : string * string) : M unit :=
  let '(qid, chosen) := a in
  aid <- uuid4_hex ;;
  execute (Sql.insert_answer (mk_answer aid attempt qid chosen)).

(** Lines 330-351: what the button "Kirim Jawaban" does. *)
Definition kirim_jawaban (cl : class_row) (t : test_row) (qs : list question_row)
           (answers : list (string * string)) : M unit :=
  attempt <- uuid4_hex ;;
  score <- for_fold answers count_answer 0%Z ;;
  score_val <- score_val_of score (Z.of_nat (List.length qs)) ;;
  u <- session_user ;;
  now <- now_isoformat ;;
  execute (Sql.insert_attempt (mk_attempt attempt (test_id t) (user_id u) now score_val)) ;;;
  for_each answers (insert_chosen attempt) ;;;
  commit ;;;
  emit (St_success_score score_val) ;;;
  nid <- uuid4_hex ;;
  u' <- session_user ;;
  now' <- now_isoformat ;;
  execute (Sql.insert_notification
             (mk_notification nid (class_id cl)
                              (display_name u' ++ " selesai " ++ title t) now')) ;;;
  commit ;;;
  s <- get_session ;;
  put_session (mk_session (user s) (current_class s) None) ;;;
  experimental_rerun.

(** Lines 354-368. *)
Definition tambah_soal_form (t : test_row) : M unit :=
  emit (St_write "-- Tambah Soal (MCQ) --") ;;;
  qtext <- st_text_input "Teks Soal" ;;
  a <- st_text_input "Opsi A" ;;
  b <- st_text_input "Opsi B" ;;
  copt <- st_text_input "Opsi C" ;;
  d <- st_text_input "Opsi D" ;;
  e <- st_text_input "Opsi E" ;;
  correct <- st_choice ["A"; "B"; "C"; "D"; "E"] "Kunci jawaban" ;;
  clicked <- st_button "Tambah Soal" ;;
  if clicked && Py.strip_truthy qtext then
    qid <- uuid4_hex ;;
    execute (Sql.insert_question (mk_question qid (test_id t) qtext a b copt d e correct)) ;;;
    commit ;;;
    experimental_rerun
  else ret tt.

(** Lines 316-368: the test being taken. *)
Definition test_flow (cl : class_row) : M unit :=
  s <- get_session ;;
  match current_test s with
  | None => ret tt
  | Some t =>
      emit (St_markdown ("### Mengerjakan: " ++ title t)) ;;;
      qs <- query (fun db => Sql.select_where question_test_id (test_id t) (questions db)) ;;
      (match qs with
       | [] => emit (St_warning
                 "Belum ada soal. Jika Anda guru, tambahkan soal di panel guru untuk test ini.")
       | _ :: _ =>
           answers <- for_fold qs collect_answer [] ;;
           clicked <- st_button "Kirim Jawaban" ;;
           if clicked then kirim_jawaban cl t qs answers else ret tt
       end) ;;;
      u <- session_user ;;
      if Py.str_eq (role u) "teacher" then tambah_soal_form t else ret tt
  end.

Definition test_tab (cl : class_row) : M unit :=
  ts <- query (fun db => Sql.select_where test_class_id (class_id cl) (tests db)) ;;
  for_each ts mulai_item ;;;
  u <- session_user ;;
  (if Py.str_eq (role u) "teacher" then buat_test_form cl else ret tt) ;;;
  test_flow cl.

(** Tab "Notifikasi" (lines 372-383). *)

Definition NOTIFICATION_LIMIT : nat := 50.

(** [SELECT * FROM notifications WHERE class_id=? ORDER BY created_at DESC LIMIT n]. *)
Definition select_notifications (n : nat) (cid : string) (db : database)
  : list notification_row :=
  Sql.limit n (Sql.order_by_desc created_at
                 (Sql.select_where notification_class_id cid (notifications db))).

Definition notifikasi_tab (cl : class_row) : M unit :=
  rows <- query (select_notifications NOTIFICATION_LIMIT (class_id cl)) ;;
  for_each rows (fun r => emit (St_write ("[" ++ created_at r ++ "] " ++ message r))) ;;;
  u <- session_user ;;
  if Py.str_eq (role u) "teacher" then
    new_notif <- st_text_input "Tulis notifikasi untuk peserta kelas" ;;
    clicked <- st_button "Kirim Notifikasi" ;;
    if clicked && Py.strip_truthy new_notif then
      nid <- uuid4_hex ;;
      now <- now_isoformat ;;
      execute (Sql.insert_notification (mk_notification nid (class_id cl) new_notif now)) ;;;
      commit ;;;
      experimental_rerun
    else ret tt
  else ret tt.

(* ================================================================== *)
(** * Definitions used to state the properties *)

(** The material's stored code is absent: NULL or the empty string. *)
Definition no_access_code (m : material_row) : Prop :=
  material_access_code m = None \/ material_access_code m = Some "".

(** The listing goes on to the content of [m] (it does not [continue]). *)
Definition material_granted (m : material_row) (w : world) : bool :=
  match material_gate m w with
  | Ret b _ => b
  | Raise _ _ => false
  end.

(** No value occurs twice (what PRIMARY KEY and UNIQUE enforce on a column). *)
Fixpoint distinct (l : list string) : bool :=
  match l with
  | [] => true
  | x :: r => negb (existsb (String.eqb x) r) && distinct r
  end.

(** The constraints of the schema hold, and every class has an access code
    that is not blank, as "Buat Kelas" requires before it inserts. *)
Definition db_ok (db : database) : bool :=
  distinct (map user_id (users db)) && distinct (map username (users db)) &&
  distinct (map class_id (classes db)) &&
  forallb (fun c => Py.strip_truthy (class_access_code c)) (classes db) &&
  distinct (map material_id (materials db)) &&
  distinct (map notification_id (notifications db)) &&
  distinct (map test_id (tests db)) &&
  distinct (map question_id (questions db)) &&
  distinct (map attempt_id (attempts db)) &&
  distinct (map answer_id (answers db)).

(** A run of "Masuk Kelas" let the user into [cl]. *)
Definition entered (cl : class_row) (r : option exn * world) : Prop :=
  fst r = Some RerunException /\ current_class (session (snd r)) = Some cl.

(* ================================================================== *)
(** * Concrete runs used as examples *)

Definition widgets_of (l : list (string * string)) : string -> option string :=
  fun k => match find (fun kv => String.eqb (fst kv) k) l with
           | Some kv => Some (snd kv)
           | None => None
           end.

Definition two_digits (n : nat) : string :=
  String (ascii_of_nat (48 + (n / 10) mod 10)) (String (ascii_of_nat (48 + n mod 10)) "").

Definition demo_uuid (n : nat) : string := "uuid-" ++ two_digits n.
Definition demo_clock (n : nat) : string :=
  "2025-01-01T10:" ++ two_digits (n / 60) ++ ":" ++ two_digits (n mod 60).

(** A fresh installation: empty tables, nobody logged in. *)
Definition world0 : world :=
  mk_world empty_db empty_db (mk_session None None None) []
           (fun _ => None) None demo_uuid 0 demo_clock 0.

(** One interaction: the widgets hold [wd], the button [btn] is clicked and
    the script runs [page]. *)
Definition interact (page : M unit) (wd : list (string * string)) (btn : string)
           (w : world) : world :=
  snd (run_script page (set_inputs (widgets_of wd) (Some btn) w)).

(** Teacher "t1" registers, logs in and creates the class "Biology" with the
    access code "KLS2025". *)
Definition demo_teacher : world :=
  interact akun_page
           [("reg_user", "t1"); ("reg_display", "Ibu Guru"); ("reg_role", "teacher");
            ("reg_pw", "rahasia")] "Daftar" world0.
Definition demo_teacher_in : world :=
  interact akun_page [("login_user", "t1"); ("login_pw", "rahasia")] "Login" demo_teacher.
Definition demo_class : world :=
  interact buat_kelas_page
           [("Nama Kelas", "Biology");
            ("Kode Akses Kelas (contoh: KLS2025) — simpan dan bagikan ke siswa", "KLS2025")]
           "Buat Kelas" demo_teacher_in.
Definition demo_class_row : class_row := mk_class "uuid-01" "Biology" "KLS2025".

(** The button of the class is clicked with [code] typed into its input. *)
Definition demo_enter (code : string) : world :=
  set_inputs (widgets_of [("code_input_uuid-01", code)]) (Some "enter_uuid-01") demo_class.

(* ================================================================== *)
(** * Registration and login: what the properties speak of *)

(** The row "Daftar" inserts for the values typed into its widgets. *)
Definition daftar_row (w : world) : user_row :=
  mk_user (uuid_src w (uuid_pos w))
          (text_value w "reg_user") (text_value w "reg_display")
          (choice_value w ["student"; "teacher"] "reg_role")
          (hash_password (text_value w "reg_pw")).

Definition msg_account_created : ui_event :=
  St_success "Akun dibuat. Silakan login di kolom sebelah.".
Definition msg_fields_required : ui_event := St_error "Username dan password diperlukan".
Definition msg_username_taken : ui_event := St_error "Username sudah dipakai".
Definition msg_login_ok : ui_event := St_success "Login berhasil".
Definition msg_login_failed : ui_event := St_error "Login gagal".

(** A run of "Login" logged [r] in. *)
Definition logged_in (r : user_row) (res : option exn * world) : Prop :=
  fst res = Some RerunException /\
  user (session (snd res)) = Some r /\
  ui (snd res) = [msg_login_ok].

(** A run of "Login" refused: the session is untouched. *)
Definition login_refused (w : world) (res : option exn * world) : Prop :=
  fst res = None /\
  session (snd res) = session w /\
  ui (snd res) = [msg_login_failed].

(* ================================================================== *)
(** * Concrete registrations and logins *)

(** "alice" registers with the password [p] on a fresh installation, then
    somebody types [q] into the login form for "alice". *)
Definition alice_registered (p : string) : world :=
  interact akun_page
           [("reg_user", "alice"); ("reg_display", "Alice"); ("reg_pw", p)] "Daftar" world0.
Definition alice_row (p : string) : user_row :=
  mk_user "uuid-00" "alice" "Alice" "student" (hash_password p).
Definition alice_login (p q : string) : world :=
  set_inputs (widgets_of [("login_user", "alice"); ("login_pw", q)]) (Some "Login")
             (alice_registered p).

(** "alice" registers a second time, with the display name and password
    of [wd]. *)
Definition alice_again (p : string) (wd : list (string * string)) : world :=
  set_inputs (widgets_of (("reg_user", "alice") :: wd)) (Some "Daftar") (alice_registered p).


(** The database with one more row in [users]. *)
Definition with_user (r : user_row) (db : database) : database :=
  mk_db (users db ++ [r]) (classes db) (materials db) (notifications db)
        (tests db) (questions db) (attempts db) (answers db).

(** "bob" registers after "alice". *)
Definition alice_and_bob (pa pb : string) : world :=
  interact akun_page
           [("reg_user", "bob"); ("reg_display", "Bob"); ("reg_pw", pb)] "Daftar"
           (alice_registered pa).

Definition bob_row (p : string) : user_row :=
  mk_user "uuid-01" "bob" "Bob" "student" (hash_password p).

(** With "alice" and "bob" registered, [q] is typed into the login form for [name]. *)
Definition login_as (pa pb name q : string) : world :=
  set_inputs (widgets_of [("login_user", name); ("login_pw", q)]) (Some "Login")
             (alice_and_bob pa pb).


(** The registration forms of "alice" (on a fresh installation) and of "bob"
    (after her), both filled with the password "hunter2". *)
Definition alice_form : world :=
  set_inputs (widgets_of [("reg_user", "alice"); ("reg_display", "Alice");
                          ("reg_pw", "hunter2")]) (Some "Daftar") world0.
Definition bob_form : world :=
  set_inputs (widgets_of [("reg_user", "bob"); ("reg_display", "Bob");
                          ("reg_pw", "hunter2")]) (Some "Daftar")
             (alice_registered "hunter2").

(* ================================================================== *)
(** * Notifications: what the property speaks of *)

(** [a] was created no earlier than [b], as the [created_at] texts compare. *)
Definition newer_or_equal (a b : notification_row) : Prop :=
  String.leb (created_at b) (created_at a) = true.


(* ================================================================== *)
(** * Taking a test: what the properties speak of *)

Definition msg_no_questions : ui_event :=
  St_warning "Belum ada soal. Jika Anda guru, tambahkan soal di panel guru untuk test ini.".

(** The questions of a test, as line 319 selects them. *)
Definition questions_of (t : test_row) (db : database) : list question_row :=
  Sql.select_where question_test_id (test_id t) (questions db).


(** The option a question is submitted with: the value of its radio, whose
    first option "A" is preselected. *)
Definition chosen (w : world) (q : question_row) : string :=
  choice_value w ["A"; "B"; "C"; "D"; "E"] ("q_" ++ question_id q).

(** The number of questions submitted with their correct option. *)
Definition correct_count (w : world) (qs : list question_row) : nat :=
  List.length (filter (fun q => String.eqb (correct_option q) (chosen w q)) qs).

(** The float that is equal to [n], for [n] below [2 ^ 53]. *)
Definition float_of_nat (n : nat) : float := PrimFloat.of_uint63 (Uint63.of_Z (Z.of_nat n)).

(** [new] holds identifiers that are not in [used] and differ from each other. *)
Fixpoint ids_fresh (used new : list string) : bool :=
  match new with
  | [] => true
  | x :: r => negb (existsb (String.eqb x) used) && ids_fresh (used ++ [x]) r
  end.

(** The [n] values [uuid.uuid4().hex] returns from the [k]-th call on. *)
Definition next_uuids (w : world) (k n : nat) : list string :=
  map (fun i => uuid_src w (uuid_pos w + k + i)) (seq 0 n).

(** The identifiers a submission of [n] answers draws are new: the first for
    the attempt, the next [n] for the answers, the last for the notification. *)
Definition submit_ids_fresh (w : world) (n : nat) : bool :=
  negb (Sql.taken attempt_id (attempts (disk w)) (uuid_src w (uuid_pos w))) &&
  ids_fresh (map answer_id (answers (disk w))) (next_uuids w 1 n) &&
  negb (Sql.taken notification_id (notifications (disk w)) (uuid_src w (uuid_pos w + 1 + n))).

(** The rows a submission writes. *)
Definition submitted_score (w : world) (qs : list question_row) : float :=
  score_val_f64 (Z.of_nat (correct_count w qs)) (Z.of_nat (List.length qs)).

Definition submitted_attempt (w : world) (t : test_row) (u : user_row)
           (qs : list question_row) : attempt_row :=
  mk_attempt (uuid_src w (uuid_pos w)) (test_id t) (user_id u)
             (clock_src w (clock_pos w)) (submitted_score w qs).

Definition submitted_answer (w : world) (iq : nat * question_row) : answer_row :=
  mk_answer (uuid_src w (uuid_pos w + 1 + fst iq)) (uuid_src w (uuid_pos w))
            (question_id (snd iq)) (chosen w (snd iq)).

Definition submitted_answers (w : world) (qs : list question_row) : list answer_row :=
  map (submitted_answer w) (combine (seq 0 (List.length qs)) qs).

Definition submitted_notification (w : world) (cl : class_row) (t : test_row)
           (u : user_row) (n : nat) : notification_row :=
  mk_notification (uuid_src w (uuid_pos w + 1 + n)) (class_id cl)
                  (display_name u ++ " selesai " ++ title t)
                  (clock_src w (S (clock_pos w))).

(** What a successful click on "Kirim Jawaban" leaves behind. *)
Record submitted (w : world) (cl : class_row) (t : test_row) (u : user_row)
       (qs : list question_row) (res : option exn * world) : Prop := {
  sub_rerun : fst res = Some RerunException;
  sub_attempts :
    attempts (disk (snd res)) = attempts (disk w) ++ [submitted_attempt w t u qs];
  sub_answers :
    answers (disk (snd res)) = answers (disk w) ++ submitted_answers w qs;
  sub_notifications :
    notifications (disk (snd res)) =
      notifications (disk w) ++ [submitted_notification w cl t u (List.length qs)];
  sub_users : users (disk (snd res)) = users (disk w);
  sub_classes : classes (disk (snd res)) = classes (disk w);
  sub_materials : materials (disk (snd res)) = materials (disk w);
  sub_tests : tests (disk (snd res)) = tests (disk w);
  sub_questions : questions (disk (snd res)) = questions (disk w);
  sub_session :
    session (snd res) = mk_session (Some u) (current_class (session w)) None;
  sub_ui :
    ui (snd res) =
      St_markdown ("### Mengerjakan: " ++ title t) ::
      map (fun q => St_write (text q)) qs ++ [St_success_score (submitted_score w qs)] }.


(** ** A test in the class "Biology"

    The teacher enters the class, creates the test "Pretest A", starts it
    and adds questions; the student "s1" registers and logs in from the same
    browser session, so the class and the test stay selected. *)
Definition demo_entered : world :=
  snd (run_script masuk_kelas_block (demo_enter "KLS2025")).

Definition on_tests (wd : list (string * string)) (btn : string) (w : world) : world :=
  interact (test_tab demo_class_row) wd btn w.

Definition demo_test : world :=
  on_tests [("Judul Test", "Pretest A"); ("Pretest? (Kosong = Postest)", "1")]
           "Buat Test" demo_entered.
Definition demo_test_row : test_row :=
  mk_test "uuid-02" "uuid-01" "Pretest A" 1 "uuid-00" "2025-01-01T10:00:00".

(** The test is started and has no question yet. *)
Definition demo_started : world := on_tests [] "start_uuid-02" demo_test.

Definition demo_question (txt key : string) (w : world) : world :=
  on_tests [("Teks Soal", txt); ("Kunci jawaban", key)] "Tambah Soal" w.

Definition demo_two : world :=
  demo_question "Q2" "B" (demo_question "Q1" "A" demo_started).
Definition demo_four : world :=
  demo_question "Q4" "D" (demo_question "Q3" "C" demo_two).

Definition with_student (w : world) : world :=
  interact akun_page [("login_user", "s1"); ("login_pw", "pw-s1")] "Login"
           (interact akun_page
                     [("reg_user", "s1"); ("reg_display", "s1"); ("reg_pw", "pw-s1")]
                     "Daftar" w).

(** The radios hold [picked] and "Kirim Jawaban" is clicked. *)
Definition demo_submit (picked : list (string * string)) (w : world) : world :=
  set_inputs (widgets_of picked) (Some "Kirim Jawaban") w.

Definition demo_q (id txt key : string) : question_row :=
  mk_question id "uuid-02" txt "" "" "" "" "" key.
Definition demo_two_questions : list question_row :=
  [demo_q "uuid-03" "Q1" "A"; demo_q "uuid-04" "Q2" "B"].
Definition demo_four_questions : list question_row :=
  demo_two_questions ++ [demo_q "uuid-05" "Q3" "C"; demo_q "uuid-06" "Q4" "D"].
Definition demo_s1 (id : string) : user_row :=
  mk_user id "s1" "s1" "student" (hash_password "pw-s1").


(** The radio of [q] was never touched. *)
Definition untouched (w : world) (q : question_row) : Prop :=
  widgets w ("q_" ++ question_id q) = None.

(** ** The handler of "Kirim Jawaban" as a function of the answers

    Lines 330-351 read the dict [answers]; the mapping below holds, for each
    question of [present] and for no other, the option [ch] gives. *)
Definition answers_for (present : list question_row) (ch : question_row -> string)
  : list (string * string) :=
  map (fun q => (question_id q, ch q)) present.

(** The number of questions of [present] answered with their correct option. *)
Definition correct_among (present : list question_row) (ch : question_row -> string) : nat :=
  List.length (filter (fun q => String.eqb (correct_option q) (ch q)) present).

(** The rows lines 339-342 insert for the mapping, for the attempt [att]. *)
Definition answer_rows (v : world) (att : string) (present : list question_row)
           (ch : question_row -> string) : list answer_row :=
  map (fun iq => mk_answer (uuid_src v (S (uuid_pos v) + fst iq)) att
                           (question_id (snd iq)) (ch (snd iq)))
      (combine (seq 0 (List.length present)) present).

(** ** A test with 25 questions

    The teacher adds 23 questions keyed "B" to the two of "Pretest A"; the
    student "s1" leaves the first radio on "A", selects "B" for the next six
    questions and leaves the other radios untouched: 7 answers are correct. *)
Fixpoint demo_more (k : nat) (w : world) : world :=
  match k with
  | O => w
  | S k' => demo_question "Q" "B" (demo_more k' w)
  end.

Definition demo_25 : world := demo_more 23 demo_two.

Definition demo_seven_right : world :=
  demo_submit [("q_uuid-04", "B"); ("q_uuid-05", "B"); ("q_uuid-06", "B");
               ("q_uuid-07", "B"); ("q_uuid-08", "B"); ("q_uuid-09", "B")]
              (with_student demo_25).


(* ================================================================== *)
(** * The tab "Virtual Lab" (lines 386-400) *)

(** [INSERT INTO materials ...]; [None] is [sqlite3.IntegrityError]. *)
Definition insert_material (r : material_row) (db : database) : option database :=
  if Sql.taken material_id (materials db) (material_id r) then None
  else Some (mk_db (users db) (classes db) (materials db ++ [r]) (notifications db)
                   (tests db) (questions db) (attempts db) (answers db)).

(** [SELECT * FROM materials WHERE class_id=? AND type='iframe']. *)
Definition select_embeds (cid : string) (db : database) : list material_row :=
  filter (fun m => String.eqb (material_class_id m) cid && String.eqb (material_type m) "iframe")
         (materials db).

Definition vlab_url_label : string :=
  "URL Iframe (misal: https://phet.colorado.edu/sims/html/pendulum/latest/pendulum_en.html)".

(** The material line 392 inserts for the address [url]. *)
Definition embed_row (mid : string) (cl : class_row) (url : string) (u : user_row)
           (now : string) : material_row :=
  mk_material mid (class_id cl) "Virtual Lab" (Some "") None (Some url) "iframe"
              (user_id u) now.

Definition virtual_lab_tab (cl : class_row) : M unit :=
  emit (St_write "Masukkan URL iframe dari PhET atau resource virtual lab lain") ;;;
  url <- st_text_input vlab_url_label ;;
  clicked <- st_button "Tambahkan Embed" ;;
  (if clicked && Py.strip_truthy url then
     mid <- uuid4_hex ;;
     u <- session_user ;;
     now <- now_isoformat ;;
     execute (insert_material (embed_row mid cl url u now)) ;;;
     commit ;;;
     experimental_rerun
   else ret tt) ;;;
  embeds <- query (select_embeds (class_id cl)) ;;
  for_each embeds
           (fun e =>
              emit (St_markdown ("**" ++ material_title e ++ "**")) ;;;
              emit (St_embed (match external_url e with Some s => s | None => "" end))).

(* ================================================================== *)
(** * Invariants of the database: what the properties speak of *)

(** A computation keeps a property [P] of the database, on the file and on
    the connection, and a property [U] of the logged-in user, however it
    ends. *)
Definition keeps {A : Type} (P : database -> Prop) (U : option user_row -> Prop)
           (m : M A) : Prop :=
  forall w : world,
    P (disk w) -> P (conn w) -> U (user (session w)) ->
    P (disk (world_of (m w))) /\ P (conn (world_of (m w))) /\
    U (user (session (world_of (m w)))).

Definition any_user : option user_row -> Prop := fun _ => True.

(** The user logged in, if any, is not a teacher. *)
Definition not_teacher : option user_row -> Prop :=
  fun o => forall u, o = Some u -> role u <> "teacher".

(** The tables of the schema that are modelled. *)
Inductive table : Type :=
| Users | Classes | Materials | Notifications | Tests | Questions | Attempts | Answers.

(** Table [t] holds the same rows, in the same order, in [d] and in [d']. *)
Definition unchanged (t : table) (d d' : database) : Prop :=
  match t with
  | Users => users d' = users d
  | Classes => classes d' = classes d
  | Materials => materials d' = materials d
  | Notifications => notifications d' = notifications d
  | Tests => tests d' = tests d
  | Questions => questions d' = questions d
  | Attempts => attempts d' = attempts d
  | Answers => answers d' = answers d
  end.

(** [l'] is [l] with rows added at the end. *)
Definition extended {R : Type} (l l' : list R) : Prop := exists added, l' = l ++ added.

(** Every table of [d'] is the table of [d] with rows added: no row was
    deleted, changed or moved. *)
Definition grows (d d' : database) : Prop :=
  extended (users d) (users d') /\ extended (classes d) (classes d') /\
  extended (materials d) (materials d') /\ extended (notifications d) (notifications d') /\
  extended (tests d) (tests d') /\ extended (questions d) (questions d') /\
  extended (attempts d) (attempts d') /\ extended (answers d) (answers d').

(** The pages and tabs of the script that are embedded here, each with the
    tables its INSERT statements name. *)
Inductive page_writes : M unit -> list table -> Prop :=
| page_akun : page_writes akun_page [Users]
| page_buat_kelas : page_writes buat_kelas_page [Classes]
| page_masuk_kelas : page_writes masuk_kelas_block []
| page_materi (cl : class_row) : page_writes (materi_list cl) []
| page_test (cl : class_row) :
    page_writes (test_tab cl) [Tests; Questions; Attempts; Answers; Notifications]
| page_notifikasi (cl : class_row) : page_writes (notifikasi_tab cl) [Notifications]
| page_virtual_lab (cl : class_row) : page_writes (virtual_lab_tab cl) [Materials].

Definition script_page (page : M unit) : Prop := exists ts, page_writes page ts.

(** One interaction after another, each with its own widget values and
    clicked button, starting from [w]. *)
Fixpoint interactions (steps : list (M unit * (string -> option string) * option string))
         (w : world) : world :=
  match steps with
  | [] => w
  | (page, wd, btn) :: rest =>
      interactions rest (snd (run_script page (set_inputs wd btn w)))
  end.

(* ================================================================== *)
(** * "Buat Kelas": what the properties speak of *)

Definition acode_label : string :=
  "Kode Akses Kelas (contoh: KLS2025) — simpan dan bagikan ke siswa".

(** The row "Buat Kelas" inserts for the values typed into its widgets. *)
Definition kelas_row (w : world) : class_row :=
  mk_class (uuid_src w (uuid_pos w)) (text_value w "Nama Kelas") (text_value w acode_label).

Definition msg_class_created : ui_event :=
  St_success "Kelas dibuat. Bagikan kode akses ke siswa.".
Definition msg_teachers_only : ui_event :=
  St_warning "Hanya guru yang dapat membuat kelas. Silakan login sebagai guru.".

(** The database with one more row in [classes]. *)
Definition with_class (r : class_row) (db : database) : database :=
  mk_db (users db) (classes db ++ [r]) (materials db) (notifications db)
        (tests db) (questions db) (attempts db) (answers db).

(* ================================================================== *)
(** * "Virtual Lab" and the listing of "Materi": what the properties speak of *)

(** The row "Tambahkan Embed" inserts for the address typed, for the user
    [u] in the class [cl]. *)
Definition vlab_row (w : world) (cl : class_row) (u : user_row) : material_row :=
  embed_row (uuid_src w (uuid_pos w)) cl (text_value w vlab_url_label) u
            (clock_src w (clock_pos w)).

(** The database with one more row in [materials]. *)
Definition with_material (r : material_row) (db : database) : database :=
  mk_db (users db) (classes db) (materials db ++ [r]) (notifications db)
        (tests db) (questions db) (attempts db) (answers db).

(** The heading of a material in the listing (line 219). *)
Definition material_heading (m : material_row) : ui_event :=
  St_markdown ("**" ++ material_title m ++ "** (tipe: " ++ material_type m ++ ")").

Definition msg_material_locked : ui_event :=
  St_warning "Masukkan kode materi untuk melihat konten".

(** The student "s1" adds a simulation to the class "Biology". *)
Definition demo_embed_url : string :=
  "https://phet.colorado.edu/sims/html/pendulum/latest/pendulum_en.html".
Definition demo_lab_click : world :=
  set_inputs (widgets_of [(vlab_url_label, demo_embed_url)]) (Some "Tambahkan Embed")
             (with_student demo_two).
Definition demo_lab : world := snd (run_script (virtual_lab_tab demo_class_row) demo_lab_click).

(* ================================================================== *)
(** * The shape of a stored password hash *)

(** A digit of lower-case hexadecimal. *)
Definition lower_hex (c : ascii) : bool :=
  existsb (Ascii.eqb c) (list_ascii_of_string "0123456789abcdef").

Fixpoint all_chars (f : ascii -> bool) (s : string) : bool :=
  match s with
  | EmptyString => true
  | String c r => f c && all_chars f r
  end.

(* ================================================================== *)
(** * Tests: what the properties speak of *)

(** The line of a test in the tab (line 300). *)
Definition test_heading (t : test_row) : ui_event :=
  St_markdown ("**" ++ title t ++ "** — " ++
               (if Z.eqb (is_pretest t) 0 then "Postest" else "Pretest")).

(** The tests of a class, as the tab lists them (line 298). *)
Definition tests_of (cl : class_row) (db : database) : list test_row :=
  Sql.select_where test_class_id (class_id cl) (tests db).

(** The row "Buat Test" inserts for the values of its widgets, for the
    teacher [u] in the class [cl]. *)
Definition buat_test_row (w : world) (cl : class_row) (u : user_row) : test_row :=
  mk_test (uuid_src w (uuid_pos w)) (class_id cl) (text_value w "Judul Test")
          (if checkbox_value w "Pretest? (Kosong = Postest)" then 1 else 0)%Z
          (user_id u) (clock_src w (clock_pos w)).

(** The database with one more row in [tests]. *)
Definition with_test (r : test_row) (db : database) : database :=
  mk_db (users db) (classes db) (materials db) (notifications db)
        (tests db ++ [r]) (questions db) (attempts db) (answers db).

(** The row "Tambah Soal" inserts for the values of its widgets, for the
    test [t]. *)
Definition tambah_soal_row (w : world) (t : test_row) : question_row :=
  mk_question (uuid_src w (uuid_pos w)) (test_id t) (text_value w "Teks Soal")
              (text_value w "Opsi A") (text_value w "Opsi B") (text_value w "Opsi C")
              (text_value w "Opsi D") (text_value w "Opsi E")
              (choice_value w ["A"; "B"; "C"; "D"; "E"] "Kunci jawaban").

(** The database with one more row in [questions]. *)
Definition with_question (r : question_row) (db : database) : database :=
  mk_db (users db) (classes db) (materials db) (notifications db)
        (tests db) (questions db ++ [r]) (attempts db) (answers db).

(* ================================================================== *)
(** * Notifications: what the properties speak of *)

Definition notif_label : string := "Tulis notifikasi untuk peserta kelas".

(** The line of a notification in the tab (line 375). *)
Definition notification_line (r : notification_row) : ui_event :=
  St_write ("[" ++ created_at r ++ "] " ++ message r).

(** The row "Kirim Notifikasi" inserts for the text typed, in the class [cl]. *)
Definition notif_row (w : world) (cl : class_row) : notification_row :=
  mk_notification (uuid_src w (uuid_pos w)) (class_id cl) (text_value w notif_label)
                  (clock_src w (clock_pos w)).

(** The database with one more row in [notifications]. *)
Definition with_notification (r : notification_row) (db : database) : database :=
  mk_db (users db) (classes db) (materials db) (notifications db ++ [r])
        (tests db) (questions db) (attempts db) (answers db).

(*THEOREMS*)

(* ================================================================== *)
(** * hashlib.sha256: the standard's test vectors *)

Example sha_empty : Sha256.hexdigest "" = "e3b0c44298fc1c149afbf4c8996fb92427ae41e4649b934ca495991b7852b855"%string.
Proof. vm_compute. reflexivity. Qed.
Example sha_abc : Sha256.hexdigest "abc" = "ba7816bf8f01cfea414140de5dae2223b00361a396177a9cb410ff61f20015ad"%string.
Proof. vm_compute. reflexivity. Qed.
Example sha_two_blocks : Sha256.hexdigest "abcdbcdecdefdefgefghfghighijhijkijkljklmklmnlmnomnopnopq" = "248d6a61d20638b8e5c026930c3e6039a33ce45964ff2167f6ecedd419db06c1"%string.
Proof. vm_compute. reflexivity. Qed.
Example sha_hunter2 : Sha256.hexdigest "hunter2" = "f52fbd32b2b3b86ff88ef6c490628285f482af15ddcb29541f94bcf526a3f6c7"%string.
Proof. vm_compute. reflexivity. Qed.


(* ================================================================== *)
(** * Generic facts on worlds, the monad and columns *)

Ltac is_world_field P :=
  lazymatch P with
  | disk => idtac | conn => idtac | session => idtac | ui => idtac
  | widgets => idtac | pressed => idtac | uuid_src => idtac | uuid_pos => idtac
  | clock_src => idtac | clock_pos => idtac
  end.

Ltac is_world_update S :=
  lazymatch S with
  | set_disk => idtac | set_conn => idtac | set_session => idtac | set_ui => idtac
  | set_uuid_pos => idtac | set_clock_pos => idtac
  end.

Ltac field_of_update t :=
  eval cbn [disk conn session ui widgets pressed uuid_src uuid_pos clock_src clock_pos
            set_disk set_conn set_session set_ui set_uuid_pos set_clock_pos set_inputs] in t.

(** Reads a field through the updates made to a world. *)
Ltac world_simpl :=
  cbn [raised world_of fst snd] in *;
  repeat match goal with
         | |- context [?P (?S ?x ?w)] =>
             is_world_field P; is_world_update S;
             let t := field_of_update (P (S x w)) in
             change (P (S x w)) with t
         | |- context [?P (set_inputs ?a ?b ?w)] =>
             is_world_field P;
             let t := field_of_update (P (set_inputs a b w)) in
             change (P (set_inputs a b w)) with t
         | H : context [?P (?S ?x ?w)] |- _ =>
             is_world_field P; is_world_update S;
             let t := field_of_update (P (S x w)) in
             change (P (S x w)) with t in H
         | H : context [?P (set_inputs ?a ?b ?w)] |- _ =>
             is_world_field P;
             let t := field_of_update (P (set_inputs a b w)) in
             change (P (set_inputs a b w)) with t in H
         end.

Lemma for_each_app {A : Type} (l1 l2 : list A) (body : A -> M unit) (w : world) :
  for_each (l1 ++ l2) body w =
  match for_each l1 body w with
  | Ret _ w' => for_each l2 body w'
  | Raise e w' => Raise e w'
  end.
Proof.
  revert w. induction l1 as [|x l1 IH]; intros w; cbn [for_each app].
  - reflexivity.
  - unfold bind. destruct (body x w) as [[] w'|e w']; [apply IH | reflexivity].
Qed.

Lemma eqb_prefix (p a b : string) : String.eqb (p ++ a)%string (p ++ b)%string = String.eqb a b.
Proof.
  induction p as [|c p IH]; cbn [append String.eqb]; [reflexivity|].
  now rewrite Ascii.eqb_refl.
Qed.

Lemma distinct_NoDup (l : list string) : distinct l = true <-> NoDup l.
Proof.
  induction l as [|x l IH]; cbn [distinct].
  - split; [constructor | reflexivity].
  - rewrite andb_true_iff, negb_true_iff, IH. split.
    + intros [Hx Hl]. constructor; [|exact Hl].
      intros Hin. assert (existsb (String.eqb x) l = true) as E.
      { apply existsb_exists. exists x. split; [exact Hin | apply String.eqb_refl]. }
      congruence.
    + intros H. inversion H as [|? ? Hx Hl]; subst. split; [|exact Hl].
      destruct (existsb (String.eqb x) l) eqn:E; [|reflexivity].
      apply existsb_exists in E as (y & Hy & Exy). apply String.eqb_eq in Exy. now subst y.
Qed.

(* ================================================================== *)
(** * Access codes *)

Lemma truthy_false_iff (s : string) : Py.truthy s = false <-> s = "".
Proof. destruct s; simpl; split; congruence. Qed.

Lemma truthy_opt_false_iff (o : option string) :
  Py.truthy_opt o = false <-> o = None \/ o = Some "".
Proof.
  destruct o as [s|]; simpl.
  - rewrite truthy_false_iff. split.
    + intros ->. now right.
    + intros [H|H]; congruence.
  - split; auto.
Qed.

(** C7. A material without an access code is shown unconditionally; one with
    a code is shown exactly when the code typed into its input is equal,
    character for character, to the stored code. *)
Theorem material_access_by_exact_code (m : material_row) (w : world) :
  material_granted m w = true <->
  (no_access_code m \/
   material_access_code m = Some (text_value w ("matcode_" ++ material_id m))).
Proof.
  unfold material_granted, material_gate, no_access_code, Py.opt_eq_str.
  unfold bind, st_text_input, emit, ret.
  destruct (material_access_code m) as [stored|] eqn:Hm; cbn [Py.truthy_opt].
  - destruct (Py.truthy stored) eqn:Ht.
    + destruct (String.eqb_spec stored (text_value w ("matcode_" ++ material_id m)))
        as [He|He]; cbn [negb].
      * split; [intros _; right; now rewrite <- He | reflexivity].
      * split; [discriminate|].
        intros [[H|H]|H]; [discriminate| |].
        -- injection H as ->. discriminate.
        -- injection H as H. contradiction.
    + apply truthy_false_iff in Ht. subst stored. split; auto.
  - split; auto.
Qed.

(** ** "Masuk Kelas" *)

Lemma masuk_kelas_not_clicked (cls : list class_row) (w : world) (k : string) :
  pressed w = Some ("enter_" ++ k)%string ->
  ~ In k (map class_id cls) ->
  for_each cls masuk_kelas_item w = Ret tt w.
Proof.
  intros Hp. induction cls as [|c cls IH]; intros Hk; cbn [for_each].
  - reflexivity.
  - unfold bind at 1. unfold masuk_kelas_item at 1. unfold bind at 1, st_button, button_value.
    rewrite Hp, eqb_prefix.
    destruct (String.eqb_spec k (class_id c)) as [E|E].
    + elim Hk. left. now rewrite E.
    + unfold ret at 1. apply IH. intros Hin. apply Hk. now right.
Qed.

Lemma masuk_kelas_clicked (cl : class_row) (w : world) :
  pressed w = Some ("enter_" ++ class_id cl)%string ->
  masuk_kelas_item cl w =
  let code := text_value w ("code_input_" ++ class_id cl) in
  if Py.truthy code then
    if String.eqb code (class_access_code cl) then
      Raise RerunException
            (set_session (mk_session (user (session w)) (Some cl) (current_test (session w))) w)
    else Ret tt (set_ui (ui w ++ [St_error "Kode akses salah."]) w)
  else Ret tt w.
Proof.
  intros Hp. unfold masuk_kelas_item, bind, st_button, button_value, st_text_input.
  rewrite Hp, String.eqb_refl. cbv zeta.
  destruct (Py.truthy _); [|reflexivity].
  unfold Py.str_eq. destruct (String.eqb _ _); reflexivity.
Qed.

Lemma db_ok_classes (db : database) :
  db_ok db = true ->
  NoDup (map class_id (classes db)) /\
  (forall c, In c (classes db) -> class_access_code c <> "").
Proof.
  unfold db_ok. rewrite !andb_true_iff.
  intros (((((((((_ & _) & Hc) & Hcode) & _) & _) & _) & _) & _) & _).
  split; [now apply distinct_NoDup|].
  intros c Hin E. rewrite forallb_forall in Hcode. specialize (Hcode c Hin).
  rewrite E in Hcode. discriminate.
Qed.

Lemma NoDup_split_key {R : Type} (key : R -> string) (l1 l2 : list R) (x : R) :
  NoDup (map key (l1 ++ x :: l2)) ->
  ~ In (key x) (map key l1) /\ ~ In (key x) (map key l2).
Proof.
  rewrite map_app. cbn [map]. intros H.
  apply NoDup_remove_2 in H. split; intros Hin; apply H; apply in_or_app; auto.
Qed.

(** C6. With the button of a class clicked, the user enters the class exactly
    when the code typed is equal, character for character, to the stored
    code; any other code, the empty one included, leaves the session and the
    database as they were. *)
Theorem class_access_by_exact_code (w : world) (cl : class_row) :
  db_ok (disk w) = true ->
  In cl (classes (disk w)) ->
  pressed w = Some ("enter_" ++ class_id cl)%string ->
  let code := text_value w ("code_input_" ++ class_id cl) in
  let r := run_script masuk_kelas_block w in
  (entered cl r <-> code = class_access_code cl) /\
  (code <> class_access_code cl ->
   fst r = None /\ session (snd r) = session w /\ disk (snd r) = disk w).
Proof.
  intros Hok Hin Hp code r.
  destruct (@db_ok_classes _ Hok) as [Hnd Hcode].
  specialize (Hcode cl Hin).
  destruct (in_split _ _ Hin) as (l1 & l2 & Hsplit).
  rewrite Hsplit in Hnd. apply NoDup_split_key in Hnd as [H1 H2].
  pose (w0 := set_ui [] (set_conn (disk w) w)).
  assert (Hrun : masuk_kelas_block w0 =
                 match masuk_kelas_item cl w0 with
                 | Ret _ w' => for_each l2 masuk_kelas_item w'
                 | Raise e w' => Raise e w'
                 end).
  { unfold masuk_kelas_block, bind, query.
    change (classes (conn w0)) with (classes (disk w)).
    rewrite Hsplit, for_each_app.
    rewrite (@masuk_kelas_not_clicked l1 w0 _ Hp H1). reflexivity. }
  rewrite (@masuk_kelas_clicked cl w0 Hp) in Hrun. cbv zeta in Hrun.
  change (text_value w0 ("code_input_" ++ class_id cl)) with code in Hrun.
  subst r. unfold run_script, entered. fold w0. rewrite Hrun. clear Hrun.
  destruct (Py.truthy code) eqn:Ht.
  - destruct (String.eqb_spec code (class_access_code cl)) as [E|E].
    + subst w0. world_simpl. split; [tauto | contradiction].
    + rewrite (@masuk_kelas_not_clicked l2 (set_ui (ui w0 ++ [St_error "Kode akses salah."]) w0) _ Hp H2).
      subst w0. world_simpl.
      split; [split; [intros [? _]; discriminate | contradiction] | auto].
  - apply truthy_false_iff in Ht.
    rewrite (@masuk_kelas_not_clicked l2 w0 _ Hp H2). subst w0. world_simpl.
    split; [split; [intros [? _]; discriminate | congruence] | auto].
Qed.
Example demo_class_created : classes (disk demo_class) = [demo_class_row].
Proof. vm_compute. reflexivity. Qed.

(** The class created with the code "KLS2025" lets "KLS2025" in and keeps
    "kls2025" and the empty code out. *)
Lemma class_access_KLS2025 :
  entered demo_class_row (run_script masuk_kelas_block (demo_enter "KLS2025")) /\
  ~ entered demo_class_row (run_script masuk_kelas_block (demo_enter "kls2025")) /\
  ~ entered demo_class_row (run_script masuk_kelas_block (demo_enter "")).
Proof.
  split; [|split].
  - destruct (@class_access_by_exact_code (demo_enter "KLS2025") demo_class_row)
      as [H _]; [vm_compute; reflexivity | vm_compute; auto | reflexivity |].
    apply H. reflexivity.
  - destruct (@class_access_by_exact_code (demo_enter "kls2025") demo_class_row)
      as [H _]; [vm_compute; reflexivity | vm_compute; auto | reflexivity |].
    intros E. apply H in E. discriminate E.
  - destruct (@class_access_by_exact_code (demo_enter "") demo_class_row)
      as [H _]; [vm_compute; reflexivity | vm_compute; auto | reflexivity |].
    intros E. apply H in E. discriminate E.
Defined.
(* ================================================================== *)
(** * Registration and login *)

Lemma daftar_block_clicked (w : world) :
  pressed w = Some "Daftar" ->
  daftar_block w =
  if negb (Py.truthy (text_value w "reg_user")) || negb (Py.truthy (text_value w "reg_pw"))
  then Ret tt (set_ui (ui w ++ [msg_fields_required]) w)
  else
    let w1 := set_uuid_pos (S (uuid_pos w)) w in
    match Sql.insert_user (daftar_row w) (conn w) with
    | Some db =>
        Ret tt (set_ui (ui w ++ [msg_account_created]) (set_disk db (set_conn db w1)))
    | None => Ret tt (set_ui (ui w ++ [msg_username_taken]) w1)
    end.
Proof.
  intros Hp.
  unfold daftar_block, bind, st_text_input, st_choice, st_button, button_value.
  rewrite Hp. cbn [String.eqb Ascii.eqb Bool.eqb andb].
  destruct (negb (Py.truthy (text_value w "reg_user")) ||
            negb (Py.truthy (text_value w "reg_pw"))); [reflexivity|].
  unfold uuid4_hex, try_except_integrity, execute, commit, emit, daftar_row. cbv zeta.
  world_simpl.
  destruct (Sql.insert_user _ (conn w)); reflexivity.
Qed.

Lemma login_block_not_clicked (w : world) (b : string) :
  pressed w = Some b -> b <> "Login" -> login_block w = Ret tt w.
Proof.
  intros Hp Hb. unfold login_block, bind, st_text_input, st_button, button_value.
  rewrite Hp. apply String.eqb_neq in Hb. now rewrite Hb.
Qed.

Lemma daftar_block_not_clicked (w : world) (b : string) :
  pressed w = Some b -> b <> "Daftar" -> daftar_block w = Ret tt w.
Proof.
  intros Hp Hb. unfold daftar_block, bind, st_text_input, st_choice, st_button, button_value.
  rewrite Hp. apply String.eqb_neq in Hb. now rewrite Hb.
Qed.

Lemma login_block_clicked (w : world) :
  pressed w = Some "Login" ->
  login_block w =
  match Sql.fetchone (Sql.select_where username (text_value w "login_user") (users (conn w))) with
  | Some r =>
      if String.eqb (password_hash r) (hash_password (text_value w "login_pw")) then
        Raise RerunException
              (set_ui (ui w ++ [msg_login_ok])
                      (set_session (mk_session (Some r) (current_class (session w))
                                               (current_test (session w))) w))
      else Ret tt (set_ui (ui w ++ [msg_login_failed]) w)
  | None => Ret tt (set_ui (ui w ++ [msg_login_failed]) w)
  end.
Proof.
  intros Hp.
  unfold login_block, bind, st_text_input, st_button, button_value, query.
  rewrite Hp. cbn [String.eqb Ascii.eqb Bool.eqb andb].
  destruct (Sql.fetchone _) as [r|]; [|reflexivity].
  unfold Py.str_eq. destruct (String.eqb _ _); reflexivity.
Qed.
(* ================================================================== *)
(** * Columns with a uniqueness constraint *)

Lemma taken_false_select_nil {R : Type} (col : R -> string) (rows : list R) (v : string) :
  Sql.taken col rows v = false -> Sql.select_where col v rows = [].
Proof.
  unfold Sql.taken, Sql.select_where. induction rows as [|x rows IH]; cbn [existsb filter].
  - reflexivity.
  - intros H. apply orb_false_iff in H as [Hx Hr]. rewrite Hx. now apply IH.
Qed.

Lemma taken_true_iff {R : Type} (col : R -> string) (rows : list R) (v : string) :
  Sql.taken col rows v = true <-> In v (map col rows).
Proof.
  unfold Sql.taken. rewrite existsb_exists, in_map_iff. split.
  - intros (x & Hx & E). apply String.eqb_eq in E. now exists x.
  - intros (x & E & Hx). exists x. split; [exact Hx|]. now apply String.eqb_eq.
Qed.

Lemma select_where_unique {R : Type} (col : R -> string) (rows : list R) (r : R) :
  NoDup (map col rows) -> In r rows -> Sql.select_where col (col r) rows = [r].
Proof.
  unfold Sql.select_where. induction rows as [|x rows IH]; cbn [map filter]; intros Hnd Hin.
  - destruct Hin.
  - inversion Hnd as [|? ? Hx Hrows]; subst. destruct Hin as [->|Hin].
    + rewrite String.eqb_refl. f_equal.
      apply (@taken_false_select_nil R col rows (col r)).
      destruct (Sql.taken col rows (col r)) eqn:E; [|reflexivity].
      apply taken_true_iff in E. contradiction.
    + destruct (String.eqb_spec (col x) (col r)) as [E|E].
      * elim Hx. rewrite E. now apply in_map.
      * now apply IH.
Qed.

Lemma db_ok_usernames (db : database) :
  db_ok db = true -> NoDup (map username (users db)).
Proof.
  unfold db_ok. rewrite !andb_true_iff.
  intros (((((((((_ & Hu) & _) & _) & _) & _) & _) & _) & _) & _).
  now apply distinct_NoDup.
Qed.

(** ** Login *)

Lemma akun_page_login (w : world) :
  pressed w = Some "Login" ->
  akun_page w = login_block w.
Proof.
  intros Hp. unfold akun_page, bind.
  rewrite (@daftar_block_not_clicked w "Login" Hp); [reflexivity | discriminate].
Qed.

Lemma login_run (w : world) (r : user_row) :
  NoDup (map username (users (disk w))) ->
  In r (users (disk w)) ->
  pressed w = Some "Login" ->
  text_value w "login_user" = username r ->
  (hash_password (text_value w "login_pw") = password_hash r ->
   logged_in r (run_script akun_page w)) /\
  (hash_password (text_value w "login_pw") <> password_hash r ->
   login_refused w (run_script akun_page w)).
Proof.
  intros Hnd Hin Hp Hu.
  pose (w0 := set_ui [] (set_conn (disk w) w)).
  assert (Hrun : akun_page w0 =
    if String.eqb (password_hash r) (hash_password (text_value w "login_pw")) then
      Raise RerunException
            (set_ui (ui w0 ++ [msg_login_ok])
                    (set_session (mk_session (Some r) (current_class (session w0))
                                             (current_test (session w0))) w0))
    else Ret tt (set_ui (ui w0 ++ [msg_login_failed]) w0)).
  { rewrite (@akun_page_login w0 Hp), (@login_block_clicked w0 Hp).
    change (text_value w0 "login_user") with (text_value w "login_user").
    change (text_value w0 "login_pw") with (text_value w "login_pw").
    change (users (conn w0)) with (users (disk w)).
    rewrite Hu, (select_where_unique username (users (disk w)) r Hnd Hin).
    reflexivity. }
  unfold run_script, logged_in, login_refused. fold w0. rewrite Hrun. clear Hrun.
  destruct (String.eqb_spec (password_hash r) (hash_password (text_value w "login_pw")))
    as [E|E]; subst w0; world_simpl.
  - split; [intros _; repeat split | intros H; congruence].
  - split; [intros H; congruence | intros _; repeat split].
Qed.
Lemma akun_page_daftar (w : world) :
  pressed w = Some "Daftar" ->
  akun_page w = daftar_block w.
Proof.
  intros Hp. unfold akun_page, bind.
  rewrite (@daftar_block_clicked w Hp).
  destruct (negb _ || negb _).
  - apply login_block_not_clicked with (b := "Daftar"); [exact Hp | discriminate].
  - cbv zeta. destruct (Sql.insert_user _ _);
      (apply login_block_not_clicked with (b := "Daftar"); [exact Hp | discriminate]).
Qed.

Lemma truthy_true_iff (s : string) : Py.truthy s = true <-> s <> "".
Proof. destruct s; simpl; split; congruence. Qed.



(** ** Daftar *)

Lemma insert_user_spec (r : user_row) (db : database) :
  Sql.insert_user r db =
  if Sql.taken user_id (users db) (user_id r) || Sql.taken username (users db) (username r)
  then None else Some (with_user r db).
Proof. reflexivity. Qed.

(** The three ways a click on "Daftar" ends. *)
Lemma daftar_run (w : world) :
  pressed w = Some "Daftar" ->
  let res := run_script akun_page w in
  let u := text_value w "reg_user" in
  let pw := text_value w "reg_pw" in
  let clash := Sql.taken user_id (users (disk w)) (uuid_src w (uuid_pos w)) ||
               Sql.taken username (users (disk w)) u in
  fst res = None /\ session (snd res) = session w /\
  ((u = "" \/ pw = "") /\
     ui (snd res) = [msg_fields_required] /\ disk (snd res) = disk w
   \/
   (u <> "" /\ pw <> "" /\ clash = true) /\
     ui (snd res) = [msg_username_taken] /\ disk (snd res) = disk w
   \/
   (u <> "" /\ pw <> "" /\ clash = false) /\
     ui (snd res) = [msg_account_created] /\
     disk (snd res) = with_user (daftar_row w) (disk w)).
Proof.
  intros Hp res u pw clash. subst res. unfold run_script.
  pose (w0 := set_ui [] (set_conn (disk w) w)). fold w0.
  rewrite (@akun_page_daftar w0 Hp), (@daftar_block_clicked w0 Hp).
  change (text_value w0 "reg_user") with u. change (text_value w0 "reg_pw") with pw.
  change (daftar_row w0) with (daftar_row w). change (conn w0) with (disk w).
  destruct (Py.truthy u) eqn:Hu; [destruct (Py.truthy pw) eqn:Hpw|]; cbn [negb orb].
  - apply truthy_true_iff in Hu, Hpw. cbv zeta. rewrite insert_user_spec.
    change (user_id (daftar_row w)) with (uuid_src w (uuid_pos w)).
    change (username (daftar_row w)) with u. fold clash.
    destruct clash; subst w0; world_simpl.
    + repeat split. right. left. repeat split; assumption.
    + repeat split. right. right. repeat split; assumption.
  - apply truthy_false_iff in Hpw. subst w0; world_simpl.
    repeat split. left. repeat split. now right.
  - apply truthy_false_iff in Hu. subst w0; world_simpl.
    repeat split. left. repeat split. now left.
Qed.
Lemma taken_app {R : Type} (col : R -> string) (l1 l2 : list R) (v : string) :
  Sql.taken col (l1 ++ l2) v = Sql.taken col l1 v || Sql.taken col l2 v.
Proof. unfold Sql.taken. apply existsb_app. Qed.

(** C4 (as amended). After a successful "Daftar", a second "Daftar" with the
    same username never succeeds and leaves the database as the first call
    left it: the table still holds exactly one row with that username, the
    row the first call inserted.  The message is "Username sudah dipakai"
    when a password was typed, raised by the UNIQUE constraint, and the
    required-field message when the password was left empty. *)
Theorem second_registration_rejected (w : world) (wd2 : string -> option string) :
  pressed w = Some "Daftar" ->
  let w1 := snd (run_script akun_page w) in
  let w2 := set_inputs wd2 (Some "Daftar") w1 in
  let res := run_script akun_page w2 in
  ui w1 = [msg_account_created] ->
  text_value w2 "reg_user" = text_value w "reg_user" ->
  fst res = None /\
  disk (snd res) = disk w1 /\
  Sql.select_where username (text_value w "reg_user") (users (disk (snd res))) =
    [daftar_row w] /\
  ui (snd res) =
    [if Py.truthy (text_value w2 "reg_pw") then msg_username_taken else msg_fields_required].
Proof.
  intros Hp w1 w2 res Hui Hsame.
  destruct (@daftar_run w Hp) as (_ & _ & [(_ & Hui1 & _)|[(_ & Hui1 & _)|(Hfirst & _ & Hdisk1)]]);
    fold w1 in Hui1 || fold w1 in Hdisk1;
    try (rewrite Hui in Hui1; discriminate Hui1).
  destruct Hfirst as (Hu & Hpw & Hclash).
  apply orb_false_iff in Hclash as [_ Hfree].
  assert (Hdisk2 : disk w2 = with_user (daftar_row w) (disk w)) by exact Hdisk1.
  assert (Hsel : Sql.select_where username (text_value w "reg_user") (users (disk w1)) =
                 [daftar_row w]).
  { rewrite Hdisk1. unfold with_user, Sql.select_where. cbn [users].
    rewrite filter_app.
    change (filter _ (users (disk w))) with
      (Sql.select_where username (text_value w "reg_user") (users (disk w))).
    rewrite (taken_false_select_nil _ _ _ Hfree).
    cbn [filter app daftar_row username]. now rewrite String.eqb_refl. }
  assert (Htaken : Sql.taken username (users (disk w2)) (text_value w2 "reg_user") = true).
  { rewrite Hdisk2, Hsame. unfold with_user. cbn [users]. rewrite taken_app.
    unfold Sql.taken at 2. cbn [existsb daftar_row username].
    rewrite String.eqb_refl. apply orb_true_iff. right. reflexivity. }
  assert (Hp2 : pressed w2 = Some "Daftar") by reflexivity.
  destruct (@daftar_run w2 Hp2) as (Hnone & _ & Hcases). fold res in Hnone, Hcases.
  split; [exact Hnone|].
  destruct Hcases as [(Hempty & Hui2 & Hd)|[((_ & Hpw2 & _) & Hui2 & Hd)|((_ & _ & Hno) & _)]].
  - destruct Hempty as [E|E]; [rewrite Hsame in E; contradiction|].
    rewrite E, Hd. cbn [Py.truthy]. repeat split; assumption.
  - apply truthy_true_iff in Hpw2. rewrite Hpw2, Hd. repeat split; assumption.
  - apply orb_false_iff in Hno as [_ Hno]. congruence.
Qed.

(** "alice" registers with "hunter2"; a second registration of "alice" with
    another password is answered "Username sudah dipakai". *)
Lemma second_registration_of_alice :
  let res := run_script akun_page (alice_again "hunter2" [("reg_pw", "letmein")]) in
  fst res = None /\
  disk (snd res) = disk (alice_registered "hunter2") /\
  Sql.select_where username "alice" (users (disk (snd res))) = [alice_row "hunter2"] /\
  ui (snd res) = [msg_username_taken].
Proof.
  apply (@second_registration_rejected
           (set_inputs (widgets_of [("reg_user", "alice"); ("reg_display", "Alice");
                                    ("reg_pw", "hunter2")]) (Some "Daftar") world0)
           (widgets_of [("reg_user", "alice"); ("reg_pw", "letmein")])).
  - reflexivity.
  - vm_compute. reflexivity.
  - reflexivity.
Defined.

(** C4, where it fails as stated: the second "Daftar" for "alice" with the
    password left empty is not answered "Username sudah dipakai" but with the
    required-field message of line 416. *)
Lemma second_registration_without_password :
  ui (alice_registered "hunter2") = [msg_account_created] /\
  ui (snd (run_script akun_page (alice_again "hunter2" [("reg_pw", "")]))) =
    [msg_fields_required] /\
  ui (snd (run_script akun_page (alice_again "hunter2" [("reg_pw", "")]))) <>
    [msg_username_taken].
Proof. vm_compute. repeat split. discriminate. Qed.
(** C10. The stored hash depends on the password alone: two successful
    registrations with the same password store the same hash, whatever the
    usernames and the rest of the database.  And whether "Login" succeeds for
    a registered user depends only on the stored hash and the password typed:
    two logins that agree on both end alike. *)
Theorem password_hash_unsalted :
  (forall w w' : world,
      pressed w = Some "Daftar" -> pressed w' = Some "Daftar" ->
      ui (snd (run_script akun_page w)) = [msg_account_created] ->
      ui (snd (run_script akun_page w')) = [msg_account_created] ->
      text_value w "reg_pw" = text_value w' "reg_pw" ->
      exists r r' : user_row,
        users (disk (snd (run_script akun_page w))) = users (disk w) ++ [r] /\
        users (disk (snd (run_script akun_page w'))) = users (disk w') ++ [r'] /\
        password_hash r = hash_password (text_value w "reg_pw") /\
        password_hash r = password_hash r') /\
  (forall (w w' : world) (r r' : user_row),
      db_ok (disk w) = true -> db_ok (disk w') = true ->
      In r (users (disk w)) -> In r' (users (disk w')) ->
      pressed w = Some "Login" -> pressed w' = Some "Login" ->
      text_value w "login_user" = username r ->
      text_value w' "login_user" = username r' ->
      password_hash r = password_hash r' ->
      text_value w "login_pw" = text_value w' "login_pw" ->
      fst (run_script akun_page w) = fst (run_script akun_page w') /\
      ui (snd (run_script akun_page w)) = ui (snd (run_script akun_page w')) /\
      (logged_in r (run_script akun_page w) <-> logged_in r' (run_script akun_page w'))).
Proof.
  split.
  - intros w w' Hp Hp' Hui Hui' Hpw.
    assert (Hstored : forall v : world,
               pressed v = Some "Daftar" ->
               ui (snd (run_script akun_page v)) = [msg_account_created] ->
               users (disk (snd (run_script akun_page v))) = users (disk v) ++ [daftar_row v]).
    { intros v Hv Huv.
      destruct (@daftar_run v Hv) as (_ & _ & [(_ & H & _)|[(_ & H & _)|(_ & _ & H)]]);
        try (rewrite Huv in H; discriminate H).
      now rewrite H. }
    exists (daftar_row w), (daftar_row w').
    repeat split; [now apply Hstored | now apply Hstored |].
    cbn [daftar_row password_hash]. now rewrite Hpw.
  - intros w w' r r' Hok Hok' Hin Hin' Hp Hp' Hu Hu' Hh Hpw.
    destruct (@login_run w r (db_ok_usernames _ Hok) Hin Hp Hu) as [Hyes Hno].
    destruct (@login_run w' r' (db_ok_usernames _ Hok') Hin' Hp' Hu') as [Hyes' Hno'].
    rewrite <- Hpw, <- Hh in Hyes', Hno'.
    destruct (string_dec (hash_password (text_value w "login_pw")) (password_hash r)) as [E|E].
    + destruct (Hyes E) as (H1 & H2 & H3). destruct (Hyes' E) as (H1' & H2' & H3').
      split; [congruence|]. split; [congruence|].
      split; intros _; repeat split; assumption.
    + destruct (Hno E) as (H1 & H2 & H3). destruct (Hno' E) as (H1' & H2' & H3').
      split; [congruence|]. split; [congruence|].
      split; intros (Hsome & _); congruence.
Qed.

(** "alice" and "bob" both register with "hunter2": the two rows hold the
    same hash, and typing "hunter2" logs either of them in. *)
Lemma alice_and_bob_share_a_hash :
  (exists r r' : user_row,
      users (disk (snd (run_script akun_page alice_form))) = users (disk alice_form) ++ [r] /\
      users (disk (snd (run_script akun_page bob_form))) = users (disk bob_form) ++ [r'] /\
      password_hash r = hash_password (text_value alice_form "reg_pw") /\
      password_hash r = password_hash r') /\
  (fst (run_script akun_page (login_as "hunter2" "hunter2" "alice" "hunter2")) =
   fst (run_script akun_page (login_as "hunter2" "hunter2" "bob" "hunter2")) /\
   ui (snd (run_script akun_page (login_as "hunter2" "hunter2" "alice" "hunter2"))) =
   ui (snd (run_script akun_page (login_as "hunter2" "hunter2" "bob" "hunter2"))) /\
   (logged_in (alice_row "hunter2")
              (run_script akun_page (login_as "hunter2" "hunter2" "alice" "hunter2")) <->
    logged_in (bob_row "hunter2")
              (run_script akun_page (login_as "hunter2" "hunter2" "bob" "hunter2")))).
Proof.
  split.
  - assert (H1 : pressed alice_form = Some "Daftar") by reflexivity.
    assert (H2 : pressed bob_form = Some "Daftar") by reflexivity.
    assert (H3 : ui (snd (run_script akun_page alice_form)) = [msg_account_created])
      by (vm_compute; reflexivity).
    assert (H4 : ui (snd (run_script akun_page bob_form)) = [msg_account_created])
      by (vm_compute; reflexivity).
    assert (H5 : text_value alice_form "reg_pw" = text_value bob_form "reg_pw")
      by reflexivity.
    exact (proj1 password_hash_unsalted alice_form bob_form H1 H2 H3 H4 H5).
  - assert (H1 : db_ok (disk (login_as "hunter2" "hunter2" "alice" "hunter2")) = true)
      by (vm_compute; reflexivity).
    assert (H2 : db_ok (disk (login_as "hunter2" "hunter2" "bob" "hunter2")) = true)
      by (vm_compute; reflexivity).
    assert (H3 : In (alice_row "hunter2")
                    (users (disk (login_as "hunter2" "hunter2" "alice" "hunter2"))))
      by (vm_compute; auto).
    assert (H4 : In (bob_row "hunter2")
                    (users (disk (login_as "hunter2" "hunter2" "bob" "hunter2"))))
      by (vm_compute; auto).
    assert (H5 : pressed (login_as "hunter2" "hunter2" "alice" "hunter2") = Some "Login")
      by reflexivity.
    assert (H6 : pressed (login_as "hunter2" "hunter2" "bob" "hunter2") = Some "Login")
      by reflexivity.
    assert (H7 : text_value (login_as "hunter2" "hunter2" "alice" "hunter2") "login_user" =
                 username (alice_row "hunter2")) by reflexivity.
    assert (H8 : text_value (login_as "hunter2" "hunter2" "bob" "hunter2") "login_user" =
                 username (bob_row "hunter2")) by reflexivity.
    assert (H9 : password_hash (alice_row "hunter2") = password_hash (bob_row "hunter2"))
      by (cbn [password_hash alice_row bob_row]; reflexivity).
    assert (H10 : text_value (login_as "hunter2" "hunter2" "alice" "hunter2") "login_pw" =
                  text_value (login_as "hunter2" "hunter2" "bob" "hunter2") "login_pw")
      by reflexivity.
    exact (proj2 password_hash_unsalted
                 (login_as "hunter2" "hunter2" "alice" "hunter2")
                 (login_as "hunter2" "hunter2" "bob" "hunter2")
                 (alice_row "hunter2") (bob_row "hunter2")
                 H1 H2 H3 H4 H5 H6 H7 H8 H9 H10).
Defined.
(* ================================================================== *)
(** * ORDER BY ... DESC LIMIT n *)

Lemma compare_cons (a b : ascii) (s1 s2 : string) :
  String.compare (String a s1) (String b s2) =
  match N.compare (N_of_ascii a) (N_of_ascii b) with
  | Eq => String.compare s1 s2
  | c => c
  end.
Proof. reflexivity. Qed.

Lemma leb_trans (s1 s2 s3 : string) :
  String.leb s1 s2 = true -> String.leb s2 s3 = true -> String.leb s1 s3 = true.
Proof.
  unfold String.leb. revert s2 s3.
  induction s1 as [|a s1 IH]; intros [|b s2] [|c s3]; try (cbn; congruence).
  rewrite !compare_cons.
  destruct (N.compare_spec (N_of_ascii a) (N_of_ascii b)) as [E1|L1|G1];
    destruct (N.compare_spec (N_of_ascii b) (N_of_ascii c)) as [E2|L2|G2];
    try congruence;
    destruct (N.compare_spec (N_of_ascii a) (N_of_ascii c)) as [E3|L3|G3];
    try congruence; try lia.
  apply IH.
Qed.

Lemma ltb_false_leb (s1 s2 : string) : String.ltb s1 s2 = false -> String.leb s2 s1 = true.
Proof.
  unfold String.ltb, String.leb. rewrite (String.compare_antisym s2 s1).
  destruct (String.compare s1 s2); cbn; congruence.
Qed.

Lemma ltb_true_leb (s1 s2 : string) : String.ltb s1 s2 = true -> String.leb s1 s2 = true.
Proof. unfold String.ltb, String.leb. destruct (String.compare s1 s2); congruence. Qed.

Section OrderBy.
Variable R : Type.
Variable col : R -> string.

Let desc (a b : R) : Prop := String.leb (col b) (col a) = true.

Lemma insert_desc_perm (r : R) (l : list R) : Permutation (Sql.insert_desc col r l) (r :: l).
Proof.
  induction l as [|x l IH]; cbn [Sql.insert_desc]; [reflexivity|].
  destruct (String.ltb (col r) (col x)); [|reflexivity].
  rewrite IH. apply perm_swap.
Qed.

Lemma order_by_desc_perm (l : list R) : Permutation (Sql.order_by_desc col l) l.
Proof.
  unfold Sql.order_by_desc. induction l as [|x l IH]; cbn [fold_right]; [reflexivity|].
  rewrite insert_desc_perm. now constructor.
Qed.

Lemma insert_desc_sorted (r : R) (l : list R) :
  StronglySorted desc l -> StronglySorted desc (Sql.insert_desc col r l).
Proof.
  induction l as [|x l IH]; intros Hs; cbn [Sql.insert_desc].
  - repeat constructor.
  - inversion Hs as [|? ? Hl Hx]; subst.
    destruct (String.ltb (col r) (col x)) eqn:E.
    + constructor; [now apply IH|].
      apply (@Permutation_Forall _ _ (r :: l)); [symmetry; apply insert_desc_perm|].
      constructor; [|exact Hx]. now apply ltb_true_leb.
    + apply ltb_false_leb in E. constructor; [exact Hs|].
      constructor; [exact E|].
      apply Forall_forall. intros y Hy. rewrite Forall_forall in Hx.
      unfold desc. apply leb_trans with (s2 := col x); [now apply Hx | exact E].
Qed.

Lemma order_by_desc_sorted (l : list R) : StronglySorted desc (Sql.order_by_desc col l).
Proof.
  unfold Sql.order_by_desc. induction l as [|x l IH]; cbn [fold_right].
  - constructor.
  - now apply insert_desc_sorted.
Qed.

Lemma sorted_app_inv (l1 l2 : list R) :
  StronglySorted desc (l1 ++ l2) ->
  StronglySorted desc l1 /\ (forall a b, In a l1 -> In b l2 -> desc a b).
Proof.
  induction l1 as [|x l1 IH]; cbn [app]; intros Hs.
  - split; [constructor | intros a b []].
  - inversion Hs as [|? ? Hl Hx]; subst. destruct (IH Hl) as [Hs1 Hcross].
    rewrite Forall_app in Hx. destruct Hx as [Hx1 Hx2].
    split; [now constructor|].
    intros a b [<-|Ha] Hb; [|now apply Hcross].
    rewrite Forall_forall in Hx2. now apply Hx2.
Qed.
End OrderBy.
(** C9. The notifications listed for a class, with a limit of [n] (the
    script asks for 50): the [n] most recent notifications of that class, all
    of them when the class has fewer, in descending order of [created_at].
    The listing has as many rows as the smaller of [n] and the number of
    notifications of the class, each of them a notification of the class;
    every notification of the class that is left out is no more recent than
    any listed one, and nothing is left out when the class has at most [n]
    notifications. *)
Theorem notifications_most_recent_first (n : nat) (cid : string) (db : database) :
  let rows := select_notifications n cid db in
  let mine := filter (fun r => String.eqb (notification_class_id r) cid) (notifications db) in
  List.length rows = Nat.min n (List.length mine) /\
  List.length rows <= n /\
  StronglySorted newer_or_equal rows /\
  (forall r, In r rows -> In r (notifications db) /\ notification_class_id r = cid) /\
  exists rest : list notification_row,
    Permutation (rows ++ rest) mine /\
    (forall r x, In r rows -> In x rest -> newer_or_equal r x) /\
    (List.length mine <= n -> rest = []).
Proof.
  intros rows mine.
  pose (sorted := Sql.order_by_desc created_at mine).
  assert (Hrows : rows = firstn n sorted) by reflexivity.
  assert (Hsplit : rows ++ skipn n sorted = sorted) by (rewrite Hrows; apply firstn_skipn).
  assert (Hperm : Permutation sorted mine) by apply order_by_desc_perm.
  assert (Hsorted : StronglySorted newer_or_equal sorted)
    by apply (order_by_desc_sorted created_at mine).
  rewrite <- Hsplit in Hsorted. apply sorted_app_inv in Hsorted as [Hs Hcross].
  split; [rewrite Hrows, length_firstn; now rewrite (Permutation_length Hperm)|].
  split; [rewrite Hrows; apply firstn_le_length|].
  split; [exact Hs|].
  split.
  - intros r Hr.
    assert (Hin : In r mine).
    { apply (Permutation_in _ Hperm). rewrite <- Hsplit. apply in_or_app. now left. }
    unfold mine in Hin. apply filter_In in Hin as [Hin E].
    split; [exact Hin | now apply String.eqb_eq].
  - exists (skipn n sorted). split; [now rewrite Hsplit|]. split; [exact Hcross|].
    intros Hlen. apply skipn_all2.
    now rewrite (Permutation_length Hperm).
Qed.

(** Three notifications of the class "Biology" and a limit of 2: the two
    listed are the latest ones, the latest first. *)
Example two_latest_of_three :
  let w := interact (notifikasi_tab demo_class_row) [(notif_label, "ketiga")] "Kirim Notifikasi"
             (interact (notifikasi_tab demo_class_row) [(notif_label, "kedua")]
                "Kirim Notifikasi"
                (interact (notifikasi_tab demo_class_row) [(notif_label, "pertama")]
                   "Kirim Notifikasi" demo_two)) in
  map message (notifications (disk w)) = ["pertama"; "kedua"; "ketiga"] /\
  map message (select_notifications 2 (class_id demo_class_row) (disk w)) =
    ["ketiga"; "kedua"].
Proof. vm_compute. split; reflexivity. Qed.
(* ================================================================== *)
(** * Taking a test *)

Lemma tambah_soal_form_tables (t : test_row) (w : world) :
  conn w = disk w ->
  let r := tambah_soal_form t w in
  raised r <> Some ZeroDivisionError /\
  attempts (disk (world_of r)) = attempts (disk w) /\
  answers (disk (world_of r)) = answers (disk w) /\
  notifications (disk (world_of r)) = notifications (disk w).
Proof.
  intros Hc. unfold tambah_soal_form, bind, emit, st_text_input, st_choice, st_button.
  destruct (button_value _ "Tambah Soal" && Py.strip_truthy _); cbv zeta.
  - unfold uuid4_hex, execute, commit, experimental_rerun, raise, Sql.insert_question.
    world_simpl. rewrite Hc.
    destruct (Sql.taken _ _ _); world_simpl; repeat split; discriminate.
  - world_simpl. repeat split; discriminate.
Qed.

Lemma tambah_soal_form_ui (t : test_row) (w : world) (e : ui_event) :
  In e (ui w) -> In e (ui (world_of (tambah_soal_form t w))).
Proof.
  intros Hui. unfold tambah_soal_form, bind, emit, st_text_input, st_choice, st_button.
  destruct (button_value _ "Tambah Soal" && Py.strip_truthy _); cbv zeta.
  - unfold uuid4_hex, execute, commit, experimental_rerun, raise.
    world_simpl.
    destruct (Sql.insert_question _ _); world_simpl; apply in_or_app; now left.
  - world_simpl. apply in_or_app. now left.
Qed.

(** What the test block does when the test has no question. *)
Lemma test_flow_no_questions (cl : class_row) (t : test_row) (w : world) :
  current_test (session w) = Some t ->
  questions_of t (conn w) = [] ->
  test_flow cl w =
  let w1 := set_ui ((ui w ++ [St_markdown ("### Mengerjakan: " ++ title t)]) ++
                    [msg_no_questions]) w in
  match user (session w) with
  | Some u => if Py.str_eq (role u) "teacher" then tambah_soal_form t w1 else Ret tt w1
  | None => Raise TypeError w1
  end.
Proof.
  intros Ht Hq. unfold questions_of in Hq.
  unfold test_flow, session_user.
  unfold bind, get_session, emit, query, raise, ret.
  rewrite Ht. world_simpl. rewrite Hq. world_simpl.
  destruct (user (session w)) as [u|]; [|reflexivity].
  destruct (Py.str_eq (role u) "teacher"); reflexivity.
Qed.

(** C2. A test without questions cannot be submitted: whatever button was
    clicked, "Kirim Jawaban" included, the run shows the warning "Belum ada
    soal ...", performs no division (no ZeroDivisionError leaves the block)
    and leaves the attempts, the answers and the notifications as they
    were. *)
Theorem empty_test_not_submitted (w : world) (cl : class_row) (t : test_row) :
  current_test (session w) = Some t ->
  questions_of t (disk w) = [] ->
  let res := run_script (test_flow cl) w in
  fst res <> Some ZeroDivisionError /\
  In msg_no_questions (ui (snd res)) /\
  attempts (disk (snd res)) = attempts (disk w) /\
  answers (disk (snd res)) = answers (disk w) /\
  notifications (disk (snd res)) = notifications (disk w).
Proof.
  intros Ht Hq res. subst res. unfold run_script.
  rewrite (@test_flow_no_questions cl t (set_ui [] (set_conn (disk w) w)) Ht Hq).
  cbv zeta. world_simpl.
  set (w1 := set_ui _ (set_ui [] (set_conn (disk w) w))).
  assert (Hui : In msg_no_questions (ui w1)).
  { subst w1. world_simpl. cbn [app]. right. now left. }
  destruct (user (session w)) as [u|]; [destruct (Py.str_eq (role u) "teacher")|].
  - assert (Hc : conn w1 = disk w1) by reflexivity.
    destruct (@tambah_soal_form_tables t w1 Hc) as (H1 & H2 & H3 & H4).
    pose proof (@tambah_soal_form_ui t w1 _ Hui) as Hui'.
    destruct (tambah_soal_form t w1) as [[] w2|e w2]; world_simpl;
      (split; [assumption || discriminate|]); (split; [exact Hui'|]);
      repeat split; assumption.
  - world_simpl. repeat split; try discriminate. exact Hui.
  - world_simpl. repeat split; try discriminate. exact Hui.
Qed.
(* ================================================================== *)
(** * Binary64: an int below [2 ^ 53] is converted to a finite float *)

Lemma digits2_pos_size (p : positive) : digits2_pos p = Pos.size p.
Proof. induction p as [p IH|p IH|]; cbn [digits2_pos Pos.size]; congruence. Qed.

Lemma digits2_pos_shifted (p k : positive) :
  digits2_pos (Pos.iter xO p k) = (digits2_pos p + k)%positive.
Proof.
  induction k as [|k IH] using Pos.peano_ind.
  - cbn [Pos.iter digits2_pos]. lia.
  - rewrite Pos.iter_succ. cbn [digits2_pos]. rewrite IH. lia.
Qed.

Lemma binary_round_aux_exact (m : positive) (e : Z) :
  Zpos (digits2_pos m) = 53%Z -> (-1074 <= e <= 971)%Z ->
  binary_round_aux prec emax false (Zpos m) e loc_Exact = S754_finite false m e.
Proof.
  intros Hm He.
  assert (H0 : (fexp prec emax (53 + e) - e = 0)%Z).
  { unfold fexp, SpecFloat.emin, prec, emax. lia. }
  unfold binary_round_aux, shr_fexp. cbn [Zdigits2]. rewrite Hm, H0.
  cbn [shr shr_record_of_loc loc_of_shr_record shr_m round_nearest_even Zdigits2].
  rewrite Hm, H0. cbn [shr shr_m].
  assert (Hle : (e <=? emax - prec)%Z = true) by (apply Z.leb_le; unfold emax, prec; lia).
  now rewrite Hle.
Qed.

Lemma binary_normalize_below_2p53 (p : positive) :
  (Zpos p < 2 ^ 53)%Z ->
  exists (m : positive) (e : Z),
    binary_normalize prec emax (Zpos p) 0 false = S754_finite false m e.
Proof.
  intros Hp. cbn [binary_normalize]. unfold binary_round.
  assert (Hd : (Zpos (digits2_pos p) <= 53)%Z).
  { rewrite digits2_pos_size.
    pose proof (Pos.size_le p) as Hs.
    assert (H : (2 ^ Zpos (Pos.size p) <= 2 * Zpos p)%Z).
    { change 2%Z with (Zpos 2) at 1. rewrite <- Pos2Z.inj_pow. 
      change (2 * Zpos p)%Z with (Zpos p~0). now apply Pos2Z.pos_le_pos. }
    destruct (Z.le_gt_cases (Zpos (Pos.size p)) 53) as [Hle|Hgt]; [exact Hle|].
    exfalso.
    assert (2 ^ 54 <= 2 ^ Zpos (Pos.size p))%Z by (apply Z.pow_le_mono_r; lia).
    lia. }
  assert (Hf : fexp prec emax (Zpos (digits2_pos p) + 0) = (Zpos (digits2_pos p) - 53)%Z).
  { unfold fexp, SpecFloat.emin, prec, emax. lia. }
  rewrite Hf. unfold shl_align.
  destruct (Zpos (digits2_pos p) - 53 - 0)%Z as [|k|k] eqn:E.
  - exists p, 0%Z. apply binary_round_aux_exact; lia.
  - lia.
  - exists (Pos.iter xO p k), (Zpos (digits2_pos p) - 53)%Z.
    apply binary_round_aux_exact; [|lia].
    rewrite digits2_pos_shifted. lia.
Qed.

(** [0 / n * 100] is [0.0]. *)
Lemma score_of_no_correct_answer (n : nat) :
  0 < n -> (Z.of_nat n < 2 ^ 53)%Z -> score_val_f64 0 (Z.of_nat n) = 0%float.
Proof.
  intros Hn Hb. unfold score_val_f64.
  assert (Hz : PrimFloat.div (of_uint63 (of_Z 0)) (of_uint63 (of_Z (Z.of_nat n))) = 0%float).
  { apply Prim2SF_inj. rewrite FloatAxioms.div_spec, of_uint63_spec.
    rewrite (of_uint63_spec (of_Z (Z.of_nat n))).
    destruct (Z.of_nat n) as [|p|p] eqn:E; [lia| |lia].
    rewrite (Uint63.of_Z_spec (Zpos p)).
    rewrite Z.mod_small by (change wB with (2 ^ 63)%Z; lia).
    destruct (binary_normalize_below_2p53 Hb) as (m & e & ->).
    reflexivity. }
  rewrite Hz. reflexivity.
Qed.

(* ================================================================== *)
(** * Submitting the answers *)

Lemma world_ext (w w' : world) :
  disk w = disk w' -> conn w = conn w' -> session w = session w' -> ui w = ui w' ->
  widgets w = widgets w' -> pressed w = pressed w' ->
  uuid_src w = uuid_src w' -> uuid_pos w = uuid_pos w' ->
  clock_src w = clock_src w' -> clock_pos w = clock_pos w' -> w = w'.
Proof. destruct w, w'; cbn; intros; subst; reflexivity. Qed.

Lemma taken_as_existsb {R : Type} (col : R -> string) (rows : list R) (v : string) :
  Sql.taken col rows v = existsb (String.eqb v) (map col rows).
Proof.
  unfold Sql.taken. induction rows as [|x rows IH]; cbn [existsb map]; [reflexivity|].
  now rewrite IH, String.eqb_sym.
Qed.

(** Lines 324-328: the loop renders every question and leaves the dict. *)
Lemma collect_answers (qs : list question_row) (acc : list (string * string)) (w : world) :
  for_fold qs collect_answer acc w =
  Ret (fold_left (fun d q => dict_set d (question_id q) (chosen w q)) qs acc)
      (set_ui (ui w ++ map (fun q => St_write (text q)) qs) w).
Proof.
  revert acc w. induction qs as [|q qs IH]; intros acc w; cbn [for_fold fold_left map].
  - unfold ret. f_equal. apply world_ext; world_simpl; try reflexivity.
    now rewrite app_nil_r.
  - unfold bind at 1. unfold collect_answer at 1. unfold bind, emit, st_choice, ret.
    rewrite IH. f_equal. apply world_ext; world_simpl; try reflexivity.
    now rewrite <- app_assoc.
Qed.

Lemma dict_set_new (d : list (string * string)) (k v : string) :
  ~ In k (map fst d) -> dict_set d k v = d ++ [(k, v)].
Proof.
  induction d as [|[k' v'] d IH]; cbn [dict_set map fst app]; intros Hk; [reflexivity|].
  destruct (String.eqb_spec k' k) as [E|E].
  - elim Hk. now left.
  - rewrite IH; [reflexivity|]. intros Hin. apply Hk. now right.
Qed.

(** With distinct question ids the dict holds one entry per question, in order. *)
Lemma answers_dict (w : world) (qs : list question_row) (acc : list (string * string)) :
  NoDup (map fst acc ++ map question_id qs) ->
  fold_left (fun d q => dict_set d (question_id q) (chosen w q)) qs acc =
  acc ++ map (fun q => (question_id q, chosen w q)) qs.
Proof.
  revert acc. induction qs as [|q qs IH]; intros acc Hnd; cbn [fold_left map].
  - now rewrite app_nil_r.
  - cbn [map] in Hnd.
    rewrite dict_set_new.
    + rewrite IH.
      * now rewrite <- app_assoc.
      * rewrite map_app. cbn [map fst]. now rewrite <- app_assoc.
    + apply NoDup_remove_2 in Hnd. intros Hin. apply Hnd. apply in_or_app. now left.
Qed.
Lemma db_ok_question_ids (db : database) :
  db_ok db = true -> NoDup (map question_id (questions db)).
Proof.
  unfold db_ok. rewrite !andb_true_iff.
  intros (((((((((_ & _) & _) & _) & _) & _) & _) & Hq) & _) & _).
  now apply distinct_NoDup.
Qed.

Lemma NoDup_map_filter {R : Type} (col : R -> string) (f : R -> bool) (rows : list R) :
  NoDup (map col rows) -> NoDup (map col (filter f rows)).
Proof.
  induction rows as [|x rows IH]; cbn [map filter]; intros Hnd; [constructor|].
  inversion Hnd as [|? ? Hx Hrows]; subst.
  destruct (f x); cbn [map]; [|now apply IH].
  constructor; [|now apply IH].
  intros Hin. apply Hx. apply in_map_iff in Hin as (y & E & Hy).
  apply filter_In in Hy as [Hy _]. rewrite <- E. now apply in_map.
Qed.

(** Lines 331-335: the counting loop finds every question again by its id
    and counts the ones answered with their correct option. *)
Lemma count_answers (w : world) (ch : question_row -> string) (qs : list question_row) (s : Z) :
  NoDup (map question_id (questions (conn w))) ->
  incl qs (questions (conn w)) ->
  for_fold (map (fun q => (question_id q, ch q)) qs) count_answer s w =
  Ret (s + Z.of_nat (List.length (filter (fun q => String.eqb (correct_option q) (ch q)) qs)))%Z
      w.
Proof.
  intros Hnd. revert s. induction qs as [|q qs IH]; intros s Hincl;
    cbn [map for_fold filter].
  - unfold ret. cbn [List.length]. now rewrite Z.add_0_r.
  - unfold bind at 1. unfold count_answer at 1. unfold bind, query.
    rewrite (select_where_unique question_id (questions (conn w)) q Hnd
               (Hincl q (or_introl eq_refl))).
    cbn [Sql.fetchone hd_error]. unfold ret at 1. unfold Py.str_eq.
    rewrite IH by (intros x Hx; apply Hincl; now right).
    destruct (String.eqb (correct_option q) (ch q)); cbn [List.length]; f_equal; lia.
Qed.

Lemma ids_fresh_cons (used : list string) (x : string) (r : list string) :
  ids_fresh used (x :: r) = true ->
  existsb (String.eqb x) used = false /\ ids_fresh (used ++ [x]) r = true.
Proof.
  cbn [ids_fresh]. rewrite andb_true_iff, negb_true_iff. tauto.
Qed.

(** The database with more rows in [answers]. *)
Lemma insert_answer_fresh (r : answer_row) (db : database) :
  existsb (String.eqb (answer_id r)) (map answer_id (answers db)) = false ->
  Sql.insert_answer r db =
  Some (mk_db (users db) (classes db) (materials db) (notifications db)
              (tests db) (questions db) (attempts db) (answers db ++ [r])).
Proof.
  intros H. unfold Sql.insert_answer. now rewrite taken_as_existsb, H.
Qed.

Lemma map_combine_seq_shift {A B : Type} (f : nat -> A -> B) (l : list A) (k : nat) :
  map (fun iq => f (fst iq) (snd iq)) (combine (seq (S k) (List.length l)) l) =
  map (fun iq => f (S (fst iq)) (snd iq)) (combine (seq k (List.length l)) l).
Proof.
  revert k. induction l as [|x l IH]; intros k; cbn [List.length seq combine map fst snd].
  - reflexivity.
  - f_equal. apply IH.
Qed.

(** Lines 339-342: one row per entry of the dict, each with its own new id. *)
Lemma insert_answers (att : string) (ch : question_row -> string)
      (qs : list question_row) (w : world) :
  ids_fresh (map answer_id (answers (conn w)))
            (map (fun i => uuid_src w (uuid_pos w + i)) (seq 0 (List.length qs))) = true ->
  exists w' : world,
    for_each (map (fun q => (question_id q, ch q)) qs) (insert_chosen att) w = Ret tt w' /\
    answers (conn w') =
      answers (conn w) ++
      map (fun iq => mk_answer (uuid_src w (uuid_pos w + fst iq)) att
                               (question_id (snd iq)) (ch (snd iq)))
          (combine (seq 0 (List.length qs)) qs) /\
    users (conn w') = users (conn w) /\ classes (conn w') = classes (conn w) /\
    materials (conn w') = materials (conn w) /\
    notifications (conn w') = notifications (conn w) /\
    tests (conn w') = tests (conn w) /\ questions (conn w') = questions (conn w) /\
    attempts (conn w') = attempts (conn w) /\
    disk w' = disk w /\ session w' = session w /\ ui w' = ui w /\
    widgets w' = widgets w /\ pressed w' = pressed w /\
    uuid_src w' = uuid_src w /\ uuid_pos w' = uuid_pos w + List.length qs /\
    clock_src w' = clock_src w /\ clock_pos w' = clock_pos w.
Proof.
  revert w. induction qs as [|q qs IH]; intros w Hfresh;
    cbn [map for_each List.length seq combine].
  - exists w. unfold ret. rewrite app_nil_r, Nat.add_0_r. repeat split; reflexivity.
  - cbn [List.length seq map] in Hfresh. apply ids_fresh_cons in Hfresh as [Hx Hrest].
    rewrite Nat.add_0_r in Hx.
    unfold bind at 1. unfold insert_chosen at 1. unfold bind, uuid4_hex, execute.
    world_simpl.
    rewrite (@insert_answer_fresh (mk_answer (uuid_src w (uuid_pos w)) att (question_id q) (ch q))
                                  (conn w) Hx).
    set (w1 := set_conn _ (set_uuid_pos _ w)).
    destruct (IH w1) as (w' & Hrun & Hans & Hrest').
    { subst w1. world_simpl. cbn [answers]. rewrite map_app. cbn [map answer_id].
      rewrite Nat.add_0_r in Hrest. rewrite <- seq_shift, map_map in Hrest.
      rewrite (map_ext (fun i => uuid_src w (S (uuid_pos w) + i))
                       (fun x => uuid_src w (uuid_pos w + S x)));
        [exact Hrest|]. intros i. f_equal. lia. }
    exists w'. split; [exact Hrun|].
    subst w1. world_simpl. cbn [users classes materials notifications tests questions
                                 attempts answers] in *.
    split.
    + rewrite Hans, <- app_assoc. cbn [app]. rewrite Nat.add_0_r. f_equal. f_equal.
      rewrite (map_combine_seq_shift
                 (fun i x => mk_answer (uuid_src w (uuid_pos w + i)) att (question_id x) (ch x))).
      apply map_ext. intros [i x]. cbn [fst snd]. f_equal. f_equal. lia.
    + destruct Hrest' as (? & ? & ? & ? & ? & ? & ? & ? & ? & ? & ? & ? & ? & Hpos & ? & ?).
      repeat split; try assumption. rewrite Hpos. lia.
Qed.
Lemma insert_attempt_fresh (r : attempt_row) (db : database) :
  Sql.taken attempt_id (attempts db) (attempt_id r) = false ->
  Sql.insert_attempt r db =
  Some (mk_db (users db) (classes db) (materials db) (notifications db)
              (tests db) (questions db) (attempts db ++ [r]) (answers db)).
Proof. intros H. unfold Sql.insert_attempt. now rewrite H. Qed.

Lemma insert_notification_fresh (r : notification_row) (db : database) :
  Sql.taken notification_id (notifications db) (notification_id r) = false ->
  Sql.insert_notification r db =
  Some (mk_db (users db) (classes db) (materials db) (notifications db ++ [r])
              (tests db) (questions db) (attempts db) (answers db)).
Proof. intros H. unfold Sql.insert_notification. now rewrite H. Qed.

(** Lines 330-351 for the answers to the questions [present], in a test
    whose questions are [qs]. *)
Lemma kirim_jawaban_run (cl : class_row) (t : test_row) (u : user_row)
      (qs present : list question_row) (ch : question_row -> string) (v : world) :
  NoDup (map question_id (questions (conn v))) ->
  incl present (questions (conn v)) ->
  qs <> [] ->
  user (session v) = Some u ->
  Sql.taken attempt_id (attempts (conn v)) (uuid_src v (uuid_pos v)) = false ->
  ids_fresh (map answer_id (answers (conn v)))
            (map (fun i => uuid_src v (S (uuid_pos v) + i)) (seq 0 (List.length present)))
    = true ->
  Sql.taken notification_id (notifications (conn v))
            (uuid_src v (S (uuid_pos v) + List.length present)) = false ->
  let score :=
    score_val_f64 (Z.of_nat (correct_among present ch)) (Z.of_nat (List.length qs)) in
  exists v' : world,
    kirim_jawaban cl t qs (answers_for present ch) v = Raise RerunException v' /\
    attempts (disk v') =
      attempts (conn v) ++
      [mk_attempt (uuid_src v (uuid_pos v)) (test_id t) (user_id u)
                  (clock_src v (clock_pos v)) score] /\
    answers (disk v') =
      answers (conn v) ++ answer_rows v (uuid_src v (uuid_pos v)) present ch /\
    notifications (disk v') =
      notifications (conn v) ++
      [mk_notification (uuid_src v (S (uuid_pos v) + List.length present)) (class_id cl)
                       (display_name u ++ " selesai " ++ title t)
                       (clock_src v (S (clock_pos v)))] /\
    users (disk v') = users (conn v) /\ classes (disk v') = classes (conn v) /\
    materials (disk v') = materials (conn v) /\ tests (disk v') = tests (conn v) /\
    questions (disk v') = questions (conn v) /\
    session v' = mk_session (Some u) (current_class (session v)) None /\
    ui v' = ui v ++ [St_success_score score].
Proof.
  intros Hnd Hincl Hne Hu Hatt Hans Hnot score.
  unfold kirim_jawaban, answers_for, answer_rows.
  unfold bind at 1. unfold uuid4_hex at 1.
  set (v1 := set_uuid_pos (S (uuid_pos v)) v).
  unfold bind at 1.
  rewrite (@count_answers v1 ch present 0%Z Hnd Hincl).
  rewrite Z.add_0_l. fold (correct_among present ch).
  unfold bind at 1. unfold score_val_of.
  assert (Hlen : Z.eqb (Z.of_nat (List.length qs)) 0 = false).
  { apply Z.eqb_neq. destruct qs; [contradiction|]. cbn [List.length]. lia. }
  rewrite Hlen. unfold ret at 1. fold score.
  unfold bind at 1. unfold session_user at 1. unfold bind at 1, get_session at 1.
  change (user (session v1)) with (user (session v)). rewrite Hu. unfold ret at 1.
  unfold bind at 1. unfold now_isoformat at 1.
  set (v2 := set_clock_pos (S (clock_pos v1)) v1).
  unfold bind at 1. unfold execute at 1.
  change (conn v2) with (conn v).
  rewrite (@insert_attempt_fresh
             (mk_attempt (uuid_src v (uuid_pos v)) (test_id t) (user_id u)
                         (clock_src v1 (clock_pos v1)) score) (conn v) Hatt).
  set (v3 := set_conn _ v2).
  destruct (@insert_answers (uuid_src v (uuid_pos v)) ch present v3)
    as (v4 & Hrun & Hans4 & Hu4 & Hc4 & Hm4 & Hn4 & Ht4 & Hq4 & Ha4 & Hd4 & Hs4 & Hui4 &
        Hw4 & Hp4 & Hus4 & Hup4 & Hcs4 & Hcp4).
  { exact Hans. }
  unfold bind at 1. rewrite Hrun.
  unfold bind at 1. unfold commit at 1.
  unfold bind at 1. unfold emit at 1.
  unfold bind at 1. unfold uuid4_hex at 1.
  unfold bind at 1. unfold session_user at 1. unfold bind at 1, get_session at 1.
  world_simpl. rewrite Hs4. change (session v3) with (session v). rewrite Hu.
  unfold ret at 1.
  unfold bind at 1. unfold now_isoformat at 1.
  unfold bind at 1. unfold execute at 1. world_simpl.
  rewrite insert_notification_fresh.
  2:{ cbn [notification_id]. rewrite Hn4, Hus4, Hup4.
      change (notifications (conn v3)) with (notifications (conn v)).
      change (uuid_src v3) with (uuid_src v). change (uuid_pos v3) with (S (uuid_pos v)).
      exact Hnot. }
  unfold bind at 1. unfold commit at 1.
  unfold bind at 1. unfold get_session at 1.
  unfold bind at 1. unfold put_session at 1.
  unfold experimental_rerun, raise.
  eexists. split; [reflexivity|].
  world_simpl. cbn [users classes materials notifications tests questions attempts answers
                     user current_class current_test].
  rewrite Hs4, Hui4, Hus4, Hup4, Hcs4, Hcp4, Hans4, Hu4, Hc4, Hm4, Hn4, Ht4, Hq4, Ha4.
  subst v3 v2 v1. world_simpl.
  cbn [users classes materials notifications tests questions attempts answers].
  rewrite Hu. repeat split; reflexivity.
Qed.
Lemma submit_ids_fresh_parts (w : world) (n : nat) :
  submit_ids_fresh w n = true ->
  Sql.taken attempt_id (attempts (disk w)) (uuid_src w (uuid_pos w)) = false /\
  ids_fresh (map answer_id (answers (disk w)))
            (map (fun i => uuid_src w (S (uuid_pos w) + i)) (seq 0 n)) = true /\
  Sql.taken notification_id (notifications (disk w)) (uuid_src w (S (uuid_pos w) + n)) = false.
Proof.
  unfold submit_ids_fresh, next_uuids. rewrite !andb_true_iff, !negb_true_iff.
  intros [[Ha Hb] Hc]. split; [exact Ha|]. split.
  - rewrite (map_ext (fun i => uuid_src w (S (uuid_pos w) + i))
                     (fun i => uuid_src w (uuid_pos w + 1 + i))); [exact Hb|].
    intros i. f_equal. lia.
  - replace (S (uuid_pos w) + n) with (uuid_pos w + 1 + n) by lia. exact Hc.
Qed.

Lemma match_nonempty {A B : Type} (l : list A) (a b : B) :
  l <> [] -> match l with [] => a | _ :: _ => b end = b.
Proof. destruct l; [contradiction | reflexivity]. Qed.

(** A click on "Kirim Jawaban" for a test with questions, by a logged-in
    user, with new identifiers at hand. *)
Lemma submit_run (w : world) (cl : class_row) (t : test_row) (u : user_row)
      (qs : list question_row) :
  db_ok (disk w) = true ->
  user (session w) = Some u ->
  current_test (session w) = Some t ->
  questions_of t (disk w) = qs ->
  qs <> [] ->
  pressed w = Some "Kirim Jawaban" ->
  submit_ids_fresh w (List.length qs) = true ->
  submitted w cl t u qs (run_script (test_flow cl) w).
Proof.
  intros Hok Hu Ht Hqs Hne Hp Hfresh.
  pose proof (db_ok_question_ids _ Hok) as Hnd.
  apply submit_ids_fresh_parts in Hfresh as (Hatt & Hans & Hnot).
  pose (w0 := set_ui [] (set_conn (disk w) w)).
  pose (w2 := set_ui ([St_markdown ("### Mengerjakan: " ++ title t)] ++
                      map (fun q => St_write (text q)) qs) w0).
  assert (Hflow : test_flow cl w0 =
                  kirim_jawaban cl t qs (map (fun q => (question_id q, chosen w q)) qs) w2).
  { unfold test_flow. unfold bind at 1. unfold get_session at 1.
    change (current_test (session w0)) with (current_test (session w)). rewrite Ht.
    unfold bind at 1. unfold emit at 1.
    unfold bind at 1. unfold bind at 1. unfold query at 1.
    world_simpl. change (conn w0) with (disk w).
    fold (questions_of t (disk w)). rewrite Hqs.
    rewrite (match_nonempty _ _ Hne).
    unfold bind at 1. rewrite collect_answers.
    rewrite (answers_dict _ qs []).
    2:{ cbn [map app]. rewrite <- Hqs. apply NoDup_map_filter, Hnd. }
    unfold bind at 1. unfold st_button at 1. unfold button_value. world_simpl.
    change (pressed w0) with (pressed w).
    rewrite Hp. cbn [String.eqb Ascii.eqb Bool.eqb andb app].
    assert (Hk : kirim_jawaban cl t qs
                   (map (fun q => (question_id q, chosen w q)) qs) w2 =
                 Raise RerunException
                       (world_of (kirim_jawaban cl t qs
                          (map (fun q => (question_id q, chosen w q)) qs) w2))).
    { destruct (@kirim_jawaban_run cl t u qs qs (chosen w) w2) as (v' & Hrun & _);
        try assumption; unfold answers_for in *.
      - rewrite <- Hqs. intros x Hx. apply filter_In in Hx. apply Hx.
      - now rewrite Hrun. }
    match goal with
    | |- match ?X with Ret _ _ => _ | Raise _ _ => _ end = _ =>
        change X with
          (kirim_jawaban cl t qs (map (fun q => (question_id q, chosen w q)) qs) w2)
    end.
    rewrite Hk. reflexivity. }
  destruct (@kirim_jawaban_run cl t u qs qs (chosen w) w2)
    as (v' & Hrun & Ha & Hb & Hc & H1 & H2 & H3 & H4 & H5 & Hs & Hui); try assumption;
    unfold answers_for, answer_rows in *.
  { rewrite <- Hqs. intros x Hx. apply filter_In in Hx. apply Hx. }
  unfold run_script. fold w0. rewrite Hflow, Hrun. world_simpl.
  constructor; world_simpl;
    first [reflexivity | exact Ha | exact Hb | exact Hc | exact H1 | exact H2 | exact H3
           | exact H4 | exact H5 | exact Hs | idtac].
  - rewrite Hb. change (conn w2) with (disk w). f_equal.
    unfold submitted_answers. apply map_ext. intros [i q]. unfold submitted_answer.
    change (uuid_src w2) with (uuid_src w). change (uuid_pos w2) with (uuid_pos w).
    cbn [fst snd]. f_equal. f_equal. lia.
  - rewrite Hc. change (conn w2) with (disk w). f_equal.
    unfold submitted_notification.
    change (uuid_src w2) with (uuid_src w). change (uuid_pos w2) with (uuid_pos w).
    change (clock_src w2) with (clock_src w). change (clock_pos w2) with (clock_pos w).
    do 2 f_equal. f_equal. lia.
  - rewrite Hui. reflexivity.
Qed.
Example demo_started_state :
  session demo_started =
    mk_session (Some (mk_user "uuid-00" "t1" "Ibu Guru" "teacher" (hash_password "rahasia")))
               (Some demo_class_row) (Some demo_test_row) /\
  tests (disk demo_started) = [demo_test_row] /\
  questions (disk demo_started) = [].
Proof. vm_compute. repeat split. Qed.

Example demo_four_state :
  questions_of demo_test_row (disk (with_student demo_four)) = demo_four_questions /\
  session (with_student demo_four) =
    mk_session (Some (demo_s1 "uuid-07")) (Some demo_class_row) (Some demo_test_row).
Proof. vm_compute. repeat split. Qed.

Example demo_two_state :
  questions_of demo_test_row (disk (with_student demo_two)) = demo_two_questions /\
  session (with_student demo_two) =
    mk_session (Some (demo_s1 "uuid-05")) (Some demo_class_row) (Some demo_test_row).
Proof. vm_compute. repeat split. Qed.

(** A test without questions, started by the teacher: "Kirim Jawaban" finds
    nothing to submit. *)
Lemma empty_test_demo :
  let res := run_script (test_flow demo_class_row) (demo_submit [] demo_started) in
  fst res <> Some ZeroDivisionError /\
  In msg_no_questions (ui (snd res)) /\
  attempts (disk (snd res)) = attempts (disk (demo_submit [] demo_started)) /\
  answers (disk (snd res)) = answers (disk (demo_submit [] demo_started)) /\
  notifications (disk (snd res)) = notifications (disk (demo_submit [] demo_started)).
Proof.
  apply (@empty_test_not_submitted (demo_submit [] demo_started) demo_class_row demo_test_row).
  - vm_compute. reflexivity.
  - vm_compute. reflexivity.
Defined.
(** C1 (as amended). For a test with at least one question (and fewer than
    2^53, so that line 336 converts its ints exactly), "Kirim Jawaban"
    persists one attempt, for this test and this user, whose score is the
    binary64 number of [(score / len(qs)) * 100]: the number of questions
    answered with their correct option divided by the number of questions
    of the test, rounded to the nearest float, then multiplied by 100 and
    rounded again. *)
Theorem submitted_score_is_percentage (w : world) (cl : class_row) (t : test_row)
        (u : user_row) (qs : list question_row) :
  db_ok (disk w) = true ->
  user (session w) = Some u ->
  current_test (session w) = Some t ->
  questions_of t (disk w) = qs ->
  qs <> [] ->
  (Z.of_nat (List.length qs) < 2 ^ 53)%Z ->
  pressed w = Some "Kirim Jawaban" ->
  submit_ids_fresh w (List.length qs) = true ->
  let res := run_script (test_flow cl) w in
  exists a : attempt_row,
    attempts (disk (snd res)) = attempts (disk w) ++ [a] /\
    attempt_test_id a = test_id t /\
    attempt_user_id a = user_id u /\
    score a =
      (float_of_nat (correct_count w qs) / float_of_nat (List.length qs) * 100)%float.
Proof.
  intros Hok Hu Ht Hqs Hne _ Hp Hfresh res.
  destruct (@submit_run w cl t u qs Hok Hu Ht Hqs Hne Hp Hfresh).
  exists (submitted_attempt w t u qs).
  split; [assumption|]. split; [reflexivity|]. split; reflexivity.
Qed.

(** Four questions with the keys A, B, C, D, answered A, B, X, D: the score
    stored is 75.0. *)
Lemma three_of_four_scores_75 :
  let w := demo_submit [("q_uuid-03", "A"); ("q_uuid-04", "B"); ("q_uuid-05", "X");
                        ("q_uuid-06", "D")] (with_student demo_four) in
  map correct_option (questions_of demo_test_row (disk w)) = ["A"; "B"; "C"; "D"] /\
  exists a : attempt_row,
    attempts (disk (snd (run_script (test_flow demo_class_row) w))) =
      attempts (disk w) ++ [a] /\
    attempt_test_id a = test_id demo_test_row /\
    attempt_user_id a = user_id (demo_s1 "uuid-07") /\
    score a = 75%float.
Proof.
  intros w. split; [vm_compute; reflexivity|].
  destruct (@submitted_score_is_percentage w demo_class_row demo_test_row
              (demo_s1 "uuid-07") demo_four_questions)
    as (a & Ha & Ht & Hu & Hs);
    [vm_compute; reflexivity | vm_compute; reflexivity | vm_compute; reflexivity
     | vm_compute; reflexivity | discriminate | vm_compute; reflexivity | reflexivity
     | vm_compute; reflexivity |].
  exists a. split; [exact Ha|]. split; [exact Ht|]. split; [exact Hu|].
  rewrite Hs. vm_compute. reflexivity.
Defined.

(** C1, where it fails as stated: of the 25 questions of the test 7 are
    answered correctly, and 100 * 7 / 25 is 28; the score stored is not 28.0
    but the float next to it, 0x1.c000000000001p+4, which Python prints as
    28.000000000000004, because the quotient 7 / 25 is rounded before it is
    multiplied by 100. *)
Lemma seven_of_25_scores_above_28 :
  let w := demo_seven_right in
  let qs := questions_of demo_test_row (disk w) in
  List.length qs = 25 /\ correct_count w qs = 7 /\ (100 * 7 = 28 * 25)%Z /\
  exists a : attempt_row,
    attempts (disk (snd (run_script (test_flow demo_class_row) w))) = [a] /\
    score a = 0x1.c000000000001p+4%float /\
    PrimFloat.eqb (score a) 28 = false /\
    PrimFloat.ltb 28 (score a) = true.
Proof.
  vm_compute. split; [reflexivity|]. split; [reflexivity|]. split; [reflexivity|].
  eexists. split; [reflexivity|]. repeat split.
Qed.

Lemma chosen_untouched (w : world) (q : question_row) : untouched w q -> chosen w q = "A".
Proof. unfold untouched, chosen, choice_value. now intros ->. Qed.

Lemma map_snd_combine_seq {A B : Type} (g : A -> B) (l : list A) (k : nat) :
  map (fun iq => g (snd iq)) (combine (seq k (List.length l)) l) = map g l.
Proof.
  revert k. induction l as [|x l IH]; intros k; cbn [List.length seq combine map snd].
  - reflexivity.
  - f_equal. apply IH.
Qed.

Lemma submitted_answers_questions (w : world) (qs : list question_row) :
  map answer_question_id (submitted_answers w qs) = map question_id qs /\
  map chosen_option (submitted_answers w qs) = map (chosen w) qs /\
  Forall (fun r => answer_attempt_id r = uuid_src w (uuid_pos w)) (submitted_answers w qs).
Proof.
  unfold submitted_answers. split; [|split].
  - rewrite map_map. apply (map_snd_combine_seq question_id qs 0).
  - rewrite map_map. apply (map_snd_combine_seq (chosen w) qs 0).
  - apply Forall_forall. intros r Hr. apply in_map_iff in Hr as (iq & <- & _). reflexivity.
Qed.

(** An omitted question and a question answered incorrectly count alike. *)
Lemma correct_among_omitted (present : list question_row) (ch ch' : question_row -> string)
      (q : question_row) :
  (forall p, In p present -> ch' p = ch p) ->
  ch' q <> correct_option q ->
  correct_among (present ++ [q]) ch' = correct_among present ch.
Proof.
  intros Hsame Hwrong. unfold correct_among. rewrite filter_app, length_app.
  cbn [filter]. destruct (String.eqb_spec (correct_option q) (ch' q)) as [E|_];
    [now elim Hwrong|].
  cbn [List.length]. rewrite Nat.add_0_r. f_equal. apply filter_ext_in.
  intros p Hp. now rewrite (Hsame p Hp).
Qed.

(** C3. The handler of "Kirim Jawaban" (lines 330-351), given a mapping
    that holds an answer for the questions [present] of the test only: the
    submission does not fail, it ends like any other with the attempt, one
    answer row per answer given and the notification committed; the score
    counts the answers given that are correct and divides by the number of
    questions of the test, so that a question the mapping omits counts as
    one answered incorrectly would; with no answer at all the score is
    0.0. *)
Theorem omitted_answers_count_as_incorrect (cl : class_row) (t : test_row) (u : user_row)
        (qs present : list question_row) (ch : question_row -> string) (v : world) :
  NoDup (map question_id (questions (conn v))) ->
  incl qs (questions (conn v)) ->
  qs <> [] ->
  (Z.of_nat (List.length qs) < 2 ^ 53)%Z ->
  incl present qs ->
  NoDup (map question_id present) ->
  user (session v) = Some u ->
  Sql.taken attempt_id (attempts (conn v)) (uuid_src v (uuid_pos v)) = false ->
  ids_fresh (map answer_id (answers (conn v)))
            (map (fun i => uuid_src v (S (uuid_pos v) + i)) (seq 0 (List.length present)))
    = true ->
  Sql.taken notification_id (notifications (conn v))
            (uuid_src v (S (uuid_pos v) + List.length present)) = false ->
  exists (v' : world) (a : attempt_row),
    kirim_jawaban cl t qs (answers_for present ch) v = Raise RerunException v' /\
    attempts (disk v') = attempts (conn v) ++ [a] /\
    attempt_test_id a = test_id t /\
    answers (disk v') = answers (conn v) ++ answer_rows v (attempt_id a) present ch /\
    score a =
      (float_of_nat (correct_among present ch) / float_of_nat (List.length qs) * 100)%float /\
    (forall (q : question_row) (ch' : question_row -> string),
        In q qs -> ~ In q present ->
        (forall p, In p present -> ch' p = ch p) ->
        ch' q <> correct_option q ->
        correct_among (present ++ [q]) ch' = correct_among present ch) /\
    (present = [] -> score a = 0%float).
Proof.
  intros Hnd Hqs Hne Hbound Hpresent _ Hu Hatt Hans Hnot.
  destruct (@kirim_jawaban_run cl t u qs present ch v Hnd) as (v' & Hrun & Ha & Hb & _);
    try assumption.
  { intros q Hq. apply Hqs, Hpresent, Hq. }
  eexists v', _. split; [exact Hrun|]. split; [exact Ha|].
  cbn [attempt_test_id attempt_id score].
  split; [reflexivity|]. split; [exact Hb|]. split; [reflexivity|]. split.
  - intros q ch' _ _ Hsame Hwrong. now apply correct_among_omitted.
  - intros ->. apply (@score_of_no_correct_answer (List.length qs)); [|exact Hbound].
    destruct qs; [contradiction | cbn [List.length]; lia].
Qed.

(** The two questions keyed A and B of "Pretest A", and a mapping that
    holds "B" for the second question only: the submission ends as usual,
    one answer row is written and the score is the one of a single correct
    answer out of two. *)
Lemma omitted_answer_demo :
  let v := with_student demo_two in
  let present := [demo_q "uuid-04" "Q2" "B"] in
  let ch := fun _ : question_row => "B" in
  exists (v' : world) (a : attempt_row),
    kirim_jawaban demo_class_row demo_test_row demo_two_questions (answers_for present ch) v =
      Raise RerunException v' /\
    attempts (disk v') = attempts (conn v) ++ [a] /\
    attempt_test_id a = test_id demo_test_row /\
    answers (disk v') = answers (conn v) ++ answer_rows v (attempt_id a) present ch /\
    score a =
      (float_of_nat (correct_among present ch) / float_of_nat (List.length demo_two_questions)
       * 100)%float /\
    (forall (q : question_row) (ch' : question_row -> string),
        In q demo_two_questions -> ~ In q present ->
        (forall p, In p present -> ch' p = ch p) ->
        ch' q <> correct_option q ->
        correct_among (present ++ [q]) ch' = correct_among present ch) /\
    (present = [] -> score a = 0%float).
Proof.
  intros v present ch.
  apply (@omitted_answers_count_as_incorrect demo_class_row demo_test_row
           (demo_s1 "uuid-05") demo_two_questions present ch v).
  - apply distinct_NoDup. vm_compute. reflexivity.
  - intros q Hq. vm_compute. vm_compute in Hq. tauto.
  - discriminate.
  - vm_compute. reflexivity.
  - intros q [<-|[]]. right. now left.
  - apply distinct_NoDup. vm_compute. reflexivity.
  - vm_compute. reflexivity.
  - vm_compute. reflexivity.
  - vm_compute. reflexivity.
  - vm_compute. reflexivity.
Defined.

(** The same test with the second question answered and with no answer at
    all: the scores stored are 50.0 and 0.0, and both submissions end with
    the rerun of line 351. *)
Example omitted_answers_scores :
  let v := with_student demo_two in
  let run given :=
    let r := kirim_jawaban demo_class_row demo_test_row demo_two_questions given v in
    (raised r, map score (attempts (disk (world_of r))),
     map answer_question_id (answers (disk (world_of r)))) in
  run [("uuid-04", "B")] = (Some RerunException, [50%float], ["uuid-04"]) /\
  run [] = (Some RerunException, [0%float], []).
Proof. vm_compute. split; reflexivity. Qed.

(** C8 (as amended). A successful "Kirim Jawaban" persists one answer row
    per question of the test, in the order of the questions, each with the
    option chosen for its question and the id of the new attempt, and appends
    one notification whose message is the display name of the user, the word
    "selesai" and the title of the test, for the class [cl] the tab is
    rendered for (the class that is current in the session). *)
Theorem submission_writes_answers_and_notification (w : world) (cl : class_row)
        (t : test_row) (u : user_row) (qs : list question_row) :
  db_ok (disk w) = true ->
  user (session w) = Some u ->
  current_test (session w) = Some t ->
  questions_of t (disk w) = qs ->
  qs <> [] ->
  pressed w = Some "Kirim Jawaban" ->
  submit_ids_fresh w (List.length qs) = true ->
  let res := run_script (test_flow cl) w in
  fst res = Some RerunException /\
  exists (a : attempt_row) (rows : list answer_row) (n : notification_row),
    attempts (disk (snd res)) = attempts (disk w) ++ [a] /\
    answers (disk (snd res)) = answers (disk w) ++ rows /\
    map answer_question_id rows = map question_id qs /\
    map chosen_option rows = map (chosen w) qs /\
    Forall (fun r => answer_attempt_id r = attempt_id a) rows /\
    notifications (disk (snd res)) = notifications (disk w) ++ [n] /\
    message n = (display_name u ++ " selesai " ++ title t)%string /\
    notification_class_id n = class_id cl.
Proof.
  intros Hok Hu Ht Hqs Hne Hp Hfresh res.
  destruct (@submit_run w cl t u qs Hok Hu Ht Hqs Hne Hp Hfresh).
  destruct (submitted_answers_questions w qs) as (Hq & Hc & Ha).
  split; [assumption|].
  exists (submitted_attempt w t u qs), (submitted_answers w qs),
         (submitted_notification w cl t u (List.length qs)).
  repeat split; assumption || reflexivity.
Qed.

(** The student "s1" submits A and C for the two questions keyed A and B of
    "Pretest A": two answer rows and the notification "s1 selesai Pretest A"
    for the class "Biology". *)
Lemma s1_submits_pretest_A :
  let w := demo_submit [("q_uuid-03", "A"); ("q_uuid-04", "C")] (with_student demo_two) in
  let res := run_script (test_flow demo_class_row) w in
  fst res = Some RerunException /\
  exists (a : attempt_row) (rows : list answer_row) (n : notification_row),
    attempts (disk (snd res)) = attempts (disk w) ++ [a] /\
    answers (disk (snd res)) = answers (disk w) ++ rows /\
    map answer_question_id rows = map question_id demo_two_questions /\
    map chosen_option rows = map (chosen w) demo_two_questions /\
    Forall (fun r => answer_attempt_id r = attempt_id a) rows /\
    notifications (disk (snd res)) = notifications (disk w) ++ [n] /\
    message n = (display_name (demo_s1 "uuid-05") ++ " selesai " ++ title demo_test_row)%string /\
    notification_class_id n = class_id demo_class_row.
Proof.
  intros w.
  apply (@submission_writes_answers_and_notification w demo_class_row demo_test_row
           (demo_s1 "uuid-05") demo_two_questions);
    [vm_compute; reflexivity | vm_compute; reflexivity | vm_compute; reflexivity
     | vm_compute; reflexivity | discriminate | reflexivity | vm_compute; reflexivity].
Defined.

(** C8, where it fails as stated: for the student "s1" and the test
    "Pretest A" the notification appended is "s1 selesai Pretest A", not
    "s1 completed Pretest A"; the score is 50. *)
Lemma notification_says_selesai :
  let w := demo_submit [("q_uuid-03", "A"); ("q_uuid-04", "C")] (with_student demo_two) in
  let res := run_script (test_flow demo_class_row) w in
  map message (notifications (disk (snd res))) = ["s1 selesai Pretest A"] /\
  ~ In "s1 completed Pretest A" (map message (notifications (disk (snd res)))) /\
  exists a : attempt_row, attempts (disk (snd res)) = [a] /\ score a = 50%float.
Proof.
  vm_compute. split; [reflexivity|]. split.
  - intros [H|[]]. discriminate H.
  - eexists. split; reflexivity.
Qed.
(* ================================================================== *)
(** * The constraints of the schema are an invariant *)

Lemma distinct_snoc (l : list string) (x : string) :
  distinct l = true -> existsb (String.eqb x) l = false -> distinct (l ++ [x]) = true.
Proof.
  induction l as [|y l IH]; cbn [distinct app existsb]; intros Hd Hx.
  - reflexivity.
  - apply andb_true_iff in Hd as [Hy Hl]. apply orb_false_iff in Hx as [Hxy Hxl].
    apply andb_true_iff. split; [|now apply IH].
    apply negb_true_iff. rewrite existsb_app. cbn [existsb].
    apply negb_true_iff in Hy. rewrite Hy, String.eqb_sym, Hxy. reflexivity.
Qed.

Lemma distinct_insert {R : Type} (col : R -> string) (rows : list R) (r : R) :
  distinct (map col rows) = true -> Sql.taken col rows (col r) = false ->
  distinct (map col (rows ++ [r])) = true.
Proof.
  intros Hd Ht. rewrite map_app. cbn [map]. apply distinct_snoc; [exact Hd|].
  now rewrite <- taken_as_existsb.
Qed.

Ltac db_ok_split :=
  unfold db_ok in *;
  repeat match goal with
         | H : _ && _ = true |- _ => apply andb_true_iff in H; destruct H
         end;
  cbn [users classes materials notifications tests questions attempts answers];
  repeat (apply andb_true_iff; split); try assumption.

Lemma insert_user_ok (r : user_row) (db db' : database) :
  db_ok db = true -> Sql.insert_user r db = Some db' -> db_ok db' = true.
Proof.
  unfold Sql.insert_user. intros Hok.
  destruct (Sql.taken user_id _ _) eqn:E1; [discriminate|].
  destruct (Sql.taken username _ _) eqn:E2; [discriminate|].
  cbn [orb]. intros [= <-]. db_ok_split; now apply distinct_insert.
Qed.

Lemma insert_class_ok (r : class_row) (db db' : database) :
  Py.strip_truthy (class_access_code r) = true ->
  db_ok db = true -> Sql.insert_class r db = Some db' -> db_ok db' = true.
Proof.
  unfold Sql.insert_class. intros Hcode Hok.
  destruct (Sql.taken class_id _ _) eqn:E1; [discriminate|].
  intros [= <-]. db_ok_split.
  - now apply distinct_insert.
  - rewrite forallb_app. apply andb_true_iff. split; [assumption|].
    cbn [forallb]. now rewrite Hcode.
Qed.

Lemma insert_material_ok (r : material_row) (db db' : database) :
  db_ok db = true -> insert_material r db = Some db' -> db_ok db' = true.
Proof.
  unfold insert_material. intros Hok.
  destruct (Sql.taken material_id _ _) eqn:E1; [discriminate|].
  intros [= <-]. db_ok_split; now apply distinct_insert.
Qed.

Lemma insert_notification_ok (r : notification_row) (db db' : database) :
  db_ok db = true -> Sql.insert_notification r db = Some db' -> db_ok db' = true.
Proof.
  unfold Sql.insert_notification. intros Hok.
  destruct (Sql.taken notification_id _ _) eqn:E1; [discriminate|].
  intros [= <-]. db_ok_split; now apply distinct_insert.
Qed.

Lemma insert_test_ok (r : test_row) (db db' : database) :
  db_ok db = true -> Sql.insert_test r db = Some db' -> db_ok db' = true.
Proof.
  unfold Sql.insert_test. intros Hok.
  destruct (Sql.taken test_id _ _) eqn:E1; [discriminate|].
  intros [= <-]. db_ok_split; now apply distinct_insert.
Qed.

Lemma insert_question_ok (r : question_row) (db db' : database) :
  db_ok db = true -> Sql.insert_question r db = Some db' -> db_ok db' = true.
Proof.
  unfold Sql.insert_question. intros Hok.
  destruct (Sql.taken question_id _ _) eqn:E1; [discriminate|].
  intros [= <-]. db_ok_split; now apply distinct_insert.
Qed.

Lemma insert_attempt_ok (r : attempt_row) (db db' : database) :
  db_ok db = true -> Sql.insert_attempt r db = Some db' -> db_ok db' = true.
Proof.
  unfold Sql.insert_attempt. intros Hok.
  destruct (Sql.taken attempt_id _ _) eqn:E1; [discriminate|].
  intros [= <-]. db_ok_split; now apply distinct_insert.
Qed.

Lemma insert_answer_ok (r : answer_row) (db db' : database) :
  db_ok db = true -> Sql.insert_answer r db = Some db' -> db_ok db' = true.
Proof.
  unfold Sql.insert_answer. intros Hok.
  destruct (Sql.taken answer_id _ _) eqn:E1; [discriminate|].
  intros [= <-]. db_ok_split; now apply distinct_insert.
Qed.
(* ================================================================== *)
(** * Properties kept by every action of the script *)

Section Keeps.
Variable P : database -> Prop.
Variable U : option user_row -> Prop.

Lemma keeps_ret {A : Type} (a : A) : keeps P U (ret a).
Proof. intros w Hd Hc Hu. now repeat split. Qed.

Lemma keeps_raise {A : Type} (e : exn) : keeps P U (@raise A e).
Proof. intros w Hd Hc Hu. now repeat split. Qed.

Lemma keeps_bind {A B : Type} (m : M A) (k : A -> M B) :
  keeps P U m -> (forall a, keeps P U (k a)) -> keeps P U (bind m k).
Proof.
  intros Hm Hk w Hd Hc Hu. unfold bind. specialize (Hm w Hd Hc Hu).
  destruct (m w) as [a w'|e w']; cbn [world_of] in *.
  - destruct Hm as (H1 & H2 & H3). now apply Hk.
  - exact Hm.
Qed.

Lemma keeps_try (m h : M unit) :
  keeps P U m -> keeps P U h -> keeps P U (try_except_integrity m h).
Proof.
  intros Hm Hh w Hd Hc Hu. unfold try_except_integrity. specialize (Hm w Hd Hc Hu).
  destruct (m w) as [a w'|[] w']; cbn [world_of] in *; try exact Hm.
  destruct Hm as (H1 & H2 & H3). now apply Hh.
Qed.

Lemma keeps_for_each {A : Type} (l : list A) (body : A -> M unit) :
  (forall x, keeps P U (body x)) -> keeps P U (for_each l body).
Proof.
  intros Hb. induction l as [|x l IH]; cbn [for_each].
  - apply keeps_ret.
  - apply keeps_bind; [apply Hb | intros _; exact IH].
Qed.

Lemma keeps_for_fold {A T : Type} (l : list A) (body : T -> A -> M T) (s : T) :
  (forall s x, keeps P U (body s x)) -> keeps P U (for_fold l body s).
Proof.
  intros Hb. revert s. induction l as [|x l IH]; intros s; cbn [for_fold].
  - apply keeps_ret.
  - apply keeps_bind; [apply Hb | intros s'; apply IH].
Qed.

(** An action that touches neither the database nor the logged-in user. *)
Lemma keeps_state {A : Type} (m : M A) :
  (forall w, disk (world_of (m w)) = disk w /\ conn (world_of (m w)) = conn w /\
             user (session (world_of (m w))) = user (session w)) ->
  keeps P U m.
Proof. intros H w Hd Hc Hu. destruct (H w) as (-> & -> & ->). now repeat split. Qed.

Lemma keeps_commit : keeps P U commit.
Proof. intros w Hd Hc Hu. unfold commit. world_simpl. now repeat split. Qed.

Lemma keeps_execute (stmt : database -> option database) :
  (forall db db', P db -> stmt db = Some db' -> P db') ->
  keeps P U (execute stmt).
Proof.
  intros Hs w Hd Hc Hu. unfold execute. destruct (stmt (conn w)) as [db'|] eqn:E; world_simpl.
  - repeat split; [exact Hd | now apply (Hs (conn w)) | exact Hu].
  - now repeat split.
Qed.

Lemma keeps_emit (e : ui_event) : keeps P U (emit e).
Proof. apply keeps_state. intros w. now repeat split. Qed.

Lemma keeps_query {A : Type} (q : database -> A) : keeps P U (query q).
Proof. apply keeps_state. intros w. now repeat split. Qed.

Lemma keeps_uuid4_hex : keeps P U uuid4_hex.
Proof. apply keeps_state. intros w. now repeat split. Qed.

Lemma keeps_now_isoformat : keeps P U now_isoformat.
Proof. apply keeps_state. intros w. now repeat split. Qed.

Lemma keeps_st_button (k : string) : keeps P U (st_button k).
Proof. apply keeps_state. intros w. now repeat split. Qed.

Lemma keeps_st_text_input (k : string) : keeps P U (st_text_input k).
Proof. apply keeps_state. intros w. now repeat split. Qed.

Lemma keeps_st_choice (o : list string) (k : string) : keeps P U (st_choice o k).
Proof. apply keeps_state. intros w. now repeat split. Qed.

Lemma keeps_st_checkbox (k : string) : keeps P U (st_checkbox k).
Proof. apply keeps_state. intros w. now repeat split. Qed.

Lemma keeps_put_session (s : session_state) : U (user s) -> keeps P U (put_session s).
Proof. intros Hs w Hd Hc Hu. unfold put_session. world_simpl. now repeat split. Qed.

(** What follows [get_session] may rely on [U] for the user it read. *)
Lemma keeps_get_session {B : Type} (k : session_state -> M B) :
  (forall s, U (user s) -> keeps P U (k s)) -> keeps P U (bind get_session k).
Proof. intros Hk w Hd Hc Hu. unfold bind, get_session. now apply Hk. Qed.

(** What follows [session_user] may rely on [U] for the user it returned. *)
Lemma keeps_session_user {B : Type} (k : user_row -> M B) :
  (forall u, U (Some u) -> keeps P U (k u)) -> keeps P U (bind session_user k).
Proof.
  intros Hk w Hd Hc Hu. unfold session_user, get_session. unfold bind.
  destruct (user (session w)) as [u|] eqn:E; unfold ret, raise.
  - apply Hk; [exact Hu | assumption | assumption | rewrite E; exact Hu].
  - cbn [world_of]. repeat split; try assumption. rewrite E. exact Hu.
Qed.

End Keeps.

(** Follows the structure of a computation [m] to prove [keeps P U m]: [ins]
    closes the goal of an INSERT statement, [excl] a branch that the
    logged-in user rules out or the goal of a session update. *)
Ltac keeps_step ins excl :=
  lazymatch goal with
  | |- keeps _ _ (ret _) => apply keeps_ret
  | |- keeps _ _ (raise _) => apply keeps_raise
  | |- keeps _ _ commit => apply keeps_commit
  | |- keeps _ _ (emit _) => apply keeps_emit
  | |- keeps _ _ (query _) => apply keeps_query
  | |- keeps _ _ uuid4_hex => apply keeps_uuid4_hex
  | |- keeps _ _ now_isoformat => apply keeps_now_isoformat
  | |- keeps _ _ (put_session _) => apply keeps_put_session; cbn [user]; excl
  | |- keeps _ _ (st_button _) => apply keeps_st_button
  | |- keeps _ _ (st_text_input _) => apply keeps_st_text_input
  | |- keeps _ _ (st_choice _ _) => apply keeps_st_choice
  | |- keeps _ _ (st_checkbox _) => apply keeps_st_checkbox
  | |- keeps _ _ (try_except_integrity _ _) => apply keeps_try
  | |- keeps _ _ (for_each _ _) => apply keeps_for_each; intros ?
  | |- keeps _ _ (for_fold _ _ _) => apply keeps_for_fold; intros ? ?
  | |- keeps _ _ (bind get_session _) => apply keeps_get_session; intros ? ?
  | |- keeps _ _ (bind session_user _) => apply keeps_session_user; intros ? ?
  | |- keeps _ _ (bind _ _) => apply keeps_bind; [|intros ?]
  | |- keeps _ _ (execute _) => apply keeps_execute; intros ? ? ? ?; ins
  | |- keeps _ _ (match ?x with _ => _ end) => destruct x eqn:?; try (solve [excl])
  end.

Ltac keeps_by ins excl := repeat (keeps_step ins excl).

Ltac unfold_pages :=
  unfold akun_page, daftar_block, login_block, buat_kelas_page, masuk_kelas_block,
    masuk_kelas_item, materi_list, materi_item, material_gate, show_material,
    test_tab, mulai_item, buat_test_form, test_flow, tambah_soal_form, kirim_jawaban,
    collect_answer, count_answer, insert_chosen, score_val_of, notifikasi_tab,
    virtual_lab_tab, experimental_rerun.

(* ================================================================== *)
(** * The constraints of the schema are kept *)

Ltac insert_keeps_db_ok :=
  cbv beta in *;
  lazymatch goal with
  | H : Sql.insert_user _ _ = Some _ |- _ => eapply insert_user_ok; eassumption
  | H : insert_material _ _ = Some _ |- _ => eapply insert_material_ok; eassumption
  | H : Sql.insert_notification _ _ = Some _ |- _ =>
      eapply insert_notification_ok; eassumption
  | H : Sql.insert_test _ _ = Some _ |- _ => eapply insert_test_ok; eassumption
  | H : Sql.insert_question _ _ = Some _ |- _ => eapply insert_question_ok; eassumption
  | H : Sql.insert_attempt _ _ = Some _ |- _ => eapply insert_attempt_ok; eassumption
  | H : Sql.insert_answer _ _ = Some _ |- _ => eapply insert_answer_ok; eassumption
  | H : Sql.insert_class _ _ = Some _, G : _ && Py.strip_truthy _ = true |- _ =>
      eapply insert_class_ok; [|eassumption|eassumption];
      apply andb_true_iff in G; apply G
  end.

Lemma page_keeps_db_ok (page : M unit) :
  script_page page -> keeps (fun db => db_ok db = true) any_user page.
Proof.
  intros [ts []]; unfold_pages; keeps_by insert_keeps_db_ok ltac:(exact I).
Qed.
(** A run of a page keeps what the page keeps. *)
Lemma run_script_keeps (P : database -> Prop) (U : option user_row -> Prop)
      (page : M unit) (w : world) :
  keeps P U page -> P (disk w) -> U (user (session w)) ->
  P (disk (snd (run_script page w))).
Proof.
  intros Hk Hd Hu. unfold run_script. world_simpl.
  apply (Hk (set_ui [] (set_conn (disk w) w))); assumption.
Qed.

(** X1. Whatever the widgets hold and whichever button is clicked, a run of
    an embedded page or tab, however it ends, leaves a database that
    satisfies the PRIMARY KEY and UNIQUE constraints of [init_db] and in
    which every class has a non-blank access code, provided the database
    satisfied them before. *)
Theorem page_run_keeps_constraints (page : M unit) (w : world) :
  script_page page ->
  db_ok (disk w) = true ->
  db_ok (disk (snd (run_script page w))) = true.
Proof.
  intros Hpage Hok.
  apply (run_script_keeps (P := fun db => db_ok db = true) (U := any_user));
    [now apply page_keeps_db_ok | exact Hok | exact I].
Qed.

Lemma page_run_keeps_constraints_demo :
  db_ok (disk (snd (run_script (test_tab demo_class_row)
                               (demo_submit [("q_uuid-03", "A")] (with_student demo_two)))))
  = true.
Proof.
  apply page_run_keeps_constraints.
  - eexists. apply page_test.
  - vm_compute. reflexivity.
Defined.



(* ================================================================== *)
(** * Rows are only ever added *)

Lemma extended_refl {R : Type} (l : list R) : extended l l.
Proof. exists []. now rewrite app_nil_r. Qed.

Lemma extended_trans {R : Type} (l1 l2 l3 : list R) :
  extended l1 l2 -> extended l2 l3 -> extended l1 l3.
Proof. intros [a ->] [b ->]. exists (a ++ b). now rewrite app_assoc. Qed.

Lemma extended_snoc {R : Type} (l1 l2 : list R) (r : R) :
  extended l1 l2 -> extended l1 (l2 ++ [r]).
Proof. intros H. apply (extended_trans H). now exists [r]. Qed.

Lemma grows_refl (d : database) : grows d d.
Proof. repeat split; apply extended_refl. Qed.

Lemma grows_trans (d1 d2 d3 : database) : grows d1 d2 -> grows d2 d3 -> grows d1 d3.
Proof.
  unfold grows.
  intros (A1 & A2 & A3 & A4 & A5 & A6 & A7 & A8) (B1 & B2 & B3 & B4 & B5 & B6 & B7 & B8).
  repeat split; eapply extended_trans; eassumption.
Qed.

(** What a successful INSERT returns. *)
Lemma insert_user_inv (r : user_row) (db db' : database) :
  Sql.insert_user r db = Some db' ->
  db' = mk_db (users db ++ [r]) (classes db) (materials db) (notifications db)
              (tests db) (questions db) (attempts db) (answers db).
Proof. unfold Sql.insert_user. destruct (_ || _); congruence. Qed.

Lemma insert_class_inv (r : class_row) (db db' : database) :
  Sql.insert_class r db = Some db' ->
  db' = mk_db (users db) (classes db ++ [r]) (materials db) (notifications db)
              (tests db) (questions db) (attempts db) (answers db).
Proof. unfold Sql.insert_class. destruct (Sql.taken _ _ _); congruence. Qed.

Lemma insert_material_inv (r : material_row) (db db' : database) :
  insert_material r db = Some db' ->
  db' = mk_db (users db) (classes db) (materials db ++ [r]) (notifications db)
              (tests db) (questions db) (attempts db) (answers db).
Proof. unfold insert_material. destruct (Sql.taken _ _ _); congruence. Qed.

Lemma insert_notification_inv (r : notification_row) (db db' : database) :
  Sql.insert_notification r db = Some db' ->
  db' = mk_db (users db) (classes db) (materials db) (notifications db ++ [r])
              (tests db) (questions db) (attempts db) (answers db).
Proof. unfold Sql.insert_notification. destruct (Sql.taken _ _ _); congruence. Qed.

Lemma insert_test_inv (r : test_row) (db db' : database) :
  Sql.insert_test r db = Some db' ->
  db' = mk_db (users db) (classes db) (materials db) (notifications db)
              (tests db ++ [r]) (questions db) (attempts db) (answers db).
Proof. unfold Sql.insert_test. destruct (Sql.taken _ _ _); congruence. Qed.

Lemma insert_question_inv (r : question_row) (db db' : database) :
  Sql.insert_question r db = Some db' ->
  db' = mk_db (users db) (classes db) (materials db) (notifications db)
              (tests db) (questions db ++ [r]) (attempts db) (answers db).
Proof. unfold Sql.insert_question. destruct (Sql.taken _ _ _); congruence. Qed.

Lemma insert_attempt_inv (r : attempt_row) (db db' : database) :
  Sql.insert_attempt r db = Some db' ->
  db' = mk_db (users db) (classes db) (materials db) (notifications db)
              (tests db) (questions db) (attempts db ++ [r]) (answers db).
Proof. unfold Sql.insert_attempt. destruct (Sql.taken _ _ _); congruence. Qed.

Lemma insert_answer_inv (r : answer_row) (db db' : database) :
  Sql.insert_answer r db = Some db' ->
  db' = mk_db (users db) (classes db) (materials db) (notifications db)
              (tests db) (questions db) (attempts db) (answers db ++ [r]).
Proof. unfold Sql.insert_answer. destruct (Sql.taken _ _ _); congruence. Qed.

(** Replaces the database a successful INSERT returned by its value. *)
Ltac insert_inv :=
  cbv beta in *;
  lazymatch goal with
  | H : Sql.insert_user _ _ = Some _ |- _ => apply insert_user_inv in H
  | H : Sql.insert_class _ _ = Some _ |- _ => apply insert_class_inv in H
  | H : insert_material _ _ = Some _ |- _ => apply insert_material_inv in H
  | H : Sql.insert_notification _ _ = Some _ |- _ => apply insert_notification_inv in H
  | H : Sql.insert_test _ _ = Some _ |- _ => apply insert_test_inv in H
  | H : Sql.insert_question _ _ = Some _ |- _ => apply insert_question_inv in H
  | H : Sql.insert_attempt _ _ = Some _ |- _ => apply insert_attempt_inv in H
  | H : Sql.insert_answer _ _ = Some _ |- _ => apply insert_answer_inv in H
  end;
  subst;
  cbn [users classes materials notifications tests questions attempts answers] in *.

Ltac insert_grows :=
  insert_inv;
  match goal with
  | H : grows _ _ |- grows _ _ =>
      unfold grows in *;
      cbn [users classes materials notifications tests questions attempts answers];
      destruct H as (? & ? & ? & ? & ? & ? & ? & ?);
      repeat split; first [assumption | now apply extended_snoc]
  end.

Lemma page_keeps_grows (d0 : database) (page : M unit) :
  script_page page -> keeps (grows d0) any_user page.
Proof.
  intros [ts []]; unfold_pages; keeps_by insert_grows ltac:(exact I).
Qed.

(** X3. The script never deletes, changes or reorders a stored row: after
    any sequence of interactions with the embedded pages, every table is the
    table it was with rows added at the end. *)
Theorem tables_only_grow
        (steps : list (M unit * (string -> option string) * option string)) (w : world) :
  Forall (fun s => script_page (fst (fst s))) steps ->
  grows (disk w) (disk (interactions steps w)).
Proof.
  revert w. induction steps as [|[[page wd] btn] steps IH]; intros w Hall; cbn [interactions].
  - apply grows_refl.
  - inversion Hall as [|? ? Hp Hrest]; subst. cbn [fst] in Hp.
    eapply grows_trans; [|apply IH; exact Hrest].
    apply (run_script_keeps (P := grows (disk w)) (U := any_user));
      [now apply page_keeps_grows | apply grows_refl | exact I].
Qed.

Lemma tables_only_grow_demo :
  grows (disk demo_two)
        (disk (interactions
                 [(test_tab demo_class_row,
                   widgets_of [("Teks Soal", "Q3"); ("Kunci jawaban", "C")],
                   Some "Tambah Soal");
                  (akun_page,
                   widgets_of [("reg_user", "s1"); ("reg_display", "s1"); ("reg_pw", "pw-s1")],
                   Some "Daftar")]
                 demo_two)).
Proof.
  apply tables_only_grow.
  repeat constructor; eexists; constructor.
Defined.

(* ================================================================== *)
(** * Each page writes its own tables *)

Ltac insert_unchanged :=
  insert_inv; unfold unchanged in *;
  cbn [users classes materials notifications tests questions attempts answers] in *;
  assumption.

Lemma page_keeps_unchanged (d0 : database) (page : M unit) (ts : list table) (t : table) :
  page_writes page ts -> ~ In t ts -> keeps (unchanged t d0) any_user page.
Proof.
  intros [] Hnot; destruct t;
    try (exfalso; apply Hnot; cbn [In]; tauto);
    unfold_pages; keeps_by insert_unchanged ltac:(exact I).
Qed.

Lemma unchanged_refl (t : table) (d : database) : unchanged t d d.
Proof. now destruct t. Qed.

(** X4. A run of a page changes no table other than those its INSERT
    statements name: "Daftar / Login" only [users], "Buat Kelas" only
    [classes], the tab "Notifikasi" only [notifications], the tab "Virtual
    Lab" only [materials], the tab "Pre/Post Test" none of [users],
    [classes] and [materials]; "Masuk Kelas" and the listing of the tab
    "Materi" change no table at all. *)
Theorem page_writes_only_its_tables (page : M unit) (ts : list table) (t : table)
        (w : world) :
  page_writes page ts -> ~ In t ts ->
  unchanged t (disk w) (disk (snd (run_script page w))).
Proof.
  intros Hp Hnot.
  apply (run_script_keeps (P := unchanged t (disk w)) (U := any_user));
    [now apply (@page_keeps_unchanged (disk w) page ts t) | apply unchanged_refl | exact I].
Qed.

Lemma page_writes_only_its_tables_demo :
  unchanged Users (disk (demo_submit [("q_uuid-03", "A")] (with_student demo_two)))
            (disk (snd (run_script (test_tab demo_class_row)
                                   (demo_submit [("q_uuid-03", "A")]
                                                (with_student demo_two))))).
Proof.
  apply (@page_writes_only_its_tables _ [Tests; Questions; Attempts; Answers; Notifications]).
  - apply page_test.
  - cbn [In]. intros [H|[H|[H|[H|[H|[]]]]]]; discriminate H.
Defined.

(* ================================================================== *)
(** * What a user who is not a teacher cannot write *)

Ltac not_a_teacher :=
  idtac;
  match goal with
  | H : not_teacher (Some ?u), E : Py.str_eq (role ?u) "teacher" = true |- _ =>
      exfalso; apply (H u eq_refl); apply String.eqb_eq; exact E
  | |- not_teacher _ => assumption
  end.

Lemma student_test_tab (d0 : database) (cl : class_row) :
  keeps (fun db => unchanged Tests d0 db /\ unchanged Questions d0 db) not_teacher
        (test_tab cl).
Proof.
  unfold_pages.
  keeps_by ltac:(insert_inv; unfold unchanged in *;
                 cbn [users classes materials notifications tests questions attempts
                      answers] in *; assumption)
           not_a_teacher.
Qed.

Lemma student_notifikasi_tab (d0 : database) (cl : class_row) :
  keeps (fun db => db = d0) not_teacher (notifikasi_tab cl).
Proof. unfold_pages. keeps_by ltac:(fail) not_a_teacher. Qed.

(** X5. Tests and questions are written by teachers only: when the user
    logged in is not a teacher, a run of the tab "Pre/Post Test" leaves the
    tables [tests] and [questions] as they were, whatever is typed and
    whichever button is clicked. *)
Theorem only_teachers_write_tests (cl : class_row) (w : world) :
  not_teacher (user (session w)) ->
  tests (disk (snd (run_script (test_tab cl) w))) = tests (disk w) /\
  questions (disk (snd (run_script (test_tab cl) w))) = questions (disk w).
Proof.
  intros Hu.
  apply (run_script_keeps
           (P := fun db => unchanged Tests (disk w) db /\ unchanged Questions (disk w) db)
           (U := not_teacher));
    [apply student_test_tab | now split | exact Hu].
Qed.

Lemma only_teachers_write_tests_demo :
  let w := set_inputs (widgets_of [("Judul Test", "Posttest"); ("Teks Soal", "Q9")])
                      (Some "Buat Test") (with_student demo_two) in
  tests (disk (snd (run_script (test_tab demo_class_row) w))) = tests (disk w) /\
  questions (disk (snd (run_script (test_tab demo_class_row) w))) = questions (disk w).
Proof.
  intros w. apply only_teachers_write_tests.
  intros u Hu. vm_compute in Hu. injection Hu as <-. discriminate.
Defined.

(** X6. Notifications are broadcast by teachers only: when the user logged
    in is not a teacher, a run of the tab "Notifikasi" leaves the database as
    it was, whatever is typed and whichever button is clicked. *)
Theorem only_teachers_broadcast (cl : class_row) (w : world) :
  not_teacher (user (session w)) ->
  disk (snd (run_script (notifikasi_tab cl) w)) = disk w.
Proof.
  intros Hu.
  apply (run_script_keeps (P := fun db => db = disk w) (U := not_teacher));
    [apply student_notifikasi_tab | reflexivity | exact Hu].
Qed.

Lemma only_teachers_broadcast_demo :
  let w := set_inputs (widgets_of [("Tulis notifikasi untuk peserta kelas", "Libur!")])
                      (Some "Kirim Notifikasi") (with_student demo_two) in
  disk (snd (run_script (notifikasi_tab demo_class_row) w)) = disk w.
Proof.
  intros w. apply only_teachers_broadcast.
  intros u Hu. vm_compute in Hu. injection Hu as <-. discriminate.
Defined.
(* ================================================================== *)
(** * Registration and login, further properties *)

Lemma login_session (w : world) (r : user_row) :
  NoDup (map username (users (disk w))) ->
  In r (users (disk w)) ->
  pressed w = Some "Login" ->
  text_value w "login_user" = username r ->
  hash_password (text_value w "login_pw") = password_hash r ->
  session (snd (run_script akun_page w)) =
    mk_session (Some r) (current_class (session w)) (current_test (session w)) /\
  disk (snd (run_script akun_page w)) = disk w.
Proof.
  intros Hnd Hin Hp Hu Hh.
  unfold run_script.
  rewrite (@akun_page_login (set_ui [] (set_conn (disk w) w)) Hp).
  rewrite (@login_block_clicked (set_ui [] (set_conn (disk w) w)) Hp).
  change (text_value (set_ui [] (set_conn (disk w) w)) "login_user")
    with (text_value w "login_user").
  change (text_value (set_ui [] (set_conn (disk w) w)) "login_pw")
    with (text_value w "login_pw").
  world_simpl.
  rewrite Hu, (select_where_unique username (users (disk w)) r Hnd Hin).
  cbn [Sql.fetchone hd_error]. rewrite Hh, String.eqb_refl. world_simpl. now split.
Qed.

(** X7. Register, then log in: after a successful "Daftar", a "Login" with
    the same username and the same password logs in the user just created,
    with the row the registration stored. *)
Theorem register_then_login (w : world) (wd : string -> option string) :
  db_ok (disk w) = true ->
  pressed w = Some "Daftar" ->
  ui (snd (run_script akun_page w)) = [msg_account_created] ->
  text_value (set_inputs wd (Some "Login") (snd (run_script akun_page w))) "login_user" =
    text_value w "reg_user" ->
  text_value (set_inputs wd (Some "Login") (snd (run_script akun_page w))) "login_pw" =
    text_value w "reg_pw" ->
  logged_in (daftar_row w)
            (run_script akun_page (set_inputs wd (Some "Login") (snd (run_script akun_page w)))).
Proof.
  intros Hok Hp Hui Hu Hpw.
  set (w1 := snd (run_script akun_page w)) in *.
  set (w2 := set_inputs wd (Some "Login") w1) in *.
  assert (Hdisk : disk w2 = with_user (daftar_row w) (disk w)).
  { destruct (@daftar_run w Hp) as (_ & _ & [(_ & H & _)|[(_ & H & _)|(_ & _ & H)]]);
      fold w1 in H; try (rewrite Hui in H; discriminate H).
    exact H. }
  assert (Hok2 : db_ok (disk w2) = true).
  { change (disk w2) with (disk w1).
    apply (run_script_keeps (P := fun db => db_ok db = true) (U := any_user));
      [apply page_keeps_db_ok; eexists; apply page_akun | exact Hok | exact I]. }
  apply (@login_run w2 (daftar_row w)).
  - now apply db_ok_usernames.
  - rewrite Hdisk. unfold with_user. cbn [users]. apply in_or_app. right. now left.
  - reflexivity.
  - exact Hu.
  - rewrite Hpw. reflexivity.
Qed.

Lemma register_then_login_demo :
  logged_in (daftar_row alice_form)
            (run_script akun_page
               (set_inputs (widgets_of [("login_user", "alice"); ("login_pw", "hunter2")])
                           (Some "Login") (snd (run_script akun_page alice_form)))).
Proof.
  apply register_then_login;
    [reflexivity | reflexivity | vm_compute; reflexivity | reflexivity | reflexivity].
Defined.

(** X8. A "Login" for a username that is not registered is refused with the
    same message as a wrong password, "Login gagal", and leaves the session
    and the database as they were. *)
Theorem login_unknown_user (w : world) :
  pressed w = Some "Login" ->
  Sql.taken username (users (disk w)) (text_value w "login_user") = false ->
  login_refused w (run_script akun_page w) /\
  disk (snd (run_script akun_page w)) = disk w.
Proof.
  intros Hp Hfree. unfold run_script, login_refused.
  rewrite (@akun_page_login (set_ui [] (set_conn (disk w) w)) Hp).
  rewrite (@login_block_clicked (set_ui [] (set_conn (disk w) w)) Hp).
  change (text_value (set_ui [] (set_conn (disk w) w)) "login_user")
    with (text_value w "login_user").
  world_simpl. rewrite (taken_false_select_nil _ _ _ Hfree).
  cbn [Sql.fetchone hd_error]. world_simpl. repeat split.
Qed.

Lemma login_unknown_user_demo :
  login_refused (alice_login "hunter2" "x")
                (run_script akun_page
                   (set_inputs (widgets_of [("login_user", "mallory"); ("login_pw", "x")])
                               (Some "Login") (alice_registered "hunter2"))) /\
  disk (snd (run_script akun_page
               (set_inputs (widgets_of [("login_user", "mallory"); ("login_pw", "x")])
                           (Some "Login") (alice_registered "hunter2")))) =
  disk (alice_registered "hunter2").
Proof.
  apply (@login_unknown_user
           (set_inputs (widgets_of [("login_user", "mallory"); ("login_pw", "x")])
                       (Some "Login") (alice_registered "hunter2")));
    [reflexivity | vm_compute; reflexivity].
Defined.

(** X9. A successful "Login" replaces the user of the session and nothing
    else: the class and the test that were current stay current for the user
    who logs in, and the database is not written. *)
Theorem login_keeps_current_class (w : world) (r : user_row) :
  db_ok (disk w) = true ->
  In r (users (disk w)) ->
  pressed w = Some "Login" ->
  text_value w "login_user" = username r ->
  hash_password (text_value w "login_pw") = password_hash r ->
  session (snd (run_script akun_page w)) =
    mk_session (Some r) (current_class (session w)) (current_test (session w)) /\
  disk (snd (run_script akun_page w)) = disk w.
Proof.
  intros Hok Hin Hp Hu Hh.
  apply login_session; [now apply db_ok_usernames | assumption..].
Qed.

(** The student "s1" logs in on the session in which the teacher entered
    "Biology" and started "Pretest A": both stay selected. *)
Lemma login_keeps_current_class_demo :
  let w := set_inputs (widgets_of [("login_user", "s1"); ("login_pw", "pw-s1")]) (Some "Login")
             (interact akun_page
                       [("reg_user", "s1"); ("reg_display", "s1"); ("reg_pw", "pw-s1")]
                       "Daftar" demo_two) in
  session (snd (run_script akun_page w)) =
    mk_session (Some (demo_s1 "uuid-05")) (current_class (session w))
               (current_test (session w)) /\
  disk (snd (run_script akun_page w)) = disk w.
Proof.
  intros w.
  apply (@login_keeps_current_class w (demo_s1 "uuid-05"));
    [vm_compute; reflexivity | vm_compute; auto | reflexivity | reflexivity
     | vm_compute; reflexivity].
Defined.
(* ================================================================== *)
(** * "Buat Kelas" *)

Lemma buat_kelas_not_teacher (w : world) :
  is_teacher (session w) = false ->
  buat_kelas_page w = Ret tt (set_ui (ui w ++ [msg_teachers_only]) w).
Proof.
  intros Ht. unfold buat_kelas_page, bind, get_session. rewrite Ht. reflexivity.
Qed.

Lemma buat_kelas_teacher (w : world) :
  is_teacher (session w) = true ->
  buat_kelas_page w =
  if button_value w "Buat Kelas" && Py.strip_truthy (text_value w "Nama Kelas") &&
     Py.strip_truthy (text_value w acode_label)
  then
    let w1 := set_uuid_pos (S (uuid_pos w)) w in
    match Sql.insert_class (kelas_row w) (conn w) with
    | Some db =>
        Ret tt (set_ui (ui w ++ [msg_class_created]) (set_disk db (set_conn db w1)))
    | None => Raise IntegrityError w1
    end
  else Ret tt w.
Proof.
  intros Ht. unfold buat_kelas_page, bind, get_session. rewrite Ht. cbn [negb].
  unfold st_text_input, st_button. fold acode_label.
  destruct (_ && _ && _); [|reflexivity].
  unfold uuid4_hex, execute, commit, emit, kelas_row. cbv zeta. world_simpl.
  destruct (Sql.insert_class _ (conn w)); reflexivity.
Qed.

(** X10. Only a teacher creates a class: when nobody is logged in, or the
    user logged in is not a teacher, "Buat Kelas" shows the warning and
    nothing else, and the database stays as it was, whatever is typed and
    clicked. *)
Theorem only_teachers_create_classes (w : world) :
  is_teacher (session w) = false ->
  let r := run_script buat_kelas_page w in
  fst r = None /\ ui (snd r) = [msg_teachers_only] /\ disk (snd r) = disk w /\
  session (snd r) = session w.
Proof.
  intros Ht r. subst r. unfold run_script.
  rewrite (@buat_kelas_not_teacher (set_ui [] (set_conn (disk w) w)) Ht).
  world_simpl. repeat split.
Qed.

Lemma only_teachers_create_classes_demo :
  let w := set_inputs (widgets_of [("Nama Kelas", "Physics"); (acode_label, "PHY1")])
                      (Some "Buat Kelas") (with_student demo_two) in
  let r := run_script buat_kelas_page w in
  fst r = None /\ ui (snd r) = [msg_teachers_only] /\ disk (snd r) = disk w /\
  session (snd r) = session w.
Proof.
  intros w. apply only_teachers_create_classes. vm_compute. reflexivity.
Defined.

(** X11. A class needs a name and an access code: when the name or the code
    typed by a teacher is empty or only white space, a click on "Buat Kelas"
    creates nothing and shows no message. *)
Theorem blank_class_fields_create_nothing (w : world) :
  is_teacher (session w) = true ->
  Py.strip_truthy (text_value w "Nama Kelas") = false \/
  Py.strip_truthy (text_value w acode_label) = false ->
  let r := run_script buat_kelas_page w in
  fst r = None /\ ui (snd r) = [] /\ disk (snd r) = disk w.
Proof.
  intros Ht Hblank r. subst r. unfold run_script.
  rewrite (@buat_kelas_teacher (set_ui [] (set_conn (disk w) w)) Ht).
  change (text_value (set_ui [] (set_conn (disk w) w))) with (text_value w).
  assert (E : button_value (set_ui [] (set_conn (disk w) w)) "Buat Kelas" &&
              Py.strip_truthy (text_value w "Nama Kelas") &&
              Py.strip_truthy (text_value w acode_label) = false).
  { destruct Hblank as [-> | ->]; [now rewrite andb_false_r | apply andb_false_r]. }
  rewrite E. world_simpl. repeat split.
Qed.

Lemma blank_class_fields_demo :
  let w := set_inputs (widgets_of [("Nama Kelas", "Physics"); (acode_label, "   ")])
                      (Some "Buat Kelas") demo_two in
  let r := run_script buat_kelas_page w in
  fst r = None /\ ui (snd r) = [] /\ disk (snd r) = disk w.
Proof.
  intros w. apply blank_class_fields_create_nothing.
  - vm_compute. reflexivity.
  - right. vm_compute. reflexivity.
Defined.

(** A run of "Buat Kelas" that shows the success message stored the row of
    the values typed. *)
Lemma buat_kelas_created (w : world) :
  ui (snd (run_script buat_kelas_page w)) = [msg_class_created] ->
  fst (run_script buat_kelas_page w) = None /\
  disk (snd (run_script buat_kelas_page w)) = with_class (kelas_row w) (disk w) /\
  session (snd (run_script buat_kelas_page w)) = session w /\
  Py.strip_truthy (text_value w acode_label) = true /\
  Sql.taken class_id (classes (disk w)) (class_id (kelas_row w)) = false.
Proof.
  unfold run_script.
  destruct (is_teacher (session w)) eqn:Ht.
  - rewrite (@buat_kelas_teacher (set_ui [] (set_conn (disk w) w)) Ht).
    change (text_value (set_ui [] (set_conn (disk w) w))) with (text_value w).
    change (kelas_row (set_ui [] (set_conn (disk w) w))) with (kelas_row w).
    destruct (_ && _ && _) eqn:E; [|world_simpl; discriminate].
    apply andb_true_iff in E as [_ Hcode]. cbv zeta. world_simpl.
    unfold Sql.insert_class.
    destruct (Sql.taken class_id (classes (disk w)) (class_id (kelas_row w))) eqn:Hfree;
      world_simpl; [discriminate|].
    intros _. repeat split. exact Hcode.
  - rewrite (@buat_kelas_not_teacher (set_ui [] (set_conn (disk w) w)) Ht).
    world_simpl. discriminate.
Qed.

(** With the button of [cl] clicked and its code typed, the user is let in. *)
Lemma masuk_kelas_enters (w : world) (cl : class_row) :
  NoDup (map class_id (classes (disk w))) ->
  In cl (classes (disk w)) ->
  class_access_code cl <> "" ->
  pressed w = Some ("enter_" ++ class_id cl)%string ->
  text_value w ("code_input_" ++ class_id cl) = class_access_code cl ->
  entered cl (run_script masuk_kelas_block w) /\
  user (session (snd (run_script masuk_kelas_block w))) = user (session w) /\
  disk (snd (run_script masuk_kelas_block w)) = disk w.
Proof.
  intros Hnd Hin Hcode Hp Htyped.
  destruct (in_split _ _ Hin) as (l1 & l2 & Hsplit).
  rewrite Hsplit in Hnd. apply NoDup_split_key in Hnd as [H1 _].
  pose (w0 := set_ui [] (set_conn (disk w) w)).
  unfold run_script, entered. fold w0.
  assert (Hrun : masuk_kelas_block w0 =
                 Raise RerunException
                       (set_session (mk_session (user (session w)) (Some cl)
                                                (current_test (session w))) w0)).
  { unfold masuk_kelas_block, bind, query.
    change (classes (conn w0)) with (classes (disk w)).
    rewrite Hsplit, for_each_app.
    rewrite (@masuk_kelas_not_clicked l1 w0 _ Hp H1). cbn [for_each]. unfold bind.
    rewrite (@masuk_kelas_clicked cl w0 Hp). cbv zeta.
    change (text_value w0 ("code_input_" ++ class_id cl))
      with (text_value w ("code_input_" ++ class_id cl)).
    rewrite Htyped, String.eqb_refl.
    destruct (Py.truthy (class_access_code cl)) eqn:Ht; [reflexivity|].
    apply truthy_false_iff in Ht. contradiction. }
  rewrite Hrun. subst w0. world_simpl. repeat split.
Qed.

Lemma strip_truthy_nonempty (s : string) : Py.strip_truthy s = true -> s <> "".
Proof. intros H ->. discriminate H. Qed.

(** X12. Create, then enter: after a teacher's "Buat Kelas" succeeded, a
    click on the button of the new class with the access code the teacher
    chose typed into its input lets the user into that class. *)
Theorem created_class_opens_with_its_code (w : world) (wd : string -> option string) :
  db_ok (disk w) = true ->
  ui (snd (run_script buat_kelas_page w)) = [msg_class_created] ->
  let cl := kelas_row w in
  let w2 := set_inputs wd (Some ("enter_" ++ class_id cl)%string)
                       (snd (run_script buat_kelas_page w)) in
  text_value w2 ("code_input_" ++ class_id cl) = text_value w acode_label ->
  entered cl (run_script masuk_kelas_block w2).
Proof.
  intros Hok Hui cl w2 Htyped.
  destruct (@buat_kelas_created w Hui) as (_ & Hdisk & _ & Hcode & Hfree).
  assert (Hok2 : db_ok (disk w2) = true).
  { change (disk w2) with (disk (snd (run_script buat_kelas_page w))).
    apply (run_script_keeps (P := fun db => db_ok db = true) (U := any_user));
      [apply page_keeps_db_ok; eexists; apply page_buat_kelas | exact Hok | exact I]. }
  apply (@masuk_kelas_enters w2 cl).
  - now apply db_ok_classes.
  - change (disk w2) with (disk (snd (run_script buat_kelas_page w))). rewrite Hdisk.
    unfold with_class. cbn [classes]. apply in_or_app. right. now left.
  - now apply strip_truthy_nonempty.
  - reflexivity.
  - exact Htyped.
Qed.

Lemma created_class_opens_demo :
  entered demo_class_row (run_script masuk_kelas_block (demo_enter "KLS2025")).
Proof.
  apply (@created_class_opens_with_its_code
           (set_inputs (widgets_of [("Nama Kelas", "Biology"); (acode_label, "KLS2025")])
                       (Some "Buat Kelas") demo_teacher_in)
           (widgets_of [("code_input_uuid-01", "KLS2025")]));
    [vm_compute; reflexivity | vm_compute; reflexivity | reflexivity].
Defined.
(* ================================================================== *)
(** * "Virtual Lab" and the listing of "Materi" *)

Lemma strip_truthy_truthy (s : string) : Py.strip_truthy s = true -> Py.truthy s = true.
Proof. destruct s; [discriminate | reflexivity]. Qed.

Lemma virtual_lab_clicked (cl : class_row) (u : user_row) (w : world) :
  user (session w) = Some u ->
  pressed w = Some "Tambahkan Embed" ->
  Py.strip_truthy (text_value w vlab_url_label) = true ->
  virtual_lab_tab cl w =
  let w1 := set_clock_pos (S (clock_pos w))
              (set_uuid_pos (S (uuid_pos w))
                 (set_ui (ui w ++ [St_write
                    "Masukkan URL iframe dari PhET atau resource virtual lab lain"]) w)) in
  match insert_material (vlab_row w cl u) (conn w) with
  | Some db => Raise RerunException (set_disk db (set_conn db w1))
  | None => Raise IntegrityError w1
  end.
Proof.
  intros Hu Hp Hurl.
  unfold virtual_lab_tab, session_user.
  unfold bind, emit, st_text_input, st_button, button_value, get_session.
  world_simpl. rewrite Hp.
  change (text_value (set_ui _ w) vlab_url_label) with (text_value w vlab_url_label).
  rewrite Hurl. cbn [String.eqb Ascii.eqb Bool.eqb andb].
  unfold uuid4_hex, now_isoformat, execute, commit, experimental_rerun, raise, ret.
  world_simpl. rewrite Hu. world_simpl.
  fold (vlab_row w cl u). unfold vlab_row.
  destruct (insert_material _ (conn w)); reflexivity.
Qed.

Lemma set_ui_nil (w : world) : set_ui (ui w ++ []) w = w.
Proof. apply world_ext; world_simpl; try reflexivity. apply app_nil_r. Qed.

Lemma set_ui_app (w : world) (a b : list ui_event) :
  set_ui (ui (set_ui (ui w ++ a) w) ++ b) (set_ui (ui w ++ a) w) = set_ui (ui w ++ a ++ b) w.
Proof. apply world_ext; world_simpl; try reflexivity. now rewrite app_assoc. Qed.

Lemma material_granted_ui (m : material_row) (w : world) (l : list ui_event) :
  material_granted m (set_ui l w) = material_granted m w.
Proof.
  unfold material_granted, material_gate, bind, st_text_input, emit, ret.
  destruct (Py.truthy_opt (material_access_code m)); [|reflexivity].
  change (text_value (set_ui l w)) with (text_value w).
  destruct (negb _); reflexivity.
Qed.

Lemma material_gate_spec (m : material_row) (w : world) :
  material_gate m w =
  if material_granted m w then Ret true w
  else Ret false (set_ui (ui w ++ [msg_material_locked]) w).
Proof.
  unfold material_granted, material_gate, bind, st_text_input, emit, ret.
  destruct (Py.truthy_opt (material_access_code m)); [|reflexivity].
  destruct (negb _); reflexivity.
Qed.

(** The content shown for a material is its file or its address. *)
Lemma show_material_spec (m : material_row) (w : world) :
  exists evs,
    show_material m w = Ret tt (set_ui (ui w ++ evs) w) /\
    forall s, In (St_embed s) evs -> file_path m = Some s \/ external_url m = Some s.
Proof.
  assert (Hnone : exists evs,
             ret tt w = Ret tt (set_ui (ui w ++ evs) w) /\
             forall s, In (St_embed s) evs ->
                       file_path m = Some s \/ external_url m = Some s).
  { exists []. split; [now rewrite set_ui_nil | intros s []]. }
  assert (Hfile : Py.truthy_opt (file_path m) = true ->
            exists evs,
              emit (St_embed match file_path m with Some s => s | None => "" end) w =
                Ret tt (set_ui (ui w ++ evs) w) /\
              forall s, In (St_embed s) evs ->
                        file_path m = Some s \/ external_url m = Some s).
  { intros Ht. destruct (file_path m) as [p|]; [|discriminate].
    exists [St_embed p]. split; [reflexivity|].
    intros s [[= <-]|[]]. now left. }
  assert (Hurl : Py.truthy_opt (external_url m) = true ->
            exists evs,
              emit (St_embed match external_url m with Some s => s | None => "" end) w =
                Ret tt (set_ui (ui w ++ evs) w) /\
              forall s, In (St_embed s) evs ->
                        file_path m = Some s \/ external_url m = Some s).
  { intros Ht. destruct (external_url m) as [p|]; [|discriminate].
    exists [St_embed p]. split; [reflexivity|].
    intros s [[= <-]|[]]. now right. }
  unfold show_material. cbv zeta.
  destruct (Py.truthy_opt (file_path m)) eqn:Ef;
    destruct (Py.truthy_opt (external_url m)) eqn:Eu;
    destruct (Py.str_eq (material_type m) "pdf");
    destruct (Py.str_eq (material_type m) "flipbook");
    destruct (Py.str_eq (material_type m) "liveworksheets");
    destruct (Py.str_eq (material_type m) "video");
    destruct (Py.str_eq (material_type m) "iframe");
    cbn [orb andb]; auto.
Qed.

(** One item of the listing: a locked material contributes its heading and
    the request for its code, nothing else. *)
Lemma materi_item_spec (m : material_row) (w : world) :
  exists evs,
    materi_item m w = Ret tt (set_ui (ui w ++ evs) w) /\
    (material_granted m w = false -> evs = [material_heading m; msg_material_locked]) /\
    forall s, In (St_embed s) evs ->
              material_granted m w = true /\
              (file_path m = Some s \/ external_url m = Some s).
Proof.
  unfold materi_item. unfold bind at 1. unfold emit at 1. fold (material_heading m).
  unfold bind at 1. rewrite material_gate_spec, material_granted_ui.
  destruct (material_granted m w) eqn:Hg.
  - destruct (show_material_spec m (set_ui (ui w ++ [material_heading m]) w))
      as (evs & Hshow & Hevs).
    unfold bind. rewrite Hshow. unfold emit.
    exists (material_heading m :: evs ++ [St_markdown "---"]).
    split; [|split].
    + f_equal. rewrite !set_ui_app. reflexivity.
    + discriminate.
    + intros s [H|H]; [discriminate H|].
      apply in_app_or in H as [H|[H|[]]]; [|discriminate H].
      split; [reflexivity | now apply Hevs].
  - exists [material_heading m; msg_material_locked].
    split; [|split].
    + unfold ret. f_equal. rewrite set_ui_app. reflexivity.
    + reflexivity.
    + intros s [H|[H|[]]]; discriminate H.
Qed.

Lemma materi_items_spec (ms : list material_row) (w : world) :
  exists evs,
    for_each ms materi_item w = Ret tt (set_ui (ui w ++ evs) w) /\
    forall s, In (St_embed s) evs ->
              exists m, In m ms /\ material_granted m w = true /\
                        (file_path m = Some s \/ external_url m = Some s).
Proof.
  revert w. induction ms as [|m ms IH]; intros w; cbn [for_each].
  - exists []. split; [unfold ret; now rewrite set_ui_nil | intros s []].
  - destruct (materi_item_spec m w) as (e1 & H1 & _ & He1).
    destruct (IH (set_ui (ui w ++ e1) w)) as (e2 & H2 & He2).
    exists (e1 ++ e2). split.
    + unfold bind. rewrite H1, H2. f_equal. apply set_ui_app.
    + intros s Hin. apply in_app_or in Hin as [Hin|Hin].
      * exists m. split; [now left | now apply He1].
      * destruct (He2 s Hin) as (m' & Hm' & Hg & Hsrc).
        exists m'. rewrite material_granted_ui in Hg. split; [now right | now split].
Qed.

(** X13. The listing of the tab "Materi" shows no content but that of a
    material of the class that carries no access code or whose access code
    is typed into its input: every file or address it embeds belongs to such
    a material. *)
Theorem locked_content_never_shown (cl : class_row) (w : world) (s : string) :
  In (St_embed s) (ui (snd (run_script (materi_list cl) w))) ->
  exists m : material_row,
    In m (materials (disk w)) /\ material_class_id m = class_id cl /\
    material_granted m w = true /\
    (file_path m = Some s \/ external_url m = Some s).
Proof.
  unfold run_script, materi_list, bind, query. world_simpl.
  destruct (materi_items_spec
              (Sql.select_where material_class_id (class_id cl) (materials (disk w)))
              (set_ui [] (set_conn (disk w) w))) as (evs & Hrun & Hevs).
  rewrite Hrun. world_simpl. cbn [app]. intros Hin.
  destruct (Hevs s Hin) as (m & Hm & Hg & Hsrc).
  unfold Sql.select_where in Hm. apply filter_In in Hm as [Hm Hc].
  apply String.eqb_eq in Hc.
  exists m. repeat split; try assumption.
  rewrite <- Hg. unfold material_granted, material_gate, bind, st_text_input, emit, ret.
  destruct (Py.truthy_opt (material_access_code m)); [|reflexivity].
  change (text_value (set_ui [] (set_conn (disk w) w))) with (text_value w).
  destruct (negb _); reflexivity.
Qed.

Lemma locked_content_never_shown_demo :
  exists m : material_row,
    In m (materials (disk demo_lab)) /\ material_class_id m = class_id demo_class_row /\
    material_granted m demo_lab = true /\
    (file_path m = Some demo_embed_url \/ external_url m = Some demo_embed_url).
Proof.
  apply locked_content_never_shown. vm_compute. auto.
Defined.

(** X14. The tab "Virtual Lab" asks for no role: for any user logged in, a
    student included, a click on "Tambahkan Embed" with an address typed
    stores a material of type "iframe" whose access code is empty, and the
    listing of "Materi" then embeds that address for everyone, with no code
    asked for. *)
Theorem virtual_lab_embed_is_public (cl : class_row) (u : user_row) (w : world) :
  user (session w) = Some u ->
  pressed w = Some "Tambahkan Embed" ->
  Py.strip_truthy (text_value w vlab_url_label) = true ->
  Sql.taken material_id (materials (disk w)) (uuid_src w (uuid_pos w)) = false ->
  let e := vlab_row w cl u in
  let r := run_script (virtual_lab_tab cl) w in
  fst r = Some RerunException /\
  disk (snd r) = with_material e (disk w) /\
  forall w' : world,
    materi_item e w' =
    Ret tt (set_ui (ui w' ++ [material_heading e; St_embed (text_value w vlab_url_label);
                              St_markdown "---"]) w').
Proof.
  intros Hu Hp Hurl Hfree e r. subst r. unfold run_script.
  rewrite (@virtual_lab_clicked cl u (set_ui [] (set_conn (disk w) w)) Hu Hp Hurl).
  change (vlab_row (set_ui [] (set_conn (disk w) w)) cl u) with e.
  cbv zeta. world_simpl. unfold insert_material.
  change (material_id e) with (uuid_src w (uuid_pos w)). rewrite Hfree. world_simpl.
  split; [reflexivity|]. split; [reflexivity|].
  intros w'. unfold materi_item, material_gate, show_material.
  unfold e, vlab_row, embed_row.
  cbn [material_access_code material_type external_url file_path Py.truthy_opt Py.truthy
       Py.str_eq String.eqb Ascii.eqb Bool.eqb andb orb].
  rewrite (strip_truthy_truthy _ Hurl).
  unfold bind, emit, ret. f_equal. apply world_ext; world_simpl; try reflexivity.
  now rewrite <- !app_assoc.
Qed.

Lemma virtual_lab_embed_demo :
  let e := vlab_row demo_lab_click demo_class_row (demo_s1 "uuid-05") in
  let r := run_script (virtual_lab_tab demo_class_row) demo_lab_click in
  fst r = Some RerunException /\
  disk (snd r) = with_material e (disk demo_lab_click) /\
  forall w' : world,
    materi_item e w' =
    Ret tt (set_ui (ui w' ++ [material_heading e;
                              St_embed (text_value demo_lab_click vlab_url_label);
                              St_markdown "---"]) w').
Proof.
  apply virtual_lab_embed_is_public;
    [vm_compute; reflexivity | reflexivity | vm_compute; reflexivity
     | vm_compute; reflexivity].
Defined.
(* ================================================================== *)
(** * The shape of a stored password hash *)

Lemma string_length_app (s t : string) :
  String.length (s ++ t) = String.length s + String.length t.
Proof. induction s as [|c s IH]; cbn [append String.length]; [reflexivity | now rewrite IH]. Qed.

Lemma all_chars_app (f : ascii -> bool) (s t : string) :
  all_chars f (s ++ t) = all_chars f s && all_chars f t.
Proof.
  induction s as [|c s IH]; cbn [append all_chars]; [reflexivity|].
  now rewrite IH, andb_assoc.
Qed.

Lemma to_nat_lt (a b : N) : (a < b)%N -> N.to_nat a < N.to_nat b.
Proof. lia. Qed.

Lemma hex_digit_lower (n : N) : lower_hex (Sha256.hex_digit n) = true.
Proof.
  unfold Sha256.hex_digit. cbv zeta.
  assert (Hd : (n mod 16 < 16)%N) by (apply N.mod_lt; discriminate).
  assert (Hall : forallb (fun d => lower_hex (if (d <? 10)%N then ascii_of_N (48 + d)
                                              else ascii_of_N (87 + d)))
                         (map N.of_nat (seq 0 16)) = true) by (vm_compute; reflexivity).
  rewrite forallb_forall in Hall. apply Hall.
  apply in_map_iff. exists (N.to_nat (n mod 16)). split; [apply N2Nat.id|].
  apply in_seq. apply to_nat_lt in Hd. change (N.to_nat 16) with 16 in Hd.
  split; [apply Nat.le_0_l | exact Hd].
Qed.

Lemma hex_of_shape (k : nat) (x : N) :
  String.length (Sha256.hex_of k x) = k /\ all_chars lower_hex (Sha256.hex_of k x) = true.
Proof.
  induction k as [|k [IHl IHc]]; cbn [Sha256.hex_of String.length all_chars].
  - now split.
  - split; [now rewrite IHl | now rewrite hex_digit_lower, IHc].
Qed.

(** X15. [hash_password] returns 64 digits of lower-case hexadecimal,
    whatever the password, the empty one included. *)
Theorem hash_password_is_64_hex_digits (pw : string) :
  String.length (hash_password pw) = 64 /\ all_chars lower_hex (hash_password pw) = true.
Proof.
  unfold hash_password, Sha256.hexdigest.
  destruct (Sha256.digest_words (Sha256.bytes_of_string pw))
    as [[[[[[[a b] c] d] e] f] g] h].
  unfold Sha256.hex_of_state.
  split.
  - rewrite !string_length_app.
    rewrite !(proj1 (hex_of_shape 8 _)). reflexivity.
  - rewrite !all_chars_app.
    rewrite !(proj2 (hex_of_shape 8 _)). reflexivity.
Qed.
(* ================================================================== *)
(** * Radios that were never touched *)

(** X16. The form leaves no question unanswered: a question whose radio
    was never touched is submitted with the radio's preselected first
    option, so its answer row records "A", and the answer counts as correct
    exactly when the question is keyed "A". *)
Theorem untouched_radio_submits_A (w : world) (cl : class_row) (t : test_row)
        (u : user_row) (qs : list question_row) (q : question_row) :
  db_ok (disk w) = true ->
  user (session w) = Some u ->
  current_test (session w) = Some t ->
  questions_of t (disk w) = qs ->
  pressed w = Some "Kirim Jawaban" ->
  submit_ids_fresh w (List.length qs) = true ->
  In q qs ->
  untouched w q ->
  let res := run_script (test_flow cl) w in
  fst res = Some RerunException /\
  (exists (rows : list answer_row) (r : answer_row),
      answers (disk (snd res)) = answers (disk w) ++ rows /\
      In r rows /\ answer_question_id r = question_id q /\ chosen_option r = "A") /\
  (String.eqb (correct_option q) (chosen w q) = true <-> correct_option q = "A").
Proof.
  intros Hok Hu Ht Hqs Hp Hfresh Hq Hun res.
  assert (Hne : qs <> []) by (intros E; rewrite E in Hq; exact Hq).
  destruct (@submit_run w cl t u qs Hok Hu Ht Hqs Hne Hp Hfresh).
  split; [assumption|]. split.
  - destruct (In_nth qs q q Hq) as (i & Hi & Hnth).
    exists (submitted_answers w qs), (submitted_answer w (i, q)).
    split; [assumption|]. split.
    + unfold submitted_answers. apply in_map.
      rewrite <- Hnth.
      replace i with (nth i (seq 0 (List.length qs)) 0) at 1
        by (rewrite seq_nth; [reflexivity | exact Hi]).
      rewrite <- combine_nth by apply length_seq.
      apply nth_In. rewrite length_combine, length_seq. lia.
    + cbn [submitted_answer answer_question_id chosen_option snd].
      split; [reflexivity | now apply chosen_untouched].
  - rewrite (chosen_untouched Hun). apply String.eqb_eq.
Qed.

(** Nothing is selected for the two questions keyed A and B. *)
Lemma untouched_radio_demo :
  let w := demo_submit [] (with_student demo_two) in
  let q := demo_q "uuid-04" "Q2" "B" in
  let res := run_script (test_flow demo_class_row) w in
  fst res = Some RerunException /\
  (exists (rows : list answer_row) (r : answer_row),
      answers (disk (snd res)) = answers (disk w) ++ rows /\
      In r rows /\ answer_question_id r = question_id q /\ chosen_option r = "A") /\
  (String.eqb (correct_option q) (chosen w q) = true <-> correct_option q = "A").
Proof.
  intros w q.
  apply (@untouched_radio_submits_A w demo_class_row demo_test_row (demo_s1 "uuid-05")
                                    demo_two_questions q);
    [vm_compute; reflexivity | vm_compute; reflexivity | vm_compute; reflexivity
     | vm_compute; reflexivity | reflexivity | vm_compute; reflexivity
     | right; now left | reflexivity].
Defined.

(* ================================================================== *)
(** * Starting a test *)

Lemma db_ok_test_ids (db : database) :
  db_ok db = true -> NoDup (map test_id (tests db)).
Proof.
  unfold db_ok. rewrite !andb_true_iff.
  intros (((((((((_ & _) & _) & _) & _) & _) & Ht) & _) & _) & _).
  now apply distinct_NoDup.
Qed.

Lemma mulai_item_run (t : test_row) (w : world) :
  mulai_item t w =
  let w1 := set_ui (ui w ++ [test_heading t]) w in
  if button_value w ("start_" ++ test_id t) then
    Raise RerunException
          (set_session (mk_session (user (session w)) (current_class (session w)) (Some t)) w1)
  else Ret tt w1.
Proof.
  unfold mulai_item, bind, emit, st_button, get_session, put_session, experimental_rerun,
    raise, ret. fold (test_heading t). cbv zeta.
  change (button_value (set_ui (ui w ++ [test_heading t]) w)) with (button_value w).
  destruct (button_value w _); reflexivity.
Qed.

Lemma mulai_items_none (ts : list test_row) (w : world) :
  (forall t, In t ts -> button_value w ("start_" ++ test_id t) = false) ->
  for_each ts mulai_item w = Ret tt (set_ui (ui w ++ map test_heading ts) w).
Proof.
  revert w. induction ts as [|t ts IH]; intros w Hno; cbn [for_each map].
  - unfold ret. now rewrite set_ui_nil.
  - unfold bind. rewrite mulai_item_run, (Hno t (or_introl eq_refl)). cbv beta iota zeta.
    rewrite IH.
    + f_equal. apply (set_ui_app w [test_heading t] (map test_heading ts)).
    + intros t' Ht'. change (button_value (set_ui (ui w ++ [test_heading t]) w))
        with (button_value w). apply Hno. now right.
Qed.

Lemma start_button_other (w : world) (k k' : string) :
  pressed w = Some ("start_" ++ k)%string -> k <> k' ->
  button_value w ("start_" ++ k') = false.
Proof.
  intros Hp Hk. unfold button_value. rewrite Hp, eqb_prefix. now apply String.eqb_neq.
Qed.

(** The button "Mulai" of [t] is clicked. *)
Lemma mulai_run (w : world) (cl : class_row) (t : test_row) :
  db_ok (disk w) = true ->
  In t (tests (disk w)) ->
  test_class_id t = class_id cl ->
  pressed w = Some ("start_" ++ test_id t)%string ->
  let r := run_script (test_tab cl) w in
  fst r = Some RerunException /\
  session (snd r) = mk_session (user (session w)) (current_class (session w)) (Some t) /\
  disk (snd r) = disk w.
Proof.
  intros Hok Hin Hcl Hp r. subst r.
  assert (Hmine : In t (tests_of cl (disk w))).
  { unfold tests_of, Sql.select_where. apply filter_In. split; [exact Hin|].
    now apply String.eqb_eq. }
  assert (Hnd : NoDup (map test_id (tests_of cl (disk w)))).
  { unfold tests_of, Sql.select_where. apply NoDup_map_filter. now apply db_ok_test_ids. }
  destruct (in_split _ _ Hmine) as (l1 & l2 & Hsplit).
  rewrite Hsplit in Hnd. apply NoDup_split_key in Hnd as [H1 _].
  pose (w0 := set_ui [] (set_conn (disk w) w)).
  assert (Hrun : test_tab cl w0 =
                 Raise RerunException
                       (set_session (mk_session (user (session w)) (current_class (session w))
                                                (Some t))
                                    (set_ui (ui w0 ++ map test_heading l1 ++ [test_heading t])
                                            w0))).
  { unfold test_tab. unfold bind at 1. unfold query at 1.
    change (Sql.select_where test_class_id (class_id cl) (tests (conn w0)))
      with (tests_of cl (disk w)).
    rewrite Hsplit. unfold bind at 1. rewrite for_each_app.
    rewrite mulai_items_none.
    - cbn [for_each]. unfold bind at 1. rewrite mulai_item_run. cbv zeta.
      change (button_value (set_ui (ui w0 ++ map test_heading l1) w0))
        with (button_value w).
      unfold button_value at 1. rewrite Hp, String.eqb_refl.
      reflexivity.
    - intros t' Ht'. apply (@start_button_other w0 (test_id t) (test_id t') Hp).
      intros E. apply H1. rewrite E. now apply in_map. }
  unfold run_script. fold w0. rewrite Hrun. subst w0. world_simpl. repeat split.
Qed.

(** X17. "Mulai" starts the test whose button is clicked: the test becomes
    the current test of the session, for any user and as often as it is
    clicked; the user and the class of the session stay, and nothing is
    written to the database. *)
Theorem mulai_starts_the_test (w : world) (cl : class_row) (t : test_row) :
  db_ok (disk w) = true ->
  In t (tests (disk w)) ->
  test_class_id t = class_id cl ->
  pressed w = Some ("start_" ++ test_id t)%string ->
  let r := run_script (test_tab cl) w in
  fst r = Some RerunException /\
  session (snd r) = mk_session (user (session w)) (current_class (session w)) (Some t) /\
  disk (snd r) = disk w.
Proof. apply mulai_run. Qed.

Lemma mulai_starts_the_test_demo :
  let w := set_inputs (fun _ => None) (Some "start_uuid-02") (with_student demo_two) in
  let r := run_script (test_tab demo_class_row) w in
  fst r = Some RerunException /\
  session (snd r) = mk_session (user (session w)) (current_class (session w))
                               (Some demo_test_row) /\
  disk (snd r) = disk w.
Proof.
  intros w.
  apply (@mulai_starts_the_test w demo_class_row demo_test_row);
    [vm_compute; reflexivity | vm_compute; auto | reflexivity | reflexivity].
Defined.

(* ================================================================== *)
(** * Creating a test *)

Lemma start_button_not_pressed (w : world) (b k : string) :
  pressed w = Some b -> String.eqb b ("start_" ++ k) = false ->
  button_value w ("start_" ++ k) = false.
Proof. intros Hp Hb. unfold button_value. now rewrite Hp. Qed.

Lemma test_tab_buat_test (w : world) (cl : class_row) (u : user_row) :
  user (session w) = Some u ->
  role u = "teacher" ->
  pressed w = Some "Buat Test" ->
  Py.strip_truthy (text_value w "Judul Test") = true ->
  test_tab cl w =
  let w1 := set_clock_pos (S (clock_pos w))
              (set_uuid_pos (S (uuid_pos w))
                 (set_ui (ui w ++ map test_heading (tests_of cl (conn w)) ++
                          [St_write "-- Buat Test Baru --"]) w)) in
  match Sql.insert_test (buat_test_row w cl u) (conn w) with
  | Some db => Raise RerunException (set_disk db (set_conn db w1))
  | None => Raise IntegrityError w1
  end.
Proof.
  intros Hu Hrole Hp Httl.
  unfold test_tab. unfold bind at 1. unfold query at 1.
  fold (tests_of cl (conn w)).
  unfold bind at 1. rewrite mulai_items_none
    by (intros t _; apply (@start_button_not_pressed w "Buat Test" (test_id t) Hp);
        reflexivity).
  unfold bind at 1. unfold session_user at 1. unfold bind at 1, get_session at 1.
  world_simpl. rewrite Hu. unfold ret at 1.
  unfold Py.str_eq. rewrite Hrole. cbn [String.eqb Ascii.eqb Bool.eqb andb].
  unfold bind at 1.
  unfold buat_test_form, session_user.
  unfold bind, emit, st_text_input, st_checkbox, st_button, button_value, get_session.
  world_simpl. rewrite Hp. cbn [String.eqb Ascii.eqb Bool.eqb andb].
  change (text_value (set_ui _ (set_ui _ w)) "Judul Test") with (text_value w "Judul Test").
  rewrite Httl.
  unfold uuid4_hex, now_isoformat, execute, commit, experimental_rerun, raise, ret.
  world_simpl. rewrite Hu. world_simpl.
  change (checkbox_value (set_ui _ (set_ui _ w)) "Pretest? (Kosong = Postest)")
    with (checkbox_value w "Pretest? (Kosong = Postest)").
  fold (buat_test_row w cl u).
  destruct (Sql.insert_test _ (conn w)); f_equal; apply world_ext; world_simpl;
    try reflexivity; now rewrite <- app_assoc.
Qed.

(** X18. Create a test, then start it: a teacher's click on "Buat Test"
    with a title typed stores a test of the class, marked as pretest exactly
    when the box is ticked, and a click on the "Mulai" button of the new test
    makes it the current test. *)
Theorem created_test_can_be_started (w : world) (cl : class_row) (u : user_row)
        (wd : string -> option string) :
  db_ok (disk w) = true ->
  user (session w) = Some u ->
  role u = "teacher" ->
  pressed w = Some "Buat Test" ->
  Py.strip_truthy (text_value w "Judul Test") = true ->
  Sql.taken test_id (tests (disk w)) (uuid_src w (uuid_pos w)) = false ->
  let t := buat_test_row w cl u in
  let r1 := run_script (test_tab cl) w in
  let r2 := run_script (test_tab cl)
                       (set_inputs wd (Some ("start_" ++ test_id t)%string) (snd r1)) in
  fst r1 = Some RerunException /\ disk (snd r1) = with_test t (disk w) /\
  fst r2 = Some RerunException /\ current_test (session (snd r2)) = Some t.
Proof.
  intros Hok Hu Hrole Hp Httl Hfree t r1 r2.
  assert (H1 : fst r1 = Some RerunException /\ disk (snd r1) = with_test t (disk w)).
  { subst r1. unfold run_script.
    rewrite (@test_tab_buat_test (set_ui [] (set_conn (disk w) w)) cl u Hu Hrole Hp Httl).
    change (buat_test_row (set_ui [] (set_conn (disk w) w)) cl u) with t.
    cbv zeta. world_simpl. unfold Sql.insert_test.
    change (test_id t) with (uuid_src w (uuid_pos w)). rewrite Hfree. world_simpl.
    now split. }
  destruct H1 as [Hr1 Hd1]. split; [exact Hr1|]. split; [exact Hd1|].
  destruct (@mulai_run
              (set_inputs wd (Some ("start_" ++ test_id t)%string) (snd r1)) cl t)
    as (Hr2 & Hs2 & _).
  - change (disk (set_inputs wd (Some ("start_" ++ test_id t)%string) (snd r1)))
      with (disk (snd r1)).
    apply (run_script_keeps (P := fun db => db_ok db = true) (U := any_user));
      [apply page_keeps_db_ok; eexists; apply page_test | exact Hok | exact I].
  - change (disk (set_inputs wd (Some ("start_" ++ test_id t)%string) (snd r1)))
      with (disk (snd r1)).
    rewrite Hd1. unfold with_test. cbn [tests]. apply in_or_app. right. now left.
  - reflexivity.
  - reflexivity.
  - fold r2 in Hr2, Hs2. split; [exact Hr2|]. rewrite Hs2. reflexivity.
Qed.

Lemma created_test_demo :
  let w := set_inputs (widgets_of [("Judul Test", "Pretest A");
                                   ("Pretest? (Kosong = Postest)", "1")])
                      (Some "Buat Test") demo_entered in
  let t := buat_test_row w demo_class_row (daftar_row
             (set_inputs (widgets_of [("reg_user", "t1"); ("reg_display", "Ibu Guru");
                                      ("reg_role", "teacher"); ("reg_pw", "rahasia")])
                         (Some "Daftar") world0)) in
  let r1 := run_script (test_tab demo_class_row) w in
  let r2 := run_script (test_tab demo_class_row)
                       (set_inputs (fun _ => None) (Some ("start_" ++ test_id t)%string)
                                   (snd r1)) in
  fst r1 = Some RerunException /\ disk (snd r1) = with_test t (disk w) /\
  fst r2 = Some RerunException /\ current_test (session (snd r2)) = Some t.
Proof.
  intros w.
  apply (@created_test_can_be_started w demo_class_row);
    [vm_compute; reflexivity | vm_compute; reflexivity | reflexivity | reflexivity
     | vm_compute; reflexivity | vm_compute; reflexivity].
Defined.

(* ================================================================== *)
(** * Adding a question *)

(** The test block up to the teacher's form, when "Kirim Jawaban" is not
    clicked: only output. *)
Lemma test_flow_shown (cl : class_row) (t : test_row) (w : world) :
  current_test (session w) = Some t ->
  button_value w "Kirim Jawaban" = false ->
  exists evs,
    test_flow cl w =
    (u <- session_user ;;
     if Py.str_eq (role u) "teacher" then tambah_soal_form t else ret tt)
      (set_ui (ui w ++ evs) w).
Proof.
  intros Ht Hb. unfold test_flow. unfold bind at 1. unfold get_session at 1. rewrite Ht.
  unfold bind at 1. unfold emit at 1.
  unfold bind at 1. unfold bind at 1. unfold query at 1. world_simpl.
  destruct (Sql.select_where question_test_id (test_id t) (questions (conn w)))
    as [|q qs] eqn:Hqs.
  - unfold emit at 1. eexists. rewrite set_ui_app. reflexivity.
  - unfold bind at 1. rewrite collect_answers.
    unfold bind at 1. unfold st_button at 1.
    change (button_value (set_ui _ (set_ui _ w)) "Kirim Jawaban")
      with (button_value w "Kirim Jawaban").
    rewrite Hb. unfold ret at 1. eexists. rewrite set_ui_app. reflexivity.
Qed.

Lemma tambah_soal_clicked (t : test_row) (w : world) :
  pressed w = Some "Tambah Soal" ->
  Py.strip_truthy (text_value w "Teks Soal") = true ->
  tambah_soal_form t w =
  let w1 := set_uuid_pos (S (uuid_pos w))
              (set_ui (ui w ++ [St_write "-- Tambah Soal (MCQ) --"]) w) in
  match Sql.insert_question (tambah_soal_row w t) (conn w) with
  | Some db => Raise RerunException (set_disk db (set_conn db w1))
  | None => Raise IntegrityError w1
  end.
Proof.
  intros Hp Hq.
  unfold tambah_soal_form, bind, emit, st_text_input, st_choice, st_button, button_value.
  world_simpl. rewrite Hp. cbn [String.eqb Ascii.eqb Bool.eqb andb].
  change (text_value (set_ui _ w)) with (text_value w).
  change (choice_value (set_ui _ w)) with (choice_value w).
  rewrite Hq.
  unfold uuid4_hex, execute, commit, experimental_rerun, raise. world_simpl.
  fold (tambah_soal_row w t).
  destruct (Sql.insert_question _ (conn w)); reflexivity.
Qed.

(** X19. A question a teacher adds is asked from then on: "Tambah Soal" with
    a text typed appends the question to those of the current test, after
    the questions asked before; its key is the option selected, "A" when the
    select box was left untouched. *)
Theorem added_question_is_asked (w : world) (cl : class_row) (t : test_row) (u : user_row) :
  user (session w) = Some u ->
  role u = "teacher" ->
  current_test (session w) = Some t ->
  pressed w = Some "Tambah Soal" ->
  Py.strip_truthy (text_value w "Teks Soal") = true ->
  Sql.taken question_id (questions (disk w)) (uuid_src w (uuid_pos w)) = false ->
  let q := tambah_soal_row w t in
  let r := run_script (test_flow cl) w in
  fst r = Some RerunException /\
  disk (snd r) = with_question q (disk w) /\
  questions_of t (disk (snd r)) = questions_of t (disk w) ++ [q] /\
  (widgets w "Kunci jawaban" = None -> correct_option q = "A").
Proof.
  intros Hu Hrole Ht Hp Hq Hfree q r. subst r.
  pose (w0 := set_ui [] (set_conn (disk w) w)).
  destruct (@test_flow_shown cl t w0 Ht) as (evs & Hflow).
  { unfold button_value. change (pressed w0) with (pressed w). now rewrite Hp. }
  assert (Hrun : test_flow cl w0 =
                 Raise RerunException
                       (set_disk (with_question q (disk w))
                          (set_conn (with_question q (disk w))
                             (set_uuid_pos (S (uuid_pos w))
                                (set_ui (evs ++ [St_write "-- Tambah Soal (MCQ) --"]) w0))))).
  { rewrite Hflow. unfold bind at 1. unfold session_user at 1.
    unfold bind at 1, get_session at 1. world_simpl.
    change (session w0) with (session w). rewrite Hu. unfold ret at 1.
    unfold Py.str_eq. rewrite Hrole. cbn [String.eqb Ascii.eqb Bool.eqb andb].
    rewrite tambah_soal_clicked; [|exact Hp|exact Hq].
    change (tambah_soal_row (set_ui (ui w0 ++ evs) w0) t) with q.
    cbv zeta. world_simpl. unfold Sql.insert_question.
    change (conn w0) with (disk w).
    change (question_id q) with (uuid_src w (uuid_pos w)). rewrite Hfree.
    reflexivity. }
  unfold run_script. fold w0. rewrite Hrun. world_simpl.
  split; [reflexivity|]. split; [reflexivity|]. split.
  - unfold questions_of, with_question, Sql.select_where. cbn [questions].
    rewrite filter_app. cbn [filter].
    change (question_test_id q) with (test_id t). now rewrite String.eqb_refl.
  - intros Hk. unfold q, tambah_soal_row, choice_value. cbn [correct_option].
    now rewrite Hk.
Qed.

Lemma added_question_demo :
  let w := set_inputs (widgets_of [("Teks Soal", "Q3")]) (Some "Tambah Soal") demo_two in
  let q := tambah_soal_row w demo_test_row in
  let r := run_script (test_flow demo_class_row) w in
  fst r = Some RerunException /\
  disk (snd r) = with_question q (disk w) /\
  questions_of demo_test_row (disk (snd r)) = questions_of demo_test_row (disk w) ++ [q] /\
  (widgets w "Kunci jawaban" = None -> correct_option q = "A").
Proof.
  intros w.
  apply (@added_question_is_asked w demo_class_row demo_test_row
           (mk_user "uuid-00" "t1" "Ibu Guru" "teacher" (hash_password "rahasia")));
    [vm_compute; reflexivity | reflexivity | vm_compute; reflexivity | reflexivity
     | vm_compute; reflexivity | vm_compute; reflexivity].
Defined.

(* ================================================================== *)
(** * Registration, and accounts over time *)

(** X20. "Daftar" creates the account exactly when the username and the
    password are not empty and the username is not registered yet (and the
    identifier drawn is new); it then stores the row of the values typed,
    with the hash of the password, and otherwise leaves the database as it
    was.  The fields are tested for emptiness as typed, not stripped. *)
Theorem registration_succeeds_iff (w : world) :
  pressed w = Some "Daftar" ->
  let res := run_script akun_page w in
  (ui (snd res) = [msg_account_created] <->
   text_value w "reg_user" <> "" /\ text_value w "reg_pw" <> "" /\
   Sql.taken username (users (disk w)) (text_value w "reg_user") = false /\
   Sql.taken user_id (users (disk w)) (uuid_src w (uuid_pos w)) = false) /\
  (ui (snd res) = [msg_account_created] ->
   disk (snd res) = with_user (daftar_row w) (disk w)) /\
  (ui (snd res) <> [msg_account_created] -> disk (snd res) = disk w).
Proof.
  intros Hp res.
  destruct (@daftar_run w Hp) as (_ & _ & H). fold res in H.
  destruct H as [([Hu|Hpw] & Hui & Hd)|[((Hu & Hpw & Hc) & Hui & Hd)|((Hu & Hpw & Hc) & Hui & Hd)]];
    rewrite Hui.
  - split; [split; [discriminate | intros (H & _); contradiction]|].
    split; [discriminate | now intros _].
  - split; [split; [discriminate | intros (_ & H & _); contradiction]|].
    split; [discriminate | now intros _].
  - split; [split; [discriminate|]|].
    + intros (_ & _ & H1 & H2). rewrite H1, H2 in Hc. discriminate.
    + split; [discriminate | now intros _].
  - apply orb_false_iff in Hc as [Hc1 Hc2].
    split; [split; [now intros _ | reflexivity]|].
    split; [now intros _ | intros H; now elim H].
Qed.

(** A user name of three spaces is accepted. *)
Lemma registration_of_blank_name :
  let w := set_inputs (widgets_of [("reg_user", "   "); ("reg_pw", "x")]) (Some "Daftar")
                      world0 in
  let res := run_script akun_page w in
  (ui (snd res) = [msg_account_created] <->
   text_value w "reg_user" <> "" /\ text_value w "reg_pw" <> "" /\
   Sql.taken username (users (disk w)) (text_value w "reg_user") = false /\
   Sql.taken user_id (users (disk w)) (uuid_src w (uuid_pos w)) = false) /\
  (ui (snd res) = [msg_account_created] ->
   disk (snd res) = with_user (daftar_row w) (disk w)) /\
  (ui (snd res) <> [msg_account_created] -> disk (snd res) = disk w).
Proof.
  intros w. apply registration_succeeds_iff. reflexivity.
Defined.

Lemma interactions_keep (P : database -> Prop)
      (steps : list (M unit * (string -> option string) * option string)) (w : world) :
  (forall page, script_page page -> keeps P any_user page) ->
  Forall (fun s => script_page (fst (fst s))) steps ->
  P (disk w) -> P (disk (interactions steps w)).
Proof.
  intros Hk. revert w. induction steps as [|[[page wd] btn] steps IH]; intros w Hall Hw;
    cbn [interactions].
  - exact Hw.
  - inversion Hall as [|? ? Hp Hrest]; subst. cbn [fst] in Hp.
    apply IH; [exact Hrest|].
    apply (@run_script_keeps P any_user page (set_inputs wd btn w));
      [now apply Hk | exact Hw | exact I].
Qed.

(** X21. An account lasts: whatever is done on the embedded pages in
    between, by whomever, a registered user logs in with the user name and
    the password of the registration, and is logged in as the row stored
    then.  No page changes a password or removes an account. *)
Theorem account_stays_valid
        (steps : list (M unit * (string -> option string) * option string))
        (w : world) (r : user_row) (wd : string -> option string) :
  db_ok (disk w) = true ->
  In r (users (disk w)) ->
  Forall (fun s => script_page (fst (fst s))) steps ->
  let w' := set_inputs wd (Some "Login") (interactions steps w) in
  text_value w' "login_user" = username r ->
  hash_password (text_value w' "login_pw") = password_hash r ->
  logged_in r (run_script akun_page w').
Proof.
  intros Hok Hin Hsteps w' Hu Hpw.
  assert (Hok' : db_ok (disk w') = true).
  { change (disk w') with (disk (interactions steps w)).
    apply (@interactions_keep (fun db => db_ok db = true) steps w);
      [apply page_keeps_db_ok | exact Hsteps | exact Hok]. }
  assert (Hin' : In r (users (disk w'))).
  { change (disk w') with (disk (interactions steps w)).
    destruct (@interactions_keep (grows (disk w)) steps w) as ([added ->] & _);
      [apply page_keeps_grows | exact Hsteps | apply grows_refl |].
    apply in_or_app. now left. }
  destruct (@login_run w' r (db_ok_usernames _ Hok') Hin' eq_refl Hu) as [Hyes _].
  now apply Hyes.
Qed.

(** "alice" registers; then a teacher registers, logs in and creates a
    class; "alice" still logs in with "hunter2". *)
Lemma account_stays_valid_demo :
  let steps :=
    [(akun_page,
      widgets_of [("reg_user", "t1"); ("reg_role", "teacher"); ("reg_pw", "x")],
      Some "Daftar");
     (akun_page, widgets_of [("login_user", "t1"); ("login_pw", "x")], Some "Login");
     (buat_kelas_page,
      widgets_of [("Nama Kelas", "Biology"); (acode_label, "KLS2025")],
      Some "Buat Kelas")] in
  logged_in (alice_row "hunter2")
            (run_script akun_page
               (set_inputs (widgets_of [("login_user", "alice"); ("login_pw", "hunter2")])
                           (Some "Login")
                           (interactions steps (alice_registered "hunter2")))).
Proof.
  intros steps.
  apply (@account_stays_valid steps (alice_registered "hunter2") (alice_row "hunter2"));
    [vm_compute; reflexivity | vm_compute; auto
     | repeat constructor; eexists; constructor | vm_compute; reflexivity
     | vm_compute; reflexivity].
Defined.

(* ================================================================== *)
(** * The tab "Notifikasi" *)

Lemma for_each_emit {A : Type} (f : A -> ui_event) (l : list A) (w : world) :
  for_each l (fun x => emit (f x)) w = Ret tt (set_ui (ui w ++ map f l) w).
Proof.
  revert w. induction l as [|x l IH]; intros w; cbn [for_each map].
  - unfold ret. now rewrite set_ui_nil.
  - unfold bind. unfold emit at 1. rewrite IH. f_equal.
    apply (set_ui_app w [f x] (map f l)).
Qed.

(** The tab up to the teacher's form: the listing. *)
Lemma notifikasi_tab_listing (cl : class_row) (w : world) :
  notifikasi_tab cl w =
  (u <- session_user ;;
   if Py.str_eq (role u) "teacher" then
     new_notif <- st_text_input notif_label ;;
     clicked <- st_button "Kirim Notifikasi" ;;
     if clicked && Py.strip_truthy new_notif then
       nid <- uuid4_hex ;;
       now <- now_isoformat ;;
       execute (Sql.insert_notification (mk_notification nid (class_id cl) new_notif now)) ;;;
       commit ;;;
       experimental_rerun
     else ret tt
   else ret tt)
    (set_ui (ui w ++ map notification_line
                         (select_notifications NOTIFICATION_LIMIT (class_id cl) (conn w))) w).
Proof.
  unfold notifikasi_tab. unfold bind at 1. unfold query at 1.
  unfold bind at 1.
  rewrite (for_each_emit notification_line). reflexivity.
Qed.

Lemma notifikasi_ui (cl : class_row) (w : world) :
  ui (snd (run_script (notifikasi_tab cl) w)) =
  map notification_line (select_notifications NOTIFICATION_LIMIT (class_id cl) (disk w)).
Proof.
  unfold run_script. rewrite notifikasi_tab_listing.
  set (rows := select_notifications NOTIFICATION_LIMIT (class_id cl)
                                    (conn (set_ui [] (set_conn (disk w) w)))).
  change (select_notifications NOTIFICATION_LIMIT (class_id cl) (disk w)) with rows.
  set (w1 := set_ui _ _).
  assert (Hui : ui w1 = map notification_line rows) by reflexivity.
  clearbody w1 rows.
  unfold session_user, bind, get_session, st_text_input, st_button, ret, raise.
  cbv beta iota.
  destruct (user (session w1)) as [u|]; [|world_simpl; exact Hui].
  destruct (Py.str_eq (role u) "teacher"); [|world_simpl; exact Hui].
  destruct (button_value w1 "Kirim Notifikasi" && Py.strip_truthy _);
    [|world_simpl; exact Hui].
  unfold uuid4_hex, now_isoformat, execute, commit, experimental_rerun, raise.
  world_simpl.
  destruct (Sql.insert_notification _ _); world_simpl; exact Hui.
Qed.

(** X22. The tab "Notifikasi" shows the rows of its query and nothing else:
    one line "[created_at] message" for each of the 50 most recent
    notifications of the class, most recent first, whoever looks at it and
    whatever is clicked. *)
Theorem notifikasi_tab_shows_the_listing (cl : class_row) (w : world) :
  ui (snd (run_script (notifikasi_tab cl) w)) =
  map notification_line (select_notifications NOTIFICATION_LIMIT (class_id cl) (disk w)).
Proof. apply notifikasi_ui. Qed.

Lemma notifikasi_clicked (cl : class_row) (u : user_row) (w : world) :
  user (session w) = Some u ->
  role u = "teacher" ->
  pressed w = Some "Kirim Notifikasi" ->
  Py.strip_truthy (text_value w notif_label) = true ->
  notifikasi_tab cl w =
  let w1 := set_clock_pos (S (clock_pos w))
              (set_uuid_pos (S (uuid_pos w))
                 (set_ui (ui w ++ map notification_line
                            (select_notifications NOTIFICATION_LIMIT (class_id cl) (conn w)))
                         w)) in
  match Sql.insert_notification (notif_row w cl) (conn w) with
  | Some db => Raise RerunException (set_disk db (set_conn db w1))
  | None => Raise IntegrityError w1
  end.
Proof.
  intros Hu Hrole Hp Hmsg. rewrite notifikasi_tab_listing.
  unfold session_user. unfold bind at 1. unfold bind at 1. unfold get_session at 1.
  world_simpl. rewrite Hu. unfold ret at 1.
  unfold Py.str_eq. rewrite Hrole. cbn [String.eqb Ascii.eqb Bool.eqb andb].
  unfold bind, st_text_input, st_button, button_value. world_simpl. rewrite Hp.
  cbn [String.eqb Ascii.eqb Bool.eqb andb].
  change (text_value (set_ui _ w) notif_label) with (text_value w notif_label).
  rewrite Hmsg.
  unfold uuid4_hex, now_isoformat, execute, commit, experimental_rerun, raise.
  world_simpl. fold (notif_row w cl).
  destruct (Sql.insert_notification _ (conn w)); reflexivity.
Qed.

Lemma order_by_desc_newest {R : Type} (col : R -> string) (rows : list R) (r : R) :
  (forall x, In x rows -> String.ltb (col x) (col r) = true) ->
  Sql.order_by_desc col (rows ++ [r]) = r :: Sql.order_by_desc col rows.
Proof.
  unfold Sql.order_by_desc. rewrite fold_right_app. cbn [fold_right Sql.insert_desc].
  induction rows as [|x rows IH]; intros Hlt; cbn [fold_right]; [reflexivity|].
  rewrite IH by (intros y Hy; apply Hlt; now right).
  cbn [Sql.insert_desc]. now rewrite (Hlt x (or_introl eq_refl)).
Qed.

(** X23. A teacher's notification heads the listing: "Kirim Notifikasi" with
    a text typed stores the text as typed for the class, and when its time
    stamp is later than those of the notifications the class had, the tab
    shows it in the first line from then on. *)
Theorem broadcast_is_listed_first (cl : class_row) (u : user_row) (w w2 : world) :
  user (session w) = Some u ->
  role u = "teacher" ->
  pressed w = Some "Kirim Notifikasi" ->
  Py.strip_truthy (text_value w notif_label) = true ->
  Sql.taken notification_id (notifications (disk w)) (uuid_src w (uuid_pos w)) = false ->
  (forall n, In n (notifications (disk w)) -> notification_class_id n = class_id cl ->
             String.ltb (created_at n) (clock_src w (clock_pos w)) = true) ->
  let r := notif_row w cl in
  let res := run_script (notifikasi_tab cl) w in
  fst res = Some RerunException /\
  disk (snd res) = with_notification r (disk w) /\
  (disk w2 = disk (snd res) ->
   hd_error (ui (snd (run_script (notifikasi_tab cl) w2))) = Some (notification_line r)).
Proof.
  intros Hu Hrole Hp Hmsg Hfree Hnew r res.
  assert (H1 : fst res = Some RerunException /\ disk (snd res) = with_notification r (disk w)).
  { subst res. unfold run_script.
    rewrite (@notifikasi_clicked cl u (set_ui [] (set_conn (disk w) w)) Hu Hrole Hp Hmsg).
    change (notif_row (set_ui [] (set_conn (disk w) w)) cl) with r.
    cbv zeta. world_simpl. unfold Sql.insert_notification.
    change (notification_id r) with (uuid_src w (uuid_pos w)). rewrite Hfree. world_simpl.
    now split. }
  destruct H1 as [Hr Hd]. split; [exact Hr|]. split; [exact Hd|].
  intros Hw2. rewrite notifikasi_ui, Hw2, Hd.
  unfold select_notifications, with_notification, Sql.select_where. cbn [notifications].
  rewrite filter_app. cbn [filter].
  change (notification_class_id r) with (class_id cl). rewrite String.eqb_refl.
  rewrite order_by_desc_newest.
  - reflexivity.
  - intros x Hx. apply filter_In in Hx as [Hx Hc]. apply String.eqb_eq in Hc.
    now apply Hnew.
Qed.

(** A second notification of the teacher is listed above the first. *)
Lemma broadcast_demo :
  let w := set_inputs (widgets_of [(notif_label, "Ulangan diundur")])
                      (Some "Kirim Notifikasi")
                      (interact (notifikasi_tab demo_class_row)
                                [(notif_label, "Besok ulangan")] "Kirim Notifikasi" demo_two) in
  let r := notif_row w demo_class_row in
  let res := run_script (notifikasi_tab demo_class_row) w in
  fst res = Some RerunException /\
  disk (snd res) = with_notification r (disk w) /\
  (disk (snd res) = disk (snd res) ->
   hd_error (ui (snd (run_script (notifikasi_tab demo_class_row) (snd res)))) =
     Some (notification_line r)).
Proof.
  intros w.
  apply (@broadcast_is_listed_first demo_class_row
           (mk_user "uuid-00" "t1" "Ibu Guru" "teacher" (hash_password "rahasia")) w);
    [vm_compute; reflexivity | reflexivity | reflexivity | vm_compute; reflexivity
     | vm_compute; reflexivity |].
  intros n Hn _.
  assert (Hall : forallb (fun n => String.ltb (created_at n) (clock_src w (clock_pos w)))
                         (notifications (disk w)) = true) by (vm_compute; reflexivity).
  rewrite forallb_forall in Hall. exact (Hall n Hn).
Defined.
